(** * peter-video-agent: script parsing, audio synthesis and script editing

    A shallow embedding of the TypeScript sources

      - [src/App.tsx]: parseScriptText and handleUpdateScriptLine (module
        [App]);
      - [src/unnamed/part_000], the service that App calls: generateScript,
        generateAudioSegment, concatenateAudioBuffers and
        generateAudioWithElevenLabs (module [Part000]);
      - [src/services/aiService.ts], the bundle-era service:
        generateAudioSegment, concatenateAudioBuffers and
        generateAudioWithElevenLabs (module [AiServiceTs]).

    JavaScript strings are sequences of UTF-16 code units.  An async
    function is a computation that is run to completion over an explicit
    world (the ArrayBuffer store, the registered object URLs, the logs of
    the requests made, the timers awaited) and that returns or throws.  The
    network is a parameter: it answers a request as a function of the
    requests made before it.  Console output is not part of the world. *)

From Stdlib Require Import NArith ZArith Ascii String Strings.Byte DecimalString.
From stdpp Require Import base numbers list.

Set Default Proof Using "Type".

(* ===================================================================== *)
(** ** JavaScript strings *)
(* ===================================================================== *)

Module JsString.

(** A string is the list of its UTF-16 code units. *)
Definition jsstring : Type := list N.

(** An ASCII literal as a JavaScript string. *)
Definition js (s : string) : jsstring :=
  List.map N_of_ascii (list_ascii_of_string s).

Definition eqb (a b : jsstring) : bool := bool_decide (a = b).

(** ECMAScript LineTerminator: LF, CR, LS, PS. *)
Definition is_line_terminator (c : N) : bool :=
  (c =? 10)%N || (c =? 13)%N || (c =? 8232)%N || (c =? 8233)%N.

(** ECMAScript WhiteSpace together with LineTerminator: the set that
    [String.prototype.trim] strips and that [\s] matches. *)
Definition is_whitespace (c : N) : bool :=
  ((9 <=? c) && (c <=? 13))%N        (* TAB LF VT FF CR *)
  || (c =? 32)%N                     (* SPACE *)
  || (c =? 160)%N                    (* NBSP *)
  || (c =? 5760)%N                   (* U+1680 *)
  || ((8192 <=? c) && (c <=? 8202))%N (* U+2000 .. U+200A *)
  || (c =? 8232)%N || (c =? 8233)%N  (* LS PS *)
  || (c =? 8239)%N                   (* U+202F *)
  || (c =? 8287)%N                   (* U+205F *)
  || (c =? 12288)%N                  (* U+3000 *)
  || (c =? 65279)%N.                 (* U+FEFF *)

Fixpoint trimStart (s : jsstring) : jsstring :=
  match s with
  | [] => []
  | c :: s' => if is_whitespace c then trimStart s' else s
  end.

Definition trimEnd (s : jsstring) : jsstring := rev (trimStart (rev s)).

(** [s.trim()] *)
Definition trim (s : jsstring) : jsstring := trimEnd (trimStart s).

(** [s.trim() === ""], the test the sources use for blank text. *)
Definition is_blank (s : jsstring) : bool := eqb (trim s) [].

(** JavaScript truthiness of a string: only the empty string is falsy. *)
Definition truthy (s : jsstring) : bool := negb (eqb s []).

(** Truthiness of a [string | undefined]. *)
Definition truthy_opt (o : option jsstring) : bool :=
  match o with
  | Some s => truthy s
  | None => false
  end.

(** [s.toLowerCase()] on the ASCII range.  Code units outside [A-Z] are
    kept: the Unicode case mappings beyond ASCII neither produce nor
    consume a code unit of the ASCII markers this program searches for. *)
Definition lower_unit (c : N) : N :=
  if ((65 <=? c) && (c <=? 90))%N then (c + 32)%N else c.

Definition toLowerCase (s : jsstring) : jsstring := List.map lower_unit s.

(** [s.startsWith(p)] *)
Fixpoint startsWith (s p : jsstring) {struct p} : bool :=
  match p, s with
  | [], _ => true
  | _ :: _, [] => false
  | a :: p', c :: s' => (c =? a)%N && startsWith s' p'
  end.

(** [s.includes(p)] *)
Fixpoint includes (s p : jsstring) : bool :=
  startsWith s p ||
  match s with
  | [] => false
  | _ :: s' => includes s' p
  end.

(** [s.split('\n')]: never empty, [""] for the empty string. *)
Fixpoint split_newline (s : jsstring) : list jsstring :=
  match s with
  | [] => [[]]
  | c :: s' =>
      if (c =? 10)%N then [] :: split_newline s'
      else match split_newline s' with
           | l :: ls => (c :: l) :: ls
           | [] => [[c]]
           end
  end.

(** [parts.join(sep)] *)
Fixpoint join (sep : jsstring) (parts : list jsstring) : jsstring :=
  match parts with
  | [] => []
  | [p] => p
  | p :: ps => p ++ sep ++ join sep ps
  end.

(** Decimal rendering of a non-negative integer in a template literal. *)
Definition of_N (n : N) : jsstring :=
  js (NilZero.string_of_uint (N.to_uint n)).

Definition of_nat (n : nat) : jsstring := of_N (N.of_nat n).

End JsString.

Import JsString.

Arguments js : simpl never.
Arguments of_N : simpl never.
Arguments of_nat : simpl never.

(* ===================================================================== *)
(** ** types.ts *)
(* ===================================================================== *)

Record ScriptLine := { speaker : jsstring; text : jsstring }.

Record AudioGenerationDetails := { url : jsstring; statusMessage : jsstring }.

(* ===================================================================== *)
(** ** Regular expressions: a backtracking matcher *)
(* ===================================================================== *)

(** The pieces of the speaker pattern of parseScriptText,
  [^ ( Person [A-Za-z0-9]+ ) : \s* ( .* ) $] with the [i] flag (written
  here with blanks between its pieces), as backtracking matchers in
  continuation-passing style.  A continuation receives the code units
  the piece consumed and the remaining input; a piece that has
  alternatives (the greedy quantifiers) tries them in priority order and
  keeps the first for which the continuation succeeds. *)
Module Regex.

Section Matchers.
Context {R : Type}.

Definition cont : Type := jsstring -> jsstring -> option R.

(** One code unit satisfying [p]. *)
Definition one (p : N -> bool) (s : jsstring) (k : cont) : option R :=
  match s with
  | c :: s' => if p c then k [c] s' else None
  | [] => None
  end.

(** Greedy [p*]: the longest run first, then shorter ones. *)
Fixpoint star (p : N -> bool) (s : jsstring) (k : cont) : option R :=
  match s with
  | c :: s' =>
      if p c then
        match star p s' (fun m rest => k (c :: m) rest) with
        | Some r => Some r
        | None => k [] s
        end
      else k [] s
  | [] => k [] []
  end.

(** Greedy [p+]. *)
Definition plus (p : N -> bool) (s : jsstring) (k : cont) : option R :=
  one p s (fun m1 r1 => star p r1 (fun m2 r2 => k (m1 ++ m2) r2)).

(** A literal, each pattern unit compared with [same]. *)
Fixpoint lit (same : N -> N -> bool) (pat : jsstring) (s : jsstring)
    (k : cont) : option R :=
  match pat with
  | [] => k [] s
  | a :: pat' =>
      one (same a) s (fun m1 r1 =>
        lit same pat' r1 (fun m2 r2 => k (m1 ++ m2) r2))
  end.

(** [$] without the [m] flag: only the end of the input. *)
Definition eol (s : jsstring) (k : option R) : option R :=
  match s with
  | [] => k
  | _ :: _ => None
  end.
End Matchers.

(** Canonicalize of the [i] flag (no [u] flag): upper-casing, which on
    ASCII letters is the only folding that relates two ASCII units; a
    non-ASCII unit never canonicalizes to an ASCII one. *)
Definition canonicalize (c : N) : N :=
  if ((97 <=? c) && (c <=? 122))%N then (c - 32)%N else c.

Definition same_ci (a c : N) : bool := (canonicalize c =? canonicalize a)%N.

Definition same_cs (a c : N) : bool := (c =? a)%N.

(** [[A-Za-z0-9]]; the class is closed under case folding, so it is the
    same with the [i] flag. *)
Definition class_alnum (c : N) : bool :=
  ((48 <=? c) && (c <=? 57))%N || ((65 <=? c) && (c <=? 90))%N
  || ((97 <=? c) && (c <=? 122))%N.

(** [\s] *)
Definition class_space (c : N) : bool := is_whitespace c.

(** [.] without the [s] flag. *)
Definition class_dot (c : N) : bool := negb (is_line_terminator c).

End Regex.

(* ===================================================================== *)
(** ** src/App.tsx *)
(* ===================================================================== *)

Module App.

(** [line.match(speakerRegex)]: the two captures
    [match[1]] and [match[2]], or [None] for [null].  The pattern is
    anchored by [^], so only a match starting at index 0 exists. *)
Definition speakerRegex (line : jsstring) : option (jsstring * jsstring) :=
  Regex.lit Regex.same_ci (js "Person ") line (fun g1a r1 =>
  Regex.plus Regex.class_alnum r1 (fun g1b r2 =>
  Regex.lit Regex.same_cs (js ":") r2 (fun _ r3 =>
  Regex.star Regex.class_space r3 (fun _ r4 =>
  Regex.star Regex.class_dot r4 (fun g2 r5 =>
  Regex.eol r5 (Some (g1a ++ g1b, g2))))))).

(** The body of the [for (const line of lines)] loop. *)
Definition parse_step (parsedLines : list ScriptLine) (line : jsstring)
    : list ScriptLine :=
  match speakerRegex line with
  | Some (m1, m2) => parsedLines ++ [{| speaker := m1; text := trim m2 |}]
  | None => parsedLines
  end.

Definition parseScriptText (text : jsstring) : list ScriptLine :=
  let lines :=
    List.filter (fun line => negb (eqb (trim line) []))
      (split_newline text) in
  fold_left parse_step lines [].

(** The component state: one field per [useState]. *)
Record State := {
  topic : jsstring;
  scriptLines : list ScriptLine;
  audioUrl : jsstring;
  audioStatusMessage : jsstring;
  videoUrl : jsstring;
  isLoadingScript : bool;
  isGeneratingAudio : bool;
  isScriptDirty : bool;
  currentStatusMessage : jsstring;
  error : option jsstring
}.

(** [newLines[index]] for a numeric index: an element for an integer
    within bounds, [undefined] otherwise (a number that is not an integer
    reads [undefined] as well, like an integer out of bounds). *)
Definition element_at (newLines : list ScriptLine) (index : Z)
    : option ScriptLine :=
  if (index <? 0)%Z then None else newLines !! Z.to_nat index.

(** [newSpeaker || old] *)
Definition or_else (newSpeaker : option jsstring) (old : jsstring) : jsstring :=
  match newSpeaker with
  | Some s => if truthy s then s else old
  | None => old
  end.

(** The updater passed to [setScriptLines]. *)
Definition update_lines (index : Z) (newText : jsstring)
    (newSpeaker : option jsstring) (prevLines : list ScriptLine)
    : list ScriptLine :=
  let newLines := prevLines in
  match element_at newLines index with
  | Some old =>
      <[Z.to_nat index :=
          {| speaker := or_else newSpeaker (speaker old); text := newText |}]>
        newLines
  | None => newLines
  end.

Definition handleUpdateScriptLine (index : Z) (newText : jsstring)
    (newSpeaker : option jsstring) (st : State) : State :=
  {| topic := topic st;
     scriptLines := update_lines index newText newSpeaker (scriptLines st);
     audioUrl := [];
     audioStatusMessage := js "Script edited. Please regenerate audio.";
     videoUrl := videoUrl st;
     isLoadingScript := isLoadingScript st;
     isGeneratingAudio := isGeneratingAudio st;
     isScriptDirty := true;
     currentStatusMessage := currentStatusMessage st;
     error := error st |}.

End App.

(* ===================================================================== *)
(** ** The browser runtime the services run against *)
(* ===================================================================== *)

Module Runtime.

(** A thrown value: an [Error] instance with its message, or anything
    else. *)
Inductive Thrown :=
| ErrorObj (message : jsstring)
| NonError.

(** A reference to an ArrayBuffer: its position in the store. *)
Definition ArrayBuffer : Type := nat.

(** A [Uint8Array] spanning a whole ArrayBuffer; it shares the buffer's
    bytes. *)
Record Uint8Array := { buffer : ArrayBuffer }.

Record Blob := { blob_bytes : list byte; blob_type : jsstring }.

(** The JSON body and headers of one text-to-speech POST. *)
Record TtsRequest := {
  req_url : jsstring;
  req_api_key : option jsstring;
  req_text : jsstring;
  req_model_id : jsstring;
  req_output_format : option jsstring;
  req_stability : jsstring;
  req_similarity_boost : jsstring;
  req_use_speaker_boost : option bool;
  req_previous_text : option jsstring;
  req_next_text : option jsstring
}.

(** One [ai.models.generateContent] call. *)
Record GenRequest := {
  gen_model : jsstring;
  gen_contents : jsstring;
  gen_temperature : jsstring;
  gen_topK : N;
  gen_topP : jsstring
}.

(** What a [fetch] of the text-to-speech endpoint can do: reject, or
    resolve to a response whose body read ([text()] when not ok,
    [arrayBuffer()] when ok) resolves or rejects in turn. *)
Inductive FetchOutcome :=
| FetchRejected (e : Thrown)
| HttpNotOk (status : N) (body : Thrown + jsstring)
| HttpOk (body : Thrown + list byte).

(** [generateContent] rejects, or resolves to a response whose [text] is
    a string or [undefined]. *)
Inductive GenOutcome :=
| GenRejected (e : Thrown)
| GenResponse (response_text : option jsstring).

(** The outside world.  The network answers a request as a function of
    everything requested before it and the request itself.
    [JSON_detail body] stands for [JSON.parse(body)] followed by the
    reads of [.detail?.message] and [.detail]: [None] when parsing or
    the reads throw, otherwise the renderings of the two values, each
    [None] when the value is falsy. *)
Record Platform := {
  fetch_tts : list TtsRequest -> TtsRequest -> FetchOutcome;
  generateContent : list GenRequest -> GenRequest -> GenOutcome;
  JSON_detail : jsstring -> option (option jsstring * option jsstring)
}.

(** [process.env] *)
Record ProcessEnv := {
  API_KEY : option jsstring;
  ELEVENLABS_API_KEY : option jsstring
}.

Record World := {
  arrayBuffers : list (list byte);
  objectURLs : list Blob;
  ttsLog : list TtsRequest;
  genLog : list GenRequest;
  timers : list N
}.

(** Field updates of the world. *)
Definition with_arrayBuffers (w : World) (bs : list (list byte)) : World :=
  {| arrayBuffers := bs; objectURLs := objectURLs w; ttsLog := ttsLog w;
     genLog := genLog w; timers := timers w |}.

Definition with_objectURLs (w : World) (us : list Blob) : World :=
  {| arrayBuffers := arrayBuffers w; objectURLs := us; ttsLog := ttsLog w;
     genLog := genLog w; timers := timers w |}.

Definition with_ttsLog (w : World) (log : list TtsRequest) : World :=
  {| arrayBuffers := arrayBuffers w; objectURLs := objectURLs w; ttsLog := log;
     genLog := genLog w; timers := timers w |}.

Definition with_genLog (w : World) (log : list GenRequest) : World :=
  {| arrayBuffers := arrayBuffers w; objectURLs := objectURLs w; ttsLog := ttsLog w;
     genLog := log; timers := timers w |}.

Definition with_timers (w : World) (ts : list N) : World :=
  {| arrayBuffers := arrayBuffers w; objectURLs := objectURLs w; ttsLog := ttsLog w;
     genLog := genLog w; timers := ts |}.

Inductive Outcome (A : Type) :=
| Returned (a : A)
| Threw (e : Thrown).
Arguments Returned {A} a.
Arguments Threw {A} e.

(** An async function run to completion: it maps the world to an outcome
    and the world it leaves. *)
Definition Async (A : Type) : Type := World -> Outcome A * World.

Definition ret {A} (a : A) : Async A := fun w => (Returned a, w).

Definition bind {A B} (m : Async A) (k : A -> Async B) : Async B :=
  fun w =>
    match m w with
    | (Returned a, w') => k a w'
    | (Threw e, w') => (Threw e, w')
    end.

Definition throw {A} (e : Thrown) : Async A := fun w => (Threw e, w).

(** [try { m } catch (error) { h error }] *)
Definition try_catch {A} (m : Async A) (h : Thrown -> Async A) : Async A :=
  fun w =>
    match m w with
    | (Returned a, w') => (Returned a, w')
    | (Threw e, w') => h e w'
    end.

(** [await] of a promise that settled with [r]. *)
Definition settle {A} (r : Thrown + A) : Async A :=
  match r with
  | inl e => throw e
  | inr a => ret a
  end.

Notation "'let*' x ':=' m 'in' k" := (bind m (fun x => k))
  (at level 10, x name, m at level 100, k at level 200).

(** The bytes of a buffer. *)
Definition bytes_of (w : World) (b : ArrayBuffer) : list byte :=
  default [] (arrayBuffers w !! b).

Definition alloc (bytes : list byte) : Async ArrayBuffer :=
  fun w =>
    (Returned (length (arrayBuffers w)),
     with_arrayBuffers w (arrayBuffers w ++ [bytes])).

(** [new ArrayBuffer(n)]: [n] zero bytes. *)
Definition new_ArrayBuffer (n : nat) : Async ArrayBuffer :=
  alloc (replicate n x00).

(** [new Uint8Array(n)]: a view of a new zeroed buffer. *)
Definition new_Uint8Array (n : nat) : Async Uint8Array :=
  let* b := new_ArrayBuffer n in ret {| buffer := b |}.

(** [new Uint8Array(b)]: a view of an existing buffer. *)
Definition Uint8Array_of (b : ArrayBuffer) : Uint8Array := {| buffer := b |}.

(** [b.byteLength] *)
Definition byteLength (b : ArrayBuffer) : Async nat :=
  fun w => (Returned (length (bytes_of w b)), w).

(** [target.set(source, offset)]: copies the source bytes over the target
    from [offset] on; a source that does not fit is a RangeError (its
    message is the engine's). *)
Definition Uint8Array_set (target source : Uint8Array) (offset : nat)
    : Async unit :=
  fun w =>
    let src := bytes_of w (buffer source) in
    let tgt := bytes_of w (buffer target) in
    if length tgt <? offset + length src then
      (Threw (ErrorObj (js "offset is out of bounds")), w)
    else
      (Returned tt,
       with_arrayBuffers w
         (<[buffer target :=
              take offset tgt ++ src ++ drop (offset + length src) tgt]>
            (arrayBuffers w))).

(** [new Blob([b], { type })]: a copy of the buffer's bytes. *)
Definition new_Blob (b : ArrayBuffer) (type : jsstring) : Async Blob :=
  fun w => (Returned {| blob_bytes := bytes_of w b; blob_type := type |}, w).

(** The object URL under which the [n]-th registered blob is served: the
    blob at position [n] of [objectURLs]. *)
Definition object_url (n : nat) : jsstring := js "blob:" ++ of_nat n.

(** [URL.createObjectURL(blob)] *)
Definition createObjectURL (blob : Blob) : Async jsstring :=
  fun w =>
    (Returned (object_url (length (objectURLs w))),
     with_objectURLs w (objectURLs w ++ [blob])).

(** [await new Promise(resolve => setTimeout(resolve, ms))] *)
Definition sleep (ms : N) : Async unit :=
  fun w =>
    (Returned tt, with_timers w (timers w ++ [ms])).

(** [await fetch(url, { method: 'POST', headers, body })]: the request is
    logged and the network answers it. *)
Definition fetch (net : Platform) (req : TtsRequest) : Async FetchOutcome :=
  fun w =>
    (Returned (fetch_tts net (ttsLog w) req),
     with_ttsLog w (ttsLog w ++ [req])).

(** [await ai.models.generateContent(req)] *)
Definition models_generateContent (net : Platform) (req : GenRequest)
    : Async GenOutcome :=
  fun w =>
    (Returned (generateContent net (genLog w) req),
     with_genLog w (genLog w ++ [req])).

(** [error instanceof Error ? error.message : fallback] *)
Definition message_or (error : Thrown) (fallback : jsstring) : jsstring :=
  match error with
  | ErrorObj m => m
  | NonError => fallback
  end.

End Runtime.

Import Runtime.

(* ===================================================================== *)
(** ** src/unnamed/part_000: the service behind the editing App *)
(* ===================================================================== *)

Module Part000.

Section Service.
Context (env : ProcessEnv) (net : Platform).

Definition GEMINI_API_KEY : option jsstring := API_KEY env.

Definition SCRIPT_GENERATION_MODEL : jsstring := js "gemini-2.5-flash-preview-04-17".

Definition ELEVENLABS_TTS_BASE_URL : jsstring :=
  js "https://api.elevenlabs.io/v1/text-to-speech/".

Definition VOICE_ID_PERSON_A : jsstring := js "WAhoMTNdLdMoq1j3wf3I".

Definition VOICE_ID_PERSON_B : jsstring := js "KH1SQLVulwP6uG4O3nmT".

Definition ELEVENLABS_MODEL_ID : jsstring := js "eleven_turbo_v2".

(** The placeholder audio, a literal at both of its return sites. *)
Definition PLACEHOLDER_AUDIO_URL : jsstring :=
  js "https://interactive-examples.mdn.mozilla.net/media/cc0-audio/t-rex-roar.mp3".

(** The prompt template, line by line; the topic stands between double
    quotes (code unit 34). *)
Definition prompt (topic : jsstring) : jsstring :=
  join [10%N]
    [ js "You are an AI assistant specialized in creating educational content.";
      js "    Generate a conversational script between two distinct characters, Person A and Person B.";
      js "    The script should explain and explore the following topic: "
        ++ [34%N] ++ topic ++ [34%N] ++ js ".";
      js "    Make the script engaging, clear, and suitable for a general audience.";
      js "    Ensure Person A and Person B have distinct speaking styles or perspectives. The conversation should be one back and forth exchange, underneath 5 words.";
      js "    Format each line strictly as 'Person A: [dialogue]' or 'Person B: [dialogue]'. Start directly with the dialogue.";
      js "    Do not include any introductory or concluding remarks outside the dialogue format.";
      js "    Example:";
      js "    Person A: Let's discuss the basics of photosynthesis.";
      js "    Person B: Great idea! Where do we start?";
      js "    Person A: We can begin with the role of chlorophyll." ].

(** The body of the [try] block of generateScript. *)
Definition generateScript_try (topic : jsstring) : Async jsstring :=
  let* response :=
    models_generateContent net
      {| gen_model := SCRIPT_GENERATION_MODEL;
         gen_contents := prompt topic;
         gen_temperature := js "0.7";
         gen_topK := 40;
         gen_topP := js "0.95" |} in
  match response with
  | GenRejected e => throw e
  | GenResponse scriptText =>
      match scriptText with
      | None =>
          throw (ErrorObj (js "AI failed to generate a script. The response was empty."))
      | Some scriptText =>
          if negb (truthy scriptText) || eqb (trim scriptText) [] then
            throw (ErrorObj (js "AI failed to generate a script. The response was empty."))
          else ret scriptText
      end
  end.

(** The [catch] block of generateScript. *)
Definition generateScript_catch (error : Thrown) : Async jsstring :=
  let errorMessage :=
    message_or error (js "An unknown error occurred during script generation.") in
  let errorMessage :=
    match error with
    | ErrorObj m =>
        if includes m (js "API key not valid") then
          js "The provided Gemini API Key is not valid. Please check your configuration."
        else errorMessage
    | NonError => errorMessage
    end in
  throw (ErrorObj errorMessage).

Definition generateScript (topic : jsstring) : Async jsstring :=
  if negb (truthy_opt GEMINI_API_KEY) then
    throw (ErrorObj (js "Gemini API Key is not configured. Cannot connect to AI services."))
  else try_catch (generateScript_try topic) generateScript_catch.

(** The request generateAudioSegment posts. *)
Definition requestFor (text voiceId : jsstring) : TtsRequest :=
  {| req_url := ELEVENLABS_TTS_BASE_URL ++ voiceId;
     req_api_key := ELEVENLABS_API_KEY env;
     req_text := text;
     req_model_id := ELEVENLABS_MODEL_ID;
     req_output_format := None;
     req_stability := js "0.5";
     req_similarity_boost := js "0.75";
     req_use_speaker_boost := None;
     req_previous_text := None;
     req_next_text := None |}.

(** The message built from a response that is not ok:
    [parsedError.detail?.message || parsedError.detail || errorBody]
    inside [try], [errorBody] in [catch]. *)
Definition notOkMessage (status : N) (errorBody : jsstring) : jsstring :=
  let errorMessage := js "ElevenLabs API error: " ++ of_N status in
  match JSON_detail net errorBody with
  | Some (Some m, _) => errorMessage ++ js " - " ++ m
  | Some (None, Some d) => errorMessage ++ js " - " ++ d
  | Some (None, None) => errorMessage ++ js " - " ++ errorBody
  | None => errorMessage ++ js " - " ++ errorBody
  end.

Definition generateAudioSegment (text voiceId : jsstring) : Async ArrayBuffer :=
  let* response := fetch net (requestFor text voiceId) in
  match response with
  | FetchRejected e => throw e
  | HttpNotOk status body =>
      let* errorBody := settle body in
      throw (ErrorObj (notOkMessage status errorBody))
  | HttpOk body =>
      let* bytes := settle body in
      alloc bytes
  end.

(** [buffers.reduce((sum, buffer) => sum + buffer.byteLength, 0)] *)
Fixpoint sum_byteLength (buffers : list ArrayBuffer) (sum : nat) : Async nat :=
  match buffers with
  | [] => ret sum
  | buffer :: rest =>
      let* n := byteLength buffer in
      sum_byteLength rest (sum + n)
  end.

(** The [for (const buffer of buffers)] loop writing through [result]. *)
Fixpoint copy_loop (result : Uint8Array) (buffers : list ArrayBuffer)
    (offset : nat) : Async unit :=
  match buffers with
  | [] => ret tt
  | buffer :: rest =>
      let* _ := Uint8Array_set result (Uint8Array_of buffer) offset in
      let* n := byteLength buffer in
      copy_loop result rest (offset + n)
  end.

Definition concatenateAudioBuffers (buffers : list ArrayBuffer) : Async ArrayBuffer :=
  let* totalLength := sum_byteLength buffers 0 in
  let* result := new_Uint8Array totalLength in
  let* _ := copy_loop result buffers 0 in
  ret (buffer result).

(** The voice chosen for a line. *)
Definition voiceId (line : ScriptLine) : jsstring :=
  if includes (toLowerCase (speaker line)) (js "person a")
     || includes (toLowerCase (speaker line)) (js " a:")
  then VOICE_ID_PERSON_A
  else VOICE_ID_PERSON_B.

(** The [for (let i = 0; i < scriptLines.length; i++)] loop: [n] is
    [scriptLines.length], [rest] the lines from index [i] on. *)
Fixpoint segments_loop (n i : nat) (rest : list ScriptLine)
    (audioSegments : list ArrayBuffer) : Async (list ArrayBuffer) :=
  match rest with
  | [] => ret audioSegments
  | line :: rest' =>
      let voiceId := voiceId line in
      if negb (truthy (text line)) || eqb (trim (text line)) [] then
        segments_loop n (S i) rest' audioSegments
      else
        let* audioBuffer := generateAudioSegment (text line) voiceId in
        let audioSegments := audioSegments ++ [audioBuffer] in
        let* _ := (if i <? n - 1 then sleep 250 else ret tt) in
        segments_loop n (S i) rest' audioSegments
  end.

(** The body of the [try] block of generateAudioWithElevenLabs. *)
Definition generateAudio_try (scriptLines : list ScriptLine)
    : Async AudioGenerationDetails :=
  let* audioSegments := segments_loop (length scriptLines) 0 scriptLines [] in
  if length audioSegments =? 0 then
    ret {| url := [];
           statusMessage :=
             js "No audio generated as all script lines were empty or resulted in no audio." |}
  else
    let* finalAudioBuffer := concatenateAudioBuffers audioSegments in
    let* audioBlob := new_Blob finalAudioBuffer (js "audio/mpeg") in
    let* audioUrl := createObjectURL audioBlob in
    ret {| url := audioUrl;
           statusMessage :=
             js "Audio successfully generated with "
             ++ of_nat (length audioSegments)
             ++ js " segments using multiple voices." |}.

(** The [catch] block of generateAudioWithElevenLabs. *)
Definition generateAudio_catch (error : Thrown) : Async AudioGenerationDetails :=
  let errorMessage := message_or error (js "Unknown error") in
  ret {| url := PLACEHOLDER_AUDIO_URL;
         statusMessage :=
           js "Multi-voice audio generation failed: " ++ errorMessage
           ++ js ". Placeholder audio provided." |}.

Definition generateAudioWithElevenLabs (scriptLines : list ScriptLine)
    : Async AudioGenerationDetails :=
  if negb (truthy_opt (ELEVENLABS_API_KEY env)) then
    ret {| url := PLACEHOLDER_AUDIO_URL;
           statusMessage :=
             js "Audio generation simulated (API key missing). Placeholder audio provided." |}
  else if length scriptLines =? 0 then
    ret {| url := []; statusMessage := js "No script lines to generate audio from." |}
  else try_catch (generateAudio_try scriptLines) generateAudio_catch.

End Service.

End Part000.

(* ===================================================================== *)
(** ** src/services/aiService.ts: the bundle-era service *)
(* ===================================================================== *)

Module AiServiceTs.

Section Service.
Context (env : ProcessEnv) (net : Platform).

Definition ELEVENLABS_TTS_BASE_URL : jsstring :=
  js "https://api.elevenlabs.io/v1/text-to-speech/".

Definition VOICE_ID_PERSON_A : jsstring := js "WAhoMTNdLdMoq1j3wf3I".

Definition VOICE_ID_PERSON_B : jsstring := js "KH1SQLVulwP6uG4O3nmT".

Definition ELEVENLABS_MODEL_ID : jsstring := js "eleven_turbo_v2".

(** The placeholder audio, a literal at both of its return sites. *)
Definition PLACEHOLDER_AUDIO_URL : jsstring :=
  js "https://interactive-examples.mdn.mozilla.net/media/cc0-audio/t-rex-roar.mp3".

(** [if (previousText) requestBody.previous_text = previousText]: a falsy
    context (undefined or the empty string) is not sent. *)
Definition if_truthy (o : option jsstring) : option jsstring :=
  if truthy_opt o then o else None.

Definition requestFor (text voiceId : jsstring)
    (previousText nextText : option jsstring) : TtsRequest :=
  {| req_url := ELEVENLABS_TTS_BASE_URL ++ voiceId;
     req_api_key := ELEVENLABS_API_KEY env;
     req_text := text;
     req_model_id := ELEVENLABS_MODEL_ID;
     req_output_format := Some (js "mp3_44100_128");
     req_stability := js "0.5";
     req_similarity_boost := js "0.75";
     req_use_speaker_boost := Some true;
     req_previous_text := if_truthy previousText;
     req_next_text := if_truthy nextText |}.

(** [parsedError.detail?.message || errorBody] inside [try], [errorBody]
    in [catch]. *)
Definition notOkMessage (status : N) (errorBody : jsstring) : jsstring :=
  let errorMessage := js "ElevenLabs API error: " ++ of_N status in
  match JSON_detail net errorBody with
  | Some (Some m, _) => errorMessage ++ js " - " ++ m
  | Some (None, _) => errorMessage ++ js " - " ++ errorBody
  | None => errorMessage ++ js " - " ++ errorBody
  end.

Definition generateAudioSegment (text voiceId : jsstring)
    (previousText nextText : option jsstring) : Async ArrayBuffer :=
  let* response := fetch net (requestFor text voiceId previousText nextText) in
  match response with
  | FetchRejected e => throw e
  | HttpNotOk status body =>
      let* errorBody := settle body in
      throw (ErrorObj (notOkMessage status errorBody))
  | HttpOk body =>
      let* bytes := settle body in
      alloc bytes
  end.

(** [buffers.reduce((sum, buffer) => sum + buffer.byteLength, 0)] *)
Fixpoint sum_byteLength (buffers : list ArrayBuffer) (sum : nat) : Async nat :=
  match buffers with
  | [] => ret sum
  | buffer :: rest =>
      let* n := byteLength buffer in
      sum_byteLength rest (sum + n)
  end.

(** The [for (const buffer of buffers)] loop writing through [resultView]. *)
Fixpoint copy_loop (resultView : Uint8Array) (buffers : list ArrayBuffer)
    (offset : nat) : Async unit :=
  match buffers with
  | [] => ret tt
  | buffer :: rest =>
      let* _ := Uint8Array_set resultView (Uint8Array_of buffer) offset in
      let* n := byteLength buffer in
      copy_loop resultView rest (offset + n)
  end.

Definition concatenateAudioBuffers (buffers : list ArrayBuffer) : Async ArrayBuffer :=
  let* totalLength := sum_byteLength buffers 0 in
  let* result := new_ArrayBuffer totalLength in
  let resultView := Uint8Array_of result in
  let* _ := copy_loop resultView buffers 0 in
  ret result.

Definition voiceId (line : ScriptLine) : jsstring :=
  if includes (toLowerCase (speaker line)) (js "person a")
     || includes (toLowerCase (speaker line)) (js " a:")
  then VOICE_ID_PERSON_A
  else VOICE_ID_PERSON_B.

(** [scriptLines.slice(0, i).map(l => l.text).join(' ')] for [i > 0] *)
Definition previousText (scriptLines : list ScriptLine) (i : nat)
    : option jsstring :=
  if 0 <? i then Some (join [32%N] (List.map text (take i scriptLines)))
  else None.

(** [scriptLines.slice(i + 1).map(l => l.text).join(' ')] for
    [i < scriptLines.length - 1] *)
Definition nextText (scriptLines : list ScriptLine) (i : nat)
    : option jsstring :=
  if i <? length scriptLines - 1
  then Some (join [32%N] (List.map text (drop (i + 1) scriptLines)))
  else None.

(** The [for] loop over the indices: [rest] holds the lines from index [i]
    on; every line is synthesized, none is skipped. *)
Fixpoint segments_loop (scriptLines : list ScriptLine) (i : nat)
    (rest : list ScriptLine) (audioSegments : list ArrayBuffer)
    : Async (list ArrayBuffer) :=
  match rest with
  | [] => ret audioSegments
  | line :: rest' =>
      let voiceId := voiceId line in
      let previousText := previousText scriptLines i in
      let nextText := nextText scriptLines i in
      let* audioBuffer :=
        generateAudioSegment (text line) voiceId previousText nextText in
      let audioSegments := audioSegments ++ [audioBuffer] in
      let* _ := (if i <? length scriptLines - 1 then sleep 100 else ret tt) in
      segments_loop scriptLines (S i) rest' audioSegments
  end.

(** The body of the [try] block of generateAudioWithElevenLabs. *)
Definition generateAudio_try (scriptLines : list ScriptLine)
    : Async AudioGenerationDetails :=
  let* audioSegments := segments_loop scriptLines 0 scriptLines [] in
  let* finalAudioBuffer := concatenateAudioBuffers audioSegments in
  let* audioBlob := new_Blob finalAudioBuffer (js "audio/mpeg") in
  let* audioUrl := createObjectURL audioBlob in
  ret {| url := audioUrl;
         statusMessage :=
           js "Audio successfully generated with "
           ++ of_nat (length scriptLines)
           ++ js " segments using multiple voices." |}.

Definition generateAudio_catch (error : Thrown) : Async AudioGenerationDetails :=
  let errorMessage := message_or error (js "Unknown error") in
  ret {| url := PLACEHOLDER_AUDIO_URL;
         statusMessage :=
           js "Multi-voice audio generation failed: " ++ errorMessage
           ++ js ". Placeholder audio provided." |}.

Definition generateAudioWithElevenLabs (scriptLines : list ScriptLine)
    : Async AudioGenerationDetails :=
  if negb (truthy_opt (ELEVENLABS_API_KEY env)) then
    ret {| url := PLACEHOLDER_AUDIO_URL;
           statusMessage :=
             js "Audio generation simulated (API key missing). Placeholder audio provided." |}
  else if length scriptLines =? 0 then
    ret {| url := []; statusMessage := js "No script lines to generate audio from." |}
  else try_catch (generateAudio_try scriptLines) generateAudio_catch.

End Service.

End AiServiceTs.

(* ===================================================================== *)
(** ** Vocabulary of the statements and sample inputs *)
(* ===================================================================== *)

(** A string with no white space at either end. *)
Definition Trimmed (s : jsstring) : Prop :=
  match s with [] => True | c :: _ => is_whitespace c = false end /\
  match rev s with [] => True | c :: _ => is_whitespace c = false end.

(** The non-blank lines of a raw text, in order. *)
Definition nonblank_lines (raw : jsstring) : list jsstring :=
  List.filter (fun line => negb (is_blank line)) (split_newline raw).

(** What one line contributes to the parsed script. *)
Definition parsed_of (line : jsstring) : list ScriptLine :=
  match App.speakerRegex line with
  | Some (m1, m2) => [{| speaker := m1; text := trim m2 |}]
  | None => []
  end.

(** The lines the speaker pattern accepts, with the two captures: a label
    that reads "Person " in any letter case followed by letters and digits,
    a colon, white space, and an utterance that starts with no white space
    and holds no line terminator. *)
Definition SpeakerLine (line g1 g2 : jsstring) : Prop :=
  exists p id ws,
    g1 = p ++ id /\
    line = g1 ++ js ":" ++ ws ++ g2 /\
    Forall2 (fun a c => Regex.same_ci a c = true) (js "Person ") p /\
    id <> [] /\ Forall (fun c => Regex.class_alnum c = true) id /\
    Forall (fun c => is_whitespace c = true) ws /\
    match g2 with [] => True | c :: _ => is_whitespace c = false end /\
    Forall (fun c => is_line_terminator c = false) g2.

(** How a parsed script line relates to the input line it comes from: the
    line is a speaker line, the speaker is its first capture, the text its
    trimmed second capture, which is also the trimmed remainder of the line
    after the speaker's colon. *)
Definition parsed_from (line : jsstring) (r : ScriptLine) : Prop :=
  exists g2 rest,
    App.speakerRegex line = Some (speaker r, g2) /\
    SpeakerLine line (speaker r) g2 /\
    text r = trim g2 /\
    line = speaker r ++ js ":" ++ rest /\
    text r = trim rest /\
    Trimmed (text r).

Definition sample_raw : jsstring :=
  join [10%N] [ []; js "Person A:   Gravity pulls.  "; js "   ";
               js "person b2: Right."; [] ].

Definition sample_state : App.State :=
  {| App.topic := js "gravity";
     App.scriptLines :=
       [ {| speaker := js "Person A"; text := js "Gravity pulls." |};
         {| speaker := js "Person B"; text := js "Right." |} ];
     App.audioUrl := js "blob:0";
     App.audioStatusMessage := js "Audio successfully generated with 2 segments using multiple voices.";
     App.videoUrl := js "https://www.youtube.com/shorts/iYipwtIa1Po";
     App.isLoadingScript := false;
     App.isGeneratingAudio := false;
     App.isScriptDirty := false;
     App.currentStatusMessage := js "Audio generation complete!";
     App.error := None |}.

(** The lines the synthesizer does not skip. *)
Definition spoken (lines : list ScriptLine) : list ScriptLine :=
  List.filter (fun line => negb (is_blank (text line))) lines.

(** The request the synthesizer makes for a line. *)
Definition request_of (env : ProcessEnv) (line : ScriptLine) : TtsRequest :=
  Part000.requestFor env (text line) (Part000.voiceId line).

(** The network answers the requests [reqs], made in this order after the
    requests [hist], with the audio buffers [bufs]. *)
Fixpoint answered (net : Platform) (hist reqs : list TtsRequest)
    (bufs : list (list byte)) : Prop :=
  match reqs, bufs with
  | [], [] => True
  | req :: reqs', b :: bufs' =>
      fetch_tts net hist req = HttpOk (inr b) /\
      answered net (hist ++ [req]) reqs' bufs'
  | _, _ => False
  end.

(** The value a request throws, for the outcomes that make it fail. *)
Definition thrown_by (net : Platform) (o : FetchOutcome) : option Thrown :=
  match o with
  | FetchRejected e => Some e
  | HttpNotOk _ (inl e) => Some e
  | HttpNotOk status (inr errorBody) =>
      Some (ErrorObj (Part000.notOkMessage net status errorBody))
  | HttpOk (inl e) => Some e
  | HttpOk (inr _) => None
  end.

(** The world a successful synthesis leaves: the per-line buffers and their
    concatenation in the store, the requests in the log, one new blob. *)
Definition synthesized (w : World) (reqs : list TtsRequest)
    (bufs : list (list byte)) (ts : list N) : World :=
  with_objectURLs
    (with_timers
       (with_ttsLog
          (with_arrayBuffers w (arrayBuffers w ++ bufs ++ [concat bufs]))
          (ttsLog w ++ reqs))
       (timers w ++ ts))
    (objectURLs w ++ [{| blob_bytes := concat bufs; blob_type := js "audio/mpeg" |}]).

(** The test the synthesizer applies to a speaker label. *)
Definition first_speaker (line : ScriptLine) : bool :=
  includes (toLowerCase (speaker line)) (js "person a")
  || includes (toLowerCase (speaker line)) (js " a:").

Definition host_line : ScriptLine :=
  {| speaker := js "Host A:"; text := js "Welcome back." |}.

(** The request generateScript sends for a topic. *)
Definition script_request (topic : jsstring) : GenRequest :=
  {| gen_model := Part000.SCRIPT_GENERATION_MODEL;
     gen_contents := Part000.prompt topic;
     gen_temperature := js "0.7";
     gen_topK := 40;
     gen_topP := js "0.95" |}.

Definition EMPTY_RESPONSE : jsstring :=
  js "AI failed to generate a script. The response was empty.".

Definition KEY_NOT_CONFIGURED : jsstring :=
  js "Gemini API Key is not configured. Cannot connect to AI services.".

Definition empty_world : World :=
  {| arrayBuffers := []; objectURLs := []; ttsLog := []; genLog := []; timers := [] |}.

Definition sample_store : World :=
  {| arrayBuffers := [[x01; x02]; [x03]]; objectURLs := []; ttsLog := [];
     genLog := []; timers := [] |}.

Definition sample_env : ProcessEnv :=
  {| API_KEY := Some (js "gemini-key"); ELEVENLABS_API_KEY := Some (js "xi-key") |}.

Definition keyless_env : ProcessEnv := {| API_KEY := None; ELEVENLABS_API_KEY := None |}.

Definition sample_lines : list ScriptLine :=
  [ {| speaker := js "Person A"; text := js "Gravity pulls." |};
    {| speaker := js "Person B"; text := js "Right." |} ].

Definition lines_with_blanks : list ScriptLine :=
  [ {| speaker := js "Person A"; text := js "Gravity pulls." |};
    {| speaker := js "Person B"; text := js "   " |};
    {| speaker := js "Person A"; text := [] |};
    {| speaker := js "Person B"; text := js "Right." |} ].

Definition blank_lines : list ScriptLine :=
  [ {| speaker := js "Person A"; text := js "  " |};
    {| speaker := js "Person B"; text := [] |} ].

(** A network that answers the first request with two bytes and every later
    one with one byte, and a generation API that answers white space. *)
Definition steady_net : Platform :=
  {| fetch_tts := fun hist _ =>
       HttpOk (inr (match hist with [] => [x01; x02] | _ :: _ => [x03] end));
     generateContent := fun _ _ => GenResponse (Some (js "   "));
     JSON_detail := fun _ => None |}.

(** A network that answers the first request and refuses every later one. *)
Definition flaky_net : Platform :=
  {| fetch_tts := fun hist _ =>
       match hist with
       | [] => HttpOk (inr [x01; x02])
       | _ :: _ => HttpNotOk 429 (inr (js "quota exceeded"))
       end;
     generateContent := fun _ _ => GenRejected NonError;
     JSON_detail := fun _ => None |}.

(* ===================================================================== *)
(** ** More of the sources *)
(* ===================================================================== *)

(** *** String splitting *)

Module JsSplit.

(** [s.split(sep)] for a separator that is not empty: [cur] is the piece
    being read, [skip] the number of units of a separator still to pass. *)
Fixpoint split_go (sep s : jsstring) (skip : nat) (cur : jsstring)
    : list jsstring :=
  match s with
  | [] => [cur]
  | c :: s' =>
      match skip with
      | S k => split_go sep s' k cur
      | 0 =>
          if startsWith s sep
          then cur :: split_go sep s' (length sep - 1) []
          else split_go sep s' 0 (cur ++ [c])
      end
  end.

Definition split (s sep : jsstring) : list jsstring := split_go sep s 0 [].

End JsSplit.

(** *** types.ts, continued *)

Record ContentBundleResponse := {
  scriptText : jsstring;
  audioDetails : AudioGenerationDetails;
  bundle_videoUrl : jsstring
}.

(** *** src/unnamed/part_000: getPlaceholderVideoUrl *)

Module VideoUrl.

Definition PLACEHOLDER_VERTICAL_VIDEO_URL : jsstring :=
  js "https://www.youtube.com/watch?v=iYipwtIa1Po".

(** [url.split('v=')[1]?.split('&')[0]] *)
Definition videoId_of (url : jsstring) : option jsstring :=
  match JsSplit.split url (js "v=") !! 1 with
  | Some part => JsSplit.split part (js "&") !! 0
  | None => None
  end.

Definition getPlaceholderVideoUrl : jsstring :=
  let videoId := videoId_of PLACEHOLDER_VERTICAL_VIDEO_URL in
  if truthy_opt videoId
  then js "https://www.youtube.com/shorts/" ++ default [] videoId
  else PLACEHOLDER_VERTICAL_VIDEO_URL.

End VideoUrl.

(** *** src/App.tsx: the two asynchronous handlers *)

Module AppHandlers.

Import App.

(** The state setters of the component, one per [useState]. *)
Definition setScriptLines (v : list ScriptLine) (st : State) : State :=
  {| topic := topic st; scriptLines := v; audioUrl := audioUrl st;
     audioStatusMessage := audioStatusMessage st; videoUrl := videoUrl st;
     isLoadingScript := isLoadingScript st;
     isGeneratingAudio := isGeneratingAudio st;
     isScriptDirty := isScriptDirty st;
     currentStatusMessage := currentStatusMessage st; error := error st |}.

Definition setAudioUrl (v : jsstring) (st : State) : State :=
  {| topic := topic st; scriptLines := scriptLines st; audioUrl := v;
     audioStatusMessage := audioStatusMessage st; videoUrl := videoUrl st;
     isLoadingScript := isLoadingScript st;
     isGeneratingAudio := isGeneratingAudio st;
     isScriptDirty := isScriptDirty st;
     currentStatusMessage := currentStatusMessage st; error := error st |}.

Definition setAudioStatusMessage (v : jsstring) (st : State) : State :=
  {| topic := topic st; scriptLines := scriptLines st; audioUrl := audioUrl st;
     audioStatusMessage := v; videoUrl := videoUrl st;
     isLoadingScript := isLoadingScript st;
     isGeneratingAudio := isGeneratingAudio st;
     isScriptDirty := isScriptDirty st;
     currentStatusMessage := currentStatusMessage st; error := error st |}.

Definition setVideoUrl (v : jsstring) (st : State) : State :=
  {| topic := topic st; scriptLines := scriptLines st; audioUrl := audioUrl st;
     audioStatusMessage := audioStatusMessage st; videoUrl := v;
     isLoadingScript := isLoadingScript st;
     isGeneratingAudio := isGeneratingAudio st;
     isScriptDirty := isScriptDirty st;
     currentStatusMessage := currentStatusMessage st; error := error st |}.

Definition setIsLoadingScript (v : bool) (st : State) : State :=
  {| topic := topic st; scriptLines := scriptLines st; audioUrl := audioUrl st;
     audioStatusMessage := audioStatusMessage st; videoUrl := videoUrl st;
     isLoadingScript := v;
     isGeneratingAudio := isGeneratingAudio st;
     isScriptDirty := isScriptDirty st;
     currentStatusMessage := currentStatusMessage st; error := error st |}.

Definition setIsGeneratingAudio (v : bool) (st : State) : State :=
  {| topic := topic st; scriptLines := scriptLines st; audioUrl := audioUrl st;
     audioStatusMessage := audioStatusMessage st; videoUrl := videoUrl st;
     isLoadingScript := isLoadingScript st;
     isGeneratingAudio := v;
     isScriptDirty := isScriptDirty st;
     currentStatusMessage := currentStatusMessage st; error := error st |}.

Definition setIsScriptDirty (v : bool) (st : State) : State :=
  {| topic := topic st; scriptLines := scriptLines st; audioUrl := audioUrl st;
     audioStatusMessage := audioStatusMessage st; videoUrl := videoUrl st;
     isLoadingScript := isLoadingScript st;
     isGeneratingAudio := isGeneratingAudio st;
     isScriptDirty := v;
     currentStatusMessage := currentStatusMessage st; error := error st |}.

Definition setCurrentStatusMessage (v : jsstring) (st : State) : State :=
  {| topic := topic st; scriptLines := scriptLines st; audioUrl := audioUrl st;
     audioStatusMessage := audioStatusMessage st; videoUrl := videoUrl st;
     isLoadingScript := isLoadingScript st;
     isGeneratingAudio := isGeneratingAudio st;
     isScriptDirty := isScriptDirty st;
     currentStatusMessage := v; error := error st |}.

Definition setError (v : option jsstring) (st : State) : State :=
  {| topic := topic st; scriptLines := scriptLines st; audioUrl := audioUrl st;
     audioStatusMessage := audioStatusMessage st; videoUrl := videoUrl st;
     isLoadingScript := isLoadingScript st;
     isGeneratingAudio := isGeneratingAudio st;
     isScriptDirty := isScriptDirty st;
     currentStatusMessage := currentStatusMessage st; error := v |}.

(** [e.message || fallback] in a [catch (e: any)]: the message of an Error
    when it is not empty; a thrown value that is not an Error is read as
    having no message. *)
Definition message_or_else (e : Thrown) (fallback : jsstring) : jsstring :=
  match e with
  | ErrorObj m => if truthy m then m else fallback
  | NonError => fallback
  end.

Section Handlers.
Context (env : ProcessEnv) (net : Platform).

(** handleTopicSubmit: the setters before the [await]. *)
Definition topic_reset (st : State) : State :=
  setCurrentStatusMessage (js "Generating educational script with Gemini...")
    (setCurrentStatusMessage (js "Warming up the AI engine...")
       (setIsScriptDirty false
          (setVideoUrl []
             (setAudioStatusMessage []
                (setAudioUrl []
                   (setScriptLines []
                      (setError None (setIsLoadingScript true st)))))))).

(** handleTopicSubmit: the rest of the [try] block, after the script text
    has arrived. *)
Definition topic_after_script (scriptText : jsstring) (st : State) : State :=
  let st := setCurrentStatusMessage (js "Parsing generated script...") st in
  let parsedScript := parseScriptText scriptText in
  let st :=
    if (length parsedScript =? 0) && (0 <? length (trim scriptText)) then
      setScriptLines [{| speaker := js "Raw Output"; text := scriptText |}]
        (setError
           (Some (js "Failed to parse the script into 'Person A/B:' lines. Displaying raw text. Audio generation may not work as expected."))
           st)
    else if (length parsedScript =? 0)
            && (negb (truthy scriptText) || (length (trim scriptText) =? 0)) then
      setScriptLines []
        (setError
           (Some (js "AI returned an empty or unparseable script. Please try a different topic or phrasing."))
           st)
    else setScriptLines parsedScript st in
  let st :=
    if 0 <? length parsedScript then
      setCurrentStatusMessage
        (js "Script generated. You can edit it below and then generate audio.")
        (setIsScriptDirty true st)
    else setCurrentStatusMessage (js "Script generation finished with issues.") st in
  setVideoUrl VideoUrl.getPlaceholderVideoUrl st.

(** handleTopicSubmit: the [catch] block. *)
Definition topic_catch (e : Thrown) (st : State) : State :=
  setCurrentStatusMessage []
    (setError
       (Some (message_or_else e
                (js "An unknown error occurred during script generation.")))
       st).

Definition handleTopicSubmit (currentTopic : jsstring) (st : State)
    : Async State :=
  if negb (truthy (trim currentTopic)) then
    ret (setError (Some (js "Topic cannot be empty.")) st)
  else
    let st := topic_reset st in
    let* st :=
      try_catch
        (let* scriptText := Part000.generateScript env net currentTopic in
         ret (topic_after_script scriptText st))
        (fun e => ret (topic_catch e st)) in
    ret (setIsLoadingScript false st).

(** handleFinalizeAndGenerateAudio: the setters before the [await]. *)
Definition audio_reset (st : State) : State :=
  setCurrentStatusMessage (js "Sending script to ElevenLabs for audio generation...")
    (setAudioStatusMessage []
       (setAudioUrl [] (setError None (setIsGeneratingAudio true st)))).

(** handleFinalizeAndGenerateAudio: the rest of the [try] block. *)
Definition audio_after (audioDetails : AudioGenerationDetails) (st : State)
    : State :=
  setCurrentStatusMessage
    (if truthy (url audioDetails) then js "Audio generation complete!"
     else js "Audio generation finished with issues.")
    (setIsScriptDirty false
       (setAudioStatusMessage (statusMessage audioDetails)
          (setAudioUrl (url audioDetails) st))).

(** handleFinalizeAndGenerateAudio: the [catch] block. *)
Definition audio_catch (e : Thrown) (st : State) : State :=
  let errorMessage :=
    message_or_else e (js "An unknown error occurred during audio generation.") in
  setCurrentStatusMessage (js "Audio generation failed.")
    (setAudioStatusMessage (js "Audio generation failed: " ++ errorMessage)
       (setAudioUrl [] (setError (Some errorMessage) st))).

(** The handler reads [scriptLines] from the render it was created in: the
    state it is called on. *)
Definition handleFinalizeAndGenerateAudio (st : State) : Async State :=
  if length (scriptLines st) =? 0 then
    ret (setError (Some (js "Cannot generate audio for an empty script.")) st)
  else
    let lines := scriptLines st in
    let st := audio_reset st in
    let* st :=
      try_catch
        (let* audioDetails :=
           Part000.generateAudioWithElevenLabs env net lines in
         ret (audio_after audioDetails st))
        (fun e => ret (audio_catch e st)) in
    ret (setIsGeneratingAudio false st).

End Handlers.

End AppHandlers.

(** *** src/unnamed/part_001: the editing handlers of ScriptOutput *)

Module ScriptOutput.

(** The local state of the component: [editingIndex] is a line index or
    [null]. *)
Record EditState := { editingIndex : option nat; editText : jsstring }.

Inductive Key :=
| Enter (shiftKey : bool)
| Escape
| OtherKey.

Section Component.
(** The props the handlers use: the parent's [onUpdateScriptLine], acting on
    the parent's state, and [disabled]. *)
Context {P : Type}
        (onUpdateScriptLine : Z -> jsstring -> option jsstring -> P -> P)
        (disabled : bool).

Definition handleStartEdit (index : nat) (currentText : jsstring)
    (s : EditState) : EditState :=
  if disabled then s
  else {| editingIndex := Some index; editText := currentText |}.

Definition handleSaveEdit (s : EditState) (p : P) : EditState * P :=
  match editingIndex s with
  | Some index =>
      ({| editingIndex := None; editText := [] |},
       onUpdateScriptLine (Z.of_nat index) (editText s) None p)
  | None => (s, p)
  end.

Definition handleTextareaChange (value : jsstring) (s : EditState) : EditState :=
  {| editingIndex := editingIndex s; editText := value |}.

Definition handleTextareaKeyDown (key : Key) (s : EditState) (p : P)
    : EditState * P :=
  match key with
  | Enter false => handleSaveEdit s p
  | Escape => ({| editingIndex := None; editText := [] |}, p)
  | _ => (s, p)
  end.

(** [onClick] of the line at [index]:
    [editingIndex !== index && handleStartEdit(index, line.text)] *)
Definition onClick (index : nat) (line : ScriptLine) (s : EditState)
    : EditState :=
  if bool_decide (editingIndex s = Some index) then s
  else handleStartEdit index (text line) s.

(** [onBlur] of the textarea. *)
Definition onBlur (s : EditState) (p : P) : EditState * P := handleSaveEdit s p.

End Component.

End ScriptOutput.

(** *** src/services/aiService.ts, second document: MediaPreview *)

Module MediaPreview.

(** The text downloadScript puts in the blob. *)
Definition scriptContent (scriptLines : list ScriptLine) : jsstring :=
  join [10%N; 10%N]
    (List.map (fun line => speaker line ++ js ": " ++ text line) scriptLines).

(** downloadScript: nothing for an empty script, otherwise the download of
    [scriptContent] as generated_script.txt. *)
Definition downloadScript (scriptLines : list ScriptLine) : option jsstring :=
  if length scriptLines =? 0 then None else Some (scriptContent scriptLines).

(** The caption under the audio player. *)
Definition audioCaption (audioStatusMessage : jsstring) : jsstring :=
  if includes (toLowerCase audioStatusMessage) (js "simulated")
     || includes (toLowerCase audioStatusMessage) (js "placeholder")
  then js "(Placeholder/Simulated audio)"
  else js "(Audio from ElevenLabs)".

End MediaPreview.

(** *** src/services/aiService.ts: generateContentBundle *)

Module Bundle.

Section Service.
Context (env : ProcessEnv) (net : Platform).

Definition GEMINI_API_KEY : option jsstring := API_KEY env.

Definition SCRIPT_GENERATION_MODEL : jsstring := js "gemini-2.5-flash-preview-04-17".

Definition PLACEHOLDER_VERTICAL_VIDEO_URL : jsstring :=
  js "https://www.youtube.com/watch?v=iYipwtIa1Po".

Definition prompt (topic : jsstring) : jsstring :=
  join [10%N]
    [ js "You are an AI assistant specialized in creating educational content.";
      js "    Generate a conversational script between two distinct characters, Person A and Person B.";
      js "    The script should explain and explore the following topic: "
        ++ [34%N] ++ topic ++ [34%N] ++ js ".";
      js "    Make the script engaging, clear, and suitable for a general audience.";
      js "    Ensure Person A and Person B have distinct speaking styles or perspectives. Keep the conversation under 130 words.";
      js "    Format each line strictly as 'Person A: [dialogue]' or 'Person B: [dialogue]'. Start directly with the dialogue.";
      js "    Do not include any introductory or concluding remarks outside the dialogue format.";
      js "    Example:";
      js "    Person A: Let's discuss the basics of photosynthesis.";
      js "    Person B: Great idea! Where do we start?";
      js "    Person A: We can begin with the role of chlorophyll." ].

Definition request (topic : jsstring) : GenRequest :=
  {| gen_model := SCRIPT_GENERATION_MODEL;
     gen_contents := prompt topic;
     gen_temperature := js "0.7";
     gen_topK := 40;
     gen_topP := js "0.95" |}.

(** The "helper to parse script" of the [try] block; its pattern literal is
    the one of App.tsx. *)
Definition parse_into (parsedScriptLines : list ScriptLine)
    (scriptText : jsstring) : list ScriptLine :=
  let lines :=
    List.filter (fun line => negb (eqb (trim line) []))
      (split_newline scriptText) in
  fold_left
    (fun parsed line =>
       match App.speakerRegex line with
       | Some (m1, m2) => parsed ++ [{| speaker := m1; text := trim m2 |}]
       | None => parsed
       end)
    lines parsedScriptLines.

(** The video url computed in the [try] block. *)
Definition videoUrl_try : jsstring :=
  let videoId := VideoUrl.videoId_of PLACEHOLDER_VERTICAL_VIDEO_URL in
  if truthy_opt videoId
  then js "https://www.youtube.com/shorts/" ++ default [] videoId
  else PLACEHOLDER_VERTICAL_VIDEO_URL.

(** The video url computed in the [catch] block. *)
Definition videoUrl_catch : jsstring :=
  let part := JsSplit.split PLACEHOLDER_VERTICAL_VIDEO_URL (js "v=") !! 1 in
  if truthy_opt part
  then js "https://www.youtube.com/shorts/"
       ++ default [] (JsSplit.split (default [] part) (js "&") !! 0)
  else PLACEHOLDER_VERTICAL_VIDEO_URL.

(** The [catch] block, entered with the values the locals [scriptText] and
    [parsedScriptLines] hold at the throw. *)
Definition bundle_catch (scriptText : option jsstring)
    (parsedScriptLines : list ScriptLine) (error : Thrown)
    : Async ContentBundleResponse :=
  let errorMessage :=
    message_or error (js "An unknown error occurred during content generation.") in
  let errorMessage :=
    match error with
    | ErrorObj m =>
        if includes m (js "API key not valid") then
          js "The provided Gemini API Key is not valid. Please check your configuration."
        else errorMessage
    | NonError => errorMessage
    end in
  let* finalAudioDetails :=
    if 0 <? length parsedScriptLines then
      try_catch
        (AiServiceTs.generateAudioWithElevenLabs env net parsedScriptLines)
        (fun audioError =>
           ret {| url := AiServiceTs.PLACEHOLDER_AUDIO_URL;
                  statusMessage :=
                    js "Audio generation failed or was impacted: "
                    ++ message_or audioError (js "Unknown audio error")
                    ++ js ". Placeholder audio provided." |})
    else
      ret {| url := [];
             statusMessage :=
               js "Audio generation skipped or failed: "
               ++ (if truthy_opt scriptText then js "Script parsing issue."
                   else errorMessage) |} in
  ret {| scriptText :=
           if truthy_opt scriptText then default [] scriptText
           else js "Script generation failed: " ++ errorMessage;
         audioDetails := finalAudioDetails;
         bundle_videoUrl := videoUrl_catch |}.

(** The [try] block from the parse on, for a script text that passed the
    emptiness test. *)
Definition bundle_try_rest (scriptText : jsstring)
    : Async ContentBundleResponse :=
  let parsedScriptLines := parse_into [] scriptText in
  try_catch
    (let* audioDetails :=
       AiServiceTs.generateAudioWithElevenLabs env net parsedScriptLines in
     ret {| scriptText := scriptText;
            audioDetails := audioDetails;
            bundle_videoUrl := videoUrl_try |})
    (bundle_catch (Some scriptText) parsedScriptLines).

Definition generateContentBundle (topic : jsstring)
    : Async ContentBundleResponse :=
  if negb (truthy_opt GEMINI_API_KEY) then
    throw (ErrorObj (js "Gemini API Key is not configured. Cannot connect to AI services."))
  else
    let* response := models_generateContent net (request topic) in
    match response with
    | GenRejected e => bundle_catch (Some []) [] e
    | GenResponse scriptText =>
        if negb (truthy_opt scriptText)
           || eqb (trim (default [] scriptText)) [] then
          bundle_catch scriptText []
            (ErrorObj (js "AI failed to generate a script. The response was empty."))
        else bundle_try_rest (default [] scriptText)
    end.

End Service.

End Bundle.

(** *** src/unnamed/part_000, first document: the App around the bundle *)

Module LegacyApp.

(** The body of the [for] loop of this parseScriptText: the [else if]
    branch holds comments only. *)
Definition parse_step (parsedLines : list ScriptLine) (line : jsstring)
    : list ScriptLine :=
  match App.speakerRegex line with
  | Some (m1, m2) => parsedLines ++ [{| speaker := m1; text := trim m2 |}]
  | None =>
      if truthy (trim line)
         && negb (startsWith (toLowerCase line) (js "example:"))
         && negb (startsWith (toLowerCase line) (js "person a:"))
         && negb (startsWith (toLowerCase line) (js "person b:"))
      then parsedLines
      else parsedLines
  end.

Definition parseScriptText (text : jsstring) : list ScriptLine :=
  let lines :=
    List.filter (fun line => negb (eqb (trim line) []))
      (split_newline text) in
  fold_left parse_step lines [].

Record State := {
  topic : jsstring;
  scriptLines : list ScriptLine;
  audioUrl : jsstring;
  audioStatusMessage : jsstring;
  videoUrl : jsstring;
  isLoading : bool;
  currentStatusMessage : jsstring;
  error : option jsstring
}.

Definition setScriptLines (v : list ScriptLine) (st : State) : State :=
  {| topic := topic st; scriptLines := v; audioUrl := audioUrl st;
     audioStatusMessage := audioStatusMessage st; videoUrl := videoUrl st;
     isLoading := isLoading st;
     currentStatusMessage := currentStatusMessage st; error := error st |}.

Definition setAudioUrl (v : jsstring) (st : State) : State :=
  {| topic := topic st; scriptLines := scriptLines st; audioUrl := v;
     audioStatusMessage := audioStatusMessage st; videoUrl := videoUrl st;
     isLoading := isLoading st;
     currentStatusMessage := currentStatusMessage st; error := error st |}.

Definition setAudioStatusMessage (v : jsstring) (st : State) : State :=
  {| topic := topic st; scriptLines := scriptLines st; audioUrl := audioUrl st;
     audioStatusMessage := v; videoUrl := videoUrl st;
     isLoading := isLoading st;
     currentStatusMessage := currentStatusMessage st; error := error st |}.

Definition setVideoUrl (v : jsstring) (st : State) : State :=
  {| topic := topic st; scriptLines := scriptLines st; audioUrl := audioUrl st;
     audioStatusMessage := audioStatusMessage st; videoUrl := v;
     isLoading := isLoading st;
     currentStatusMessage := currentStatusMessage st; error := error st |}.

Definition setIsLoading (v : bool) (st : State) : State :=
  {| topic := topic st; scriptLines := scriptLines st; audioUrl := audioUrl st;
     audioStatusMessage := audioStatusMessage st; videoUrl := videoUrl st;
     isLoading := v;
     currentStatusMessage := currentStatusMessage st; error := error st |}.

Definition setCurrentStatusMessage (v : jsstring) (st : State) : State :=
  {| topic := topic st; scriptLines := scriptLines st; audioUrl := audioUrl st;
     audioStatusMessage := audioStatusMessage st; videoUrl := videoUrl st;
     isLoading := isLoading st;
     currentStatusMessage := v; error := error st |}.

Definition setError (v : option jsstring) (st : State) : State :=
  {| topic := topic st; scriptLines := scriptLines st; audioUrl := audioUrl st;
     audioStatusMessage := audioStatusMessage st; videoUrl := videoUrl st;
     isLoading := isLoading st;
     currentStatusMessage := currentStatusMessage st; error := v |}.

Section Handlers.
Context (env : ProcessEnv) (net : Platform).

(** handleGenerateContent: the setters before the [await]. *)
Definition content_reset (st : State) : State :=
  setCurrentStatusMessage (js "Generating educational script with Gemini...")
    (setCurrentStatusMessage (js "Warming up the AI engine...")
       (setVideoUrl []
          (setAudioStatusMessage []
             (setAudioUrl []
                (setScriptLines [] (setError None (setIsLoading true st))))))).

(** handleGenerateContent: the rest of the [try] block. *)
Definition content_after (bundle : ContentBundleResponse) (st : State) : State :=
  let scriptText := scriptText bundle in
  let st := setCurrentStatusMessage (js "Parsing generated script...") st in
  let parsedScript := parseScriptText scriptText in
  let st :=
    if (length parsedScript =? 0) && truthy scriptText
       && (0 <? length (trim scriptText)) then
      setScriptLines [{| speaker := js "Raw Output"; text := scriptText |}]
        (setError
           (Some (js "Failed to parse the script into speaker lines. Displaying raw text. Audio generation might be affected if it relies on parsed lines."))
           st)
    else if (length parsedScript =? 0)
            && (negb (truthy scriptText) || (length (trim scriptText) =? 0)) then
      setScriptLines []
        (setError
           (Some (js "AI returned an empty or unparseable script. Please try a different topic or phrasing."))
           st)
    else setScriptLines parsedScript st in
  let st :=
    setAudioStatusMessage (statusMessage (audioDetails bundle))
      (setAudioUrl (url (audioDetails bundle))
         (setCurrentStatusMessage (js "Processing audio...") st)) in
  let st :=
    setVideoUrl (bundle_videoUrl bundle)
      (setCurrentStatusMessage (js "Preparing background video...") st) in
  if (0 <? length parsedScript)
     || (truthy scriptText && (0 <? length (trim scriptText)))
  then setCurrentStatusMessage (js "Content generation process complete!") st
  else setCurrentStatusMessage (js "Content generation finished with issues.") st.

(** handleGenerateContent: the [catch] block. *)
Definition content_catch (e : Thrown) (st : State) : State :=
  setCurrentStatusMessage []
    (setError
       (Some (AppHandlers.message_or_else e
                (js "An unknown error occurred. Please try again.")))
       st).

(** handleGenerateContent: the [finally] block; [error] and
    [currentStatusMessage] are the values of the render the handler was
    created in, the state it was called on. *)
Definition content_finally (called_on : State) (st : State) : State :=
  let st := setIsLoading false st in
  if truthy_opt (error called_on) && truthy (currentStatusMessage called_on)
  then setCurrentStatusMessage [] st
  else st.

Definition handleGenerateContent (currentTopic : jsstring) (st : State)
    : Async State :=
  if negb (truthy (trim currentTopic)) then
    ret (setError (Some (js "Topic cannot be empty.")) st)
  else
    let called_on := st in
    let st := content_reset st in
    let* st :=
      try_catch
        (let* bundle := Bundle.generateContentBundle env net currentTopic in
         ret (content_after bundle st))
        (fun e => ret (content_catch e st)) in
    ret (content_finally called_on st).

End Handlers.

End LegacyApp.

(* ===================================================================== *)
(** ** Vocabulary of the further properties *)
(* ===================================================================== *)

(** Whether a line matches the speaker pattern. *)
Definition is_speaker_line (line : jsstring) : bool :=
  match App.speakerRegex line with
  | Some _ => true
  | None => false
  end.

(** The non-blank lines of a raw text that match the speaker pattern. *)
Definition speaker_lines (raw : jsstring) : list jsstring :=
  List.filter is_speaker_line (nonblank_lines raw).

(** A script line as the parser produces them: a speaker label of the
    pattern, a text with no white space at its ends and no line
    terminator. *)
Definition ParsedLine (r : ScriptLine) : Prop :=
  (exists p id,
     speaker r = p ++ id /\
     Forall2 (fun a c => Regex.same_ci a c = true) (js "Person ") p /\
     id <> [] /\ Forall (fun c => Regex.class_alnum c = true) id) /\
  Trimmed (text r) /\
  Forall (fun c => is_line_terminator c = false) (text r).

(** The edit state of ScriptOutput when no line is being edited. *)
Definition not_editing : ScriptOutput.EditState :=
  {| ScriptOutput.editingIndex := None; ScriptOutput.editText := [] |}.

(** The request the bundle-era synthesizer makes for the line at index [i]
    of [scriptLines]. *)
Definition bundle_request_of (env : ProcessEnv) (scriptLines : list ScriptLine)
    (i : nat) (line : ScriptLine) : TtsRequest :=
  AiServiceTs.requestFor env (text line) (AiServiceTs.voiceId line)
    (AiServiceTs.previousText scriptLines i)
    (AiServiceTs.nextText scriptLines i).

(** The requests for the lines [rest], which stand at the indices from [i]
    on. *)
Fixpoint bundle_requests_from (env : ProcessEnv) (scriptLines : list ScriptLine)
    (i : nat) (rest : list ScriptLine) : list TtsRequest :=
  match rest with
  | [] => []
  | line :: rest' =>
      bundle_request_of env scriptLines i line
      :: bundle_requests_from env scriptLines (S i) rest'
  end.

Definition bundle_requests (env : ProcessEnv) (scriptLines : list ScriptLine)
    : list TtsRequest :=
  bundle_requests_from env scriptLines 0 scriptLines.

(** The message the [catch] blocks of generateScript and
    generateContentBundle derive from a thrown value. *)
Definition mapped_message (fallback : jsstring) (error : Thrown) : jsstring :=
  match error with
  | ErrorObj m =>
      if includes m (js "API key not valid")
      then js "The provided Gemini API Key is not valid. Please check your configuration."
      else m
  | NonError => fallback
  end.

Definition SHORTS_URL : jsstring := js "https://www.youtube.com/shorts/iYipwtIa1Po".

Definition legacy_state : LegacyApp.State :=
  {| LegacyApp.topic := js "gravity";
     LegacyApp.scriptLines := [];
     LegacyApp.audioUrl := [];
     LegacyApp.audioStatusMessage := [];
     LegacyApp.videoUrl := [];
     LegacyApp.isLoading := false;
     LegacyApp.currentStatusMessage := js "Content generation process complete!";
     LegacyApp.error := Some (js "Failed to parse the script into speaker lines.") |}.

(** A generation API that answers a two-line script, over a network that
    answers every text-to-speech request. *)
Definition script_net : Platform :=
  {| fetch_tts := fun hist _ =>
       HttpOk (inr (match hist with [] => [x01; x02] | _ :: _ => [x03] end));
     generateContent := fun _ _ =>
       GenResponse (Some (js "Person A: Gravity pulls." ++ [10%N]
                          ++ js "Person B: Right."));
     JSON_detail := fun _ => None |}.

(* ===================================================================== *)
(** * Properties *)
(* ===================================================================== *)

(** ** Strings *)

Section StringFacts.

Lemma trimStart_split (s : jsstring) :
  exists ws, s = ws ++ trimStart s /\ Forall (fun c => is_whitespace c = true) ws.
Proof.
  induction s as [|c s IH]; simpl.
  - exists []. split; [reflexivity | constructor].
  - destruct (is_whitespace c) eqn:Hc.
    + destruct IH as (ws & Hs & Hws). exists (c :: ws). split.
      * simpl. congruence.
      * constructor; assumption.
    + exists []. split; [reflexivity | constructor].
Qed.

Lemma trimStart_head (s : jsstring) c s' :
  trimStart s = c :: s' -> is_whitespace c = false.
Proof.
  induction s as [|d s IH]; simpl; [discriminate|].
  destruct (is_whitespace d) eqn:Hd; [exact IH|].
  intros [= <- <-]. exact Hd.
Qed.

Lemma trimStart_app_ws (ws s : jsstring) :
  Forall (fun c => is_whitespace c = true) ws ->
  trimStart (ws ++ s) = trimStart s.
Proof.
  induction 1 as [|c ws Hc _ IH]; simpl; [reflexivity|].
  rewrite Hc. exact IH.
Qed.

Lemma trimStart_fixed (s : jsstring) :
  match s with [] => True | c :: _ => is_whitespace c = false end ->
  trimStart s = s.
Proof. destruct s as [|c s]; simpl; [reflexivity|]. intros ->. reflexivity. Qed.

Lemma trim_app_ws (ws s : jsstring) :
  Forall (fun c => is_whitespace c = true) ws -> trim (ws ++ s) = trim s.
Proof. intros H. unfold trim. rewrite trimStart_app_ws by assumption. reflexivity. Qed.

Lemma trim_Trimmed (s : jsstring) : Trimmed (trim s).
Proof.
  unfold Trimmed, trim, trimEnd. rewrite rev_involutive.
  set (x := trimStart s).
  assert (Hx : match x with [] => True | c :: _ => is_whitespace c = false end).
  { subst x. destruct (trimStart s) eqn:E; [exact I|]. eapply trimStart_head, E. }
  split.
  - destruct (trimStart_split (rev x)) as (ws & Hrev & _).
    set (y := trimStart (rev x)) in *.
    assert (Hxy : x = rev y ++ rev ws).
    { rewrite <- (rev_involutive x), Hrev. apply rev_app_distr. }
    destruct (rev y) as [|c r] eqn:Ey; [exact I|].
    rewrite Hxy in Hx. exact Hx.
  - destruct (trimStart (rev x)) eqn:E; [exact I|]. eapply trimStart_head, E.
Qed.

Lemma Trimmed_trim (s : jsstring) : Trimmed s -> trim s = s.
Proof.
  intros [Hh Hl]. unfold trim, trimEnd.
  rewrite (trimStart_fixed s Hh), (trimStart_fixed (rev s) Hl).
  apply rev_involutive.
Qed.

Lemma trim_idempotent (s : jsstring) : trim (trim s) = trim s.
Proof. apply Trimmed_trim, trim_Trimmed. Qed.

Lemma eqb_true (a b : jsstring) : eqb a b = true <-> a = b.
Proof. unfold eqb. apply bool_decide_eq_true. Qed.

Lemma eqb_false (a b : jsstring) : eqb a b = false <-> a <> b.
Proof. unfold eqb. apply bool_decide_eq_false. Qed.

(** The skip test of the synthesizer, [!t || t.trim() === ""], is the
    blank test. *)
Lemma falsy_or_blank (t : jsstring) :
  negb (truthy t) || eqb (trim t) [] = is_blank t.
Proof.
  unfold truthy, is_blank. rewrite negb_involutive.
  destruct (eqb t []) eqn:E; simpl; [|reflexivity].
  apply eqb_true in E. subst. reflexivity.
Qed.

Lemma startsWith_app (p s : jsstring) : startsWith (p ++ s) p = true.
Proof.
  induction p as [|a p IH]; simpl; [reflexivity|].
  rewrite N.eqb_refl. exact IH.
Qed.

Lemma includes_prefix (s p : jsstring) :
  startsWith s p = true -> includes s p = true.
Proof. intros H. destruct s; simpl; rewrite H; reflexivity. Qed.

Lemma includes_app (a p b : jsstring) : includes (a ++ p ++ b) p = true.
Proof.
  induction a as [|c a IH]; simpl.
  - apply includes_prefix, startsWith_app.
  - rewrite IH. apply orb_true_r.
Qed.

Lemma split_newline_nonempty (s : jsstring) : split_newline s <> [].
Proof.
  induction s as [|c s IH]; simpl; [discriminate|].
  destruct (c =? 10)%N; [discriminate|].
  destruct (split_newline s); discriminate.
Qed.

Lemma split_newline_no_newline (s : jsstring) :
  Forall (Forall (fun c => c <> 10%N)) (split_newline s).
Proof.
  induction s as [|c s IH]; simpl.
  - repeat constructor.
  - destruct (c =? 10)%N eqn:E.
    + constructor; [constructor | exact IH].
    + apply N.eqb_neq in E.
      destruct (split_newline s) as [|l ls]; [repeat constructor; assumption|].
      inversion IH; subst. constructor; [constructor|]; assumption.
Qed.

Lemma split_newline_line (l : jsstring) :
  Forall (fun c => c <> 10%N) l -> split_newline l = [l].
Proof.
  induction 1 as [|c l Hc _ IH]; simpl; [reflexivity|].
  apply N.eqb_neq in Hc. rewrite Hc, IH. reflexivity.
Qed.

Lemma split_newline_app (l rest : jsstring) :
  Forall (fun c => c <> 10%N) l ->
  split_newline (l ++ 10%N :: rest) = l :: split_newline rest.
Proof.
  induction 1 as [|c l Hc _ IH]; simpl; [reflexivity|].
  apply N.eqb_neq in Hc. rewrite Hc, IH. reflexivity.
Qed.

Lemma split_newline_join (ls : list jsstring) :
  ls <> [] -> Forall (Forall (fun c => c <> 10%N)) ls ->
  split_newline (join [10%N] ls) = ls.
Proof.
  induction ls as [|l ls IH]; [congruence|].
  intros _ Hall. inversion Hall as [|? ? Hl Hls]; subst.
  destruct ls as [|l' ls'].
  - simpl. apply split_newline_line, Hl.
  - change (join [10%N] (l :: l' :: ls')) with (l ++ 10%N :: join [10%N] (l' :: ls')).
    rewrite split_newline_app by assumption.
    rewrite IH by (congruence || assumption). reflexivity.
Qed.

Lemma startsWith_true (p : jsstring) : forall s : jsstring,
  startsWith s p = true <-> exists b, s = p ++ b.
Proof.
  induction p as [|a p IH]; intros s; simpl.
  - split; eauto.
  - destruct s as [|c s].
    + split; [discriminate | intros (b & H); discriminate].
    + rewrite andb_true_iff, N.eqb_eq, IH. split.
      * intros (-> & b & ->). eauto.
      * intros (b & H). injection H as -> ->. eauto.
Qed.

(** [includes] is the substring test. *)
Lemma includes_true (s p : jsstring) :
  includes s p = true <-> exists a b, s = a ++ p ++ b.
Proof.
  induction s as [|c s IH]; simpl.
  - rewrite orb_false_r, startsWith_true. split.
    + intros (b & H). exists [], b. exact H.
    + intros (a & b & H). destruct a; [|discriminate]. eauto.
  - rewrite orb_true_iff, IH, startsWith_true. split.
    + intros [(b & H)|(a & b & ->)].
      * exists [], b. exact H.
      * exists (c :: a), b. reflexivity.
    + intros (a & b & H). destruct a as [|c' a].
      * left. eauto.
      * right. injection H as -> ->. eauto.
Qed.

(** [trim] removes white space from the two ends and nothing else. *)
Lemma trim_split (s : jsstring) :
  exists ws1 ws2,
    s = ws1 ++ trim s ++ ws2 /\
    Forall (fun c => is_whitespace c = true) ws1 /\
    Forall (fun c => is_whitespace c = true) ws2.
Proof.
  destruct (trimStart_split s) as (ws1 & Hs & Hws1).
  destruct (trimStart_split (rev (trimStart s))) as (ws2 & Hr & Hws2).
  exists ws1, (rev ws2). split; [|split].
  - unfold trim, trimEnd. rewrite <- rev_app_distr, <- Hr, rev_involutive.
    exact Hs.
  - exact Hws1.
  - apply List.Forall_rev, Hws2.
Qed.

Lemma trimStart_idempotent (s : jsstring) : trimStart (trimStart s) = trimStart s.
Proof.
  apply trimStart_fixed. destruct (trimStart s) eqn:E; [exact I|].
  eapply trimStart_head, E.
Qed.

End StringFacts.

(** ** The backtracking matcher *)

Section RegexFacts.
Context {R : Type}.

Lemma one_sound p (s : jsstring) (k : Regex.cont) (r : R) :
  Regex.one p s k = Some r ->
  exists c s', s = c :: s' /\ p c = true /\ k [c] s' = Some r.
Proof.
  destruct s as [|c s']; simpl; [discriminate|].
  destruct (p c) eqn:Hp; [|discriminate]. eauto.
Qed.

Lemma star_sound p (s : jsstring) : forall (k : Regex.cont) (r : R),
  Regex.star p s k = Some r ->
  exists m rest, s = m ++ rest /\ Forall (fun c => p c = true) m /\ k m rest = Some r.
Proof.
  induction s as [|c s IH]; simpl; intros k r H.
  - exists [], []. auto.
  - destruct (p c) eqn:Hp.
    + destruct (Regex.star p s (fun m rest => k (c :: m) rest)) as [r'|] eqn:E.
      * injection H as ->. apply IH in E as (m & rest & -> & Hm & Hk).
        exists (c :: m), rest. auto.
      * exists [], (c :: s). auto.
    + exists [], (c :: s). auto.
Qed.

Lemma plus_sound p (s : jsstring) (k : Regex.cont) (r : R) :
  Regex.plus p s k = Some r ->
  exists m rest, s = m ++ rest /\ m <> [] /\
    Forall (fun c => p c = true) m /\ k m rest = Some r.
Proof.
  unfold Regex.plus. intros H.
  apply one_sound in H as (c & s' & -> & Hc & H).
  apply star_sound in H as (m & rest & -> & Hm & H).
  exists (c :: m), rest. repeat split; auto.
Qed.

Lemma lit_sound same (pat : jsstring) : forall (s : jsstring) (k : Regex.cont) (r : R),
  Regex.lit same pat s k = Some r ->
  exists m rest, s = m ++ rest /\
    Forall2 (fun a c => same a c = true) pat m /\ k m rest = Some r.
Proof.
  induction pat as [|a pat IH]; simpl; intros s k r H.
  - exists [], s. auto.
  - apply one_sound in H as (c & s' & -> & Hc & H).
    apply IH in H as (m & rest & -> & Hm & H).
    exists (c :: m), rest. auto.
Qed.

Lemma lit_complete same (pat m : jsstring) :
  Forall2 (fun a c => same a c = true) pat m ->
  forall (rest : jsstring) (k : Regex.cont (R:=R)),
  Regex.lit same pat (m ++ rest) k = k m rest.
Proof.
  induction 1 as [|a c pat m Hac _ IH]; intros rest k; simpl; [reflexivity|].
  rewrite Hac, IH. reflexivity.
Qed.

(** The greedy star hands its longest run to the continuation first. *)
Lemma star_greedy p (m : jsstring) :
  Forall (fun c => p c = true) m ->
  forall (rest : jsstring) (k : Regex.cont) (r : R),
  match rest with [] => True | c :: _ => p c = false end ->
  k m rest = Some r ->
  Regex.star p (m ++ rest) k = Some r.
Proof.
  induction 1 as [|c m Hc _ IH]; intros rest k r Hrest Hk; simpl.
  - destruct rest as [|c rest]; simpl; [exact Hk|]. rewrite Hrest. exact Hk.
  - rewrite Hc, (IH rest (fun m' rest' => k (c :: m') rest') r Hrest Hk).
    reflexivity.
Qed.

Lemma plus_greedy p (m : jsstring) :
  m <> [] -> Forall (fun c => p c = true) m ->
  forall (rest : jsstring) (k : Regex.cont) (r : R),
  match rest with [] => True | c :: _ => p c = false end ->
  k m rest = Some r ->
  Regex.plus p (m ++ rest) k = Some r.
Proof.
  intros Hne Hm rest k r Hrest Hk. destruct m as [|c m]; [congruence|].
  inversion Hm as [|? ? Hc Hm']; subst. unfold Regex.plus. simpl. rewrite Hc.
  apply (star_greedy p m Hm' rest (fun m2 r2 => k ([c] ++ m2) r2) r Hrest Hk).
Qed.

End RegexFacts.

Lemma same_cs_eq a c : Regex.same_cs a c = true -> c = a.
Proof. apply N.eqb_eq. Qed.

(** What a successful match of the speaker pattern says about the line. *)
Lemma speakerRegex_sound (line g1 g2 : jsstring) :
  App.speakerRegex line = Some (g1, g2) ->
  exists p id ws,
    g1 = p ++ id /\
    line = g1 ++ js ":" ++ ws ++ g2 /\
    Forall2 (fun a c => Regex.same_ci a c = true) (js "Person ") p /\
    id <> [] /\ Forall (fun c => Regex.class_alnum c = true) id /\
    Forall (fun c => is_whitespace c = true) ws /\
    Forall (fun c => is_line_terminator c = false) g2.
Proof.
  unfold App.speakerRegex. intros H.
  apply lit_sound in H as (p & r1 & -> & Hp & H).
  apply plus_sound in H as (id & r2 & -> & Hid & Halnum & H).
  apply lit_sound in H as (colon & r3 & -> & Hcolon & H).
  apply star_sound in H as (ws & r4 & -> & Hws & H).
  apply star_sound in H as (dots & r5 & -> & Hdots & H).
  destruct r5; simpl in H; [|discriminate]. injection H as <- <-.
  inversion Hcolon as [|? c ? cs Hc Hnil]; subst. inversion Hnil; subst.
  apply same_cs_eq in Hc. subst c.
  exists p, id, ws. rewrite app_nil_r. repeat split; auto.
  - rewrite <- !app_assoc. reflexivity.
  - eapply Forall_impl; [exact Hdots|]. intros c Hc. unfold Regex.class_dot in Hc.
    destruct (is_line_terminator c); [discriminate | reflexivity].
Qed.

Lemma speakerRegex_complete (line g1 g2 : jsstring) :
  SpeakerLine line g1 g2 -> App.speakerRegex line = Some (g1, g2).
Proof.
  intros (p & id & ws & -> & -> & Hp & Hid & Halnum & Hws & Hhead & Hdots).
  unfold App.speakerRegex. rewrite <- !app_assoc.
  rewrite (lit_complete _ _ _ Hp).
  apply plus_greedy; [exact Hid | exact Halnum | reflexivity |].
  rewrite (lit_complete Regex.same_cs (js ":") (js ":")) by (repeat constructor).
  apply star_greedy; [exact Hws | exact Hhead |].
  rewrite <- (app_nil_r g2) at 1.
  apply star_greedy; [|exact I | reflexivity].
  eapply Forall_impl; [exact Hdots|]. intros c Hc. unfold Regex.class_dot.
  rewrite Hc. reflexivity.
Qed.

(** The matcher accepts exactly the speaker lines, with a single choice of
    captures. *)
Lemma speakerRegex_iff (line g1 g2 : jsstring) :
  App.speakerRegex line = Some (g1, g2) <-> SpeakerLine line g1 g2.
Proof.
  split; [|apply speakerRegex_complete].
  intros H.
  destruct (speakerRegex_sound _ _ _ H)
    as (p & id & ws & Hg1 & Hline & Hp & Hid & Halnum & Hws & Hdots).
  destruct (trimStart_split g2) as (ws2 & Hg2 & Hws2).
  assert (Hdots' : Forall (fun c => is_line_terminator c = false) (trimStart g2)).
  { rewrite Hg2 in Hdots. apply Forall_app in Hdots. apply Hdots. }
  assert (Hspk : SpeakerLine line g1 (trimStart g2)).
  { exists p, id, (ws ++ ws2). split; [exact Hg1|]. split.
    - rewrite Hline, Hg2 at 1. rewrite <- !app_assoc. reflexivity.
    - split; [exact Hp|]. split; [exact Hid|]. split; [exact Halnum|].
      split; [apply Forall_app; split; assumption|]. split; [|exact Hdots'].
      destruct (trimStart g2) eqn:E; [exact I|]. eapply trimStart_head, E. }
  pose proof (speakerRegex_complete _ _ _ Hspk) as H'.
  rewrite H in H'. injection H' as H'. rewrite H'. exact Hspk.
Qed.

(** ** parseScriptText *)

Lemma fold_parse_step (lines : list jsstring) : forall acc,
  fold_left App.parse_step lines acc = acc ++ flat_map parsed_of lines.
Proof.
  induction lines as [|l ls IH]; intros acc; simpl.
  - symmetry. apply app_nil_r.
  - rewrite IH. unfold App.parse_step, parsed_of.
    destruct (App.speakerRegex l) as [[m1 m2]|].
    + rewrite <- app_assoc. reflexivity.
    + reflexivity.
Qed.

Lemma parseScriptText_flat_map (raw : jsstring) :
  App.parseScriptText raw = flat_map parsed_of (nonblank_lines raw).
Proof. unfold App.parseScriptText. apply fold_parse_step. Qed.

Lemma parsed_of_matching (line : jsstring) :
  App.speakerRegex line <> None ->
  exists r, parsed_of line = [r] /\ parsed_from line r.
Proof.
  intros Hm. unfold parsed_of.
  destruct (App.speakerRegex line) as [[g1 g2]|] eqn:E; [clear Hm|congruence].
  exists {| speaker := g1; text := trim g2 |}. split; [reflexivity|].
  destruct (speakerRegex_sound _ _ _ E) as (p & id & ws & _ & Hline & _ & _ & _ & Hws & _).
  exists g2, (ws ++ g2). simpl.
  split; [exact E|]. split; [apply speakerRegex_iff, E|].
  split; [reflexivity|]. split; [exact Hline|].
  split; [symmetry; apply trim_app_ws, Hws | apply trim_Trimmed].
Qed.

Lemma flat_map_parsed_matching (lines : list jsstring) :
  Forall (fun line => App.speakerRegex line <> None) lines ->
  Forall2 parsed_from lines (flat_map parsed_of lines).
Proof.
  induction 1 as [|l ls Hl _ IH]; simpl; [constructor|].
  destruct (parsed_of_matching l Hl) as (r & -> & Hr).
  constructor; assumption.
Qed.

Lemma nonblank_lines_join (raw : jsstring) :
  nonblank_lines (join [10%N] (nonblank_lines raw)) = nonblank_lines raw.
Proof.
  unfold nonblank_lines at 1.
  destruct (nonblank_lines raw) as [|l ls] eqn:E; [reflexivity|].
  rewrite split_newline_join.
  - rewrite <- E. unfold nonblank_lines.
    induction (split_newline raw) as [|x xs IH]; simpl; [reflexivity|].
    destruct (negb (is_blank x)) eqn:Hx; simpl; rewrite ?Hx, IH; reflexivity.
  - discriminate.
  - rewrite <- E. unfold nonblank_lines.
    pose proof (split_newline_no_newline raw) as H.
    induction H as [|x xs Hx _ IH]; simpl; [constructor|].
    destruct (negb (is_blank x)); [constructor|]; assumption.
Qed.

(** C2. When every non-blank line of the raw text matches the speaker
    pattern, parseScriptText returns exactly one script line per non-blank
    line, in the order of the input: the speaker is the first capture and
    the text is the captured utterance with the white space at both ends
    removed.  Blank lines, wherever they stand, contribute nothing: the
    result is the one obtained from the non-blank lines alone. *)
Theorem parseScriptText_wellformed (raw : jsstring) :
  Forall (fun line => App.speakerRegex line <> None) (nonblank_lines raw) ->
  length (App.parseScriptText raw) = length (nonblank_lines raw) /\
  Forall2 parsed_from (nonblank_lines raw) (App.parseScriptText raw) /\
  App.parseScriptText raw
    = App.parseScriptText (join [10%N] (nonblank_lines raw)).
Proof.
  intros Hall.
  assert (H2 : Forall2 parsed_from (nonblank_lines raw) (App.parseScriptText raw)).
  { rewrite parseScriptText_flat_map. apply flat_map_parsed_matching, Hall. }
  split; [|split].
  - symmetry. eapply Forall2_length, H2.
  - exact H2.
  - rewrite !parseScriptText_flat_map, nonblank_lines_join. reflexivity.
Qed.

Lemma parseScriptText_wellformed_witness :
  Forall (fun line => App.speakerRegex line <> None) (nonblank_lines sample_raw) /\
  App.parseScriptText sample_raw
  = [ {| speaker := js "Person A"; text := js "Gravity pulls." |};
      {| speaker := js "person b2"; text := js "Right." |} ] /\
  length (App.parseScriptText sample_raw) = length (nonblank_lines sample_raw).
Proof.
  assert (H : Forall (fun line => App.speakerRegex line <> None)
                (nonblank_lines sample_raw)).
  { vm_compute. repeat constructor; discriminate. }
  split; [exact H|]. split; [vm_compute; reflexivity|].
  exact (proj1 (parseScriptText_wellformed sample_raw H)).
Defined.

(** ** handleUpdateScriptLine *)

(** C6. Whenever an audio URL exists, an edit of a script line leaves the
    audio URL empty and the dirty flag set, whatever the index and whatever
    the new text (the line's previous text included). *)
Theorem handleUpdateScriptLine_invalidates_audio
    (st : App.State) (index : Z) (newText : jsstring)
    (newSpeaker : option jsstring) :
  App.audioUrl st <> [] ->
  let st' := App.handleUpdateScriptLine index newText newSpeaker st in
  App.audioUrl st' = [] /\ App.isScriptDirty st' = true.
Proof. intros _. split; reflexivity. Qed.

Lemma handleUpdateScriptLine_invalidates_audio_witness :
  App.audioUrl sample_state <> [] /\
  let st' := App.handleUpdateScriptLine 1 (js "Right.") None sample_state in
  App.scriptLines st' = App.scriptLines sample_state /\
  App.audioUrl st' = [] /\ App.isScriptDirty st' = true.
Proof.
  split; [discriminate|]. split; [reflexivity|].
  apply (handleUpdateScriptLine_invalidates_audio sample_state 1 (js "Right.") None).
  discriminate.
Defined.

Lemma element_at_out_of_bounds (lines : list ScriptLine) (index : Z) :
  (index < 0 \/ Z.of_nat (length lines) <= index)%Z ->
  App.element_at lines index = None.
Proof.
  intros H. unfold App.element_at.
  destruct (index <? 0)%Z eqn:E; [reflexivity|].
  apply Z.ltb_ge in E. apply lookup_ge_None. lia.
Qed.

(** C9. An edit at an index outside the bounds of the script-line list
    leaves the list as it was, element for element, and still clears the
    audio URL and sets the dirty flag. *)
Theorem handleUpdateScriptLine_out_of_bounds
    (st : App.State) (index : Z) (newText : jsstring)
    (newSpeaker : option jsstring) :
  (index < 0 \/ Z.of_nat (length (App.scriptLines st)) <= index)%Z ->
  let st' := App.handleUpdateScriptLine index newText newSpeaker st in
  App.scriptLines st' = App.scriptLines st /\
  App.audioUrl st' = [] /\ App.isScriptDirty st' = true.
Proof.
  intros H. simpl. unfold App.update_lines.
  rewrite element_at_out_of_bounds by assumption. auto.
Qed.

Lemma handleUpdateScriptLine_out_of_bounds_witness :
  (2 < 0 \/ Z.of_nat (length (App.scriptLines sample_state)) <= 2)%Z /\
  let st' := App.handleUpdateScriptLine 2 (js "new") (Some (js "Person C")) sample_state in
  App.scriptLines st' = App.scriptLines sample_state /\
  App.audioUrl st' = [] /\ App.isScriptDirty st' = true.
Proof.
  assert (H : (2 < 0 \/ Z.of_nat (length (App.scriptLines sample_state)) <= 2)%Z).
  { right. simpl. lia. }
  split; [exact H|].
  exact (handleUpdateScriptLine_out_of_bounds sample_state 2 (js "new")
           (Some (js "Person C")) H).
Defined.

(** ** The monad and the ArrayBuffer store *)

Lemma with_arrayBuffers_same (w : World) : with_arrayBuffers w (arrayBuffers w) = w.
Proof. destruct w; reflexivity. Qed.

Lemma bytes_of_old (w : World) (h x : list (list byte)) (r : ArrayBuffer) :
  arrayBuffers w = h ++ x -> r < length h ->
  bytes_of w r = default [] (h !! r).
Proof.
  intros Hw Hr. unfold bytes_of. rewrite Hw, lookup_app_l by exact Hr. reflexivity.
Qed.

Lemma bytes_of_last (w : World) (h : list (list byte)) (cur : list byte) :
  arrayBuffers w = h ++ [cur] -> bytes_of w (length h) = cur.
Proof.
  intros Hw. unfold bytes_of. rewrite Hw, list_lookup_middle by reflexivity.
  reflexivity.
Qed.

(** ** concatenateAudioBuffers *)

(** The two files hold the same reduce and the same copy loop. *)
Lemma sum_byteLength_same : Part000.sum_byteLength = AiServiceTs.sum_byteLength.
Proof. reflexivity. Qed.

Lemma copy_loop_same : Part000.copy_loop = AiServiceTs.copy_loop.
Proof. reflexivity. Qed.

Lemma sum_byteLength_spec (buffers : list ArrayBuffer) : forall (sum : nat) (w : World),
  Part000.sum_byteLength buffers sum w
  = (Returned (sum + length (concat (List.map (bytes_of w) buffers))), w).
Proof.
  induction buffers as [|b bs IH]; intros sum w; simpl.
  - unfold ret. rewrite Nat.add_0_r. reflexivity.
  - unfold bind, byteLength. rewrite IH, length_app, Nat.add_assoc. reflexivity.
Qed.

Lemma copy_loop_spec (srcs : list ArrayBuffer) :
  forall (w : World) (h : list (list byte)) (done pad : list byte),
  arrayBuffers w = h ++ [done ++ pad] ->
  Forall (fun r => r < length h) srcs ->
  length pad = length (concat (List.map (fun r => default [] (h !! r)) srcs)) ->
  Part000.copy_loop {| buffer := length h |} srcs (length done) w
  = (Returned tt,
     with_arrayBuffers w
       (h ++ [done ++ concat (List.map (fun r => default [] (h !! r)) srcs)])).
Proof.
  induction srcs as [|s rest IH]; intros w h done pad Hw Hsrcs Hpad; simpl in *.
  - destruct pad; [|discriminate]. unfold ret.
    rewrite <- Hw, with_arrayBuffers_same. reflexivity.
  - inversion Hsrcs as [|? ? Hs Hrest]; subst.
    set (src := default [] (h !! s)) in *.
    rewrite length_app in Hpad.
    unfold bind at 1. unfold Uint8Array_set, Uint8Array_of. simpl.
    rewrite (bytes_of_old w h [done ++ pad] s Hw Hs), (bytes_of_last w h _ Hw).
    fold src.
    replace (length (done ++ pad) <? length done + length src) with false
      by (symmetry; apply Nat.ltb_ge; rewrite length_app; lia).
    rewrite Hw, insert_app_r_alt, Nat.sub_diag by lia. simpl.
    rewrite take_app_length, drop_app_add.
    unfold bind at 1. unfold byteLength.
    rewrite (bytes_of_old _ h [done ++ src ++ drop (length src) pad] s)
      by (reflexivity || assumption).
    fold src. rewrite <- length_app.
    rewrite (IH _ h (done ++ src) (drop (length src) pad)).
    + rewrite <- app_assoc. reflexivity.
    + simpl. rewrite <- app_assoc. reflexivity.
    + assumption.
    + rewrite length_drop. lia.
Qed.

(** The concatenation of part_000: a fresh buffer, last in the store,
    holding the bytes of the inputs in order. *)
Lemma concatenateAudioBuffers_spec (buffers : list ArrayBuffer) (w : World) :
  Forall (fun r => r < length (arrayBuffers w)) buffers ->
  Part000.concatenateAudioBuffers buffers w
  = (Returned (length (arrayBuffers w)),
     with_arrayBuffers w
       (arrayBuffers w ++ [concat (List.map (bytes_of w) buffers)])).
Proof.
  intros Hvalid. unfold Part000.concatenateAudioBuffers.
  unfold bind at 1. rewrite sum_byteLength_spec. simpl.
  unfold bind at 1. unfold new_Uint8Array, new_ArrayBuffer, bind at 1, alloc, ret.
  simpl. unfold bind.
  set (h := arrayBuffers w).
  set (total := concat (List.map (bytes_of w) buffers)).
  assert (Hmap : List.map (bytes_of w) buffers
                 = List.map (fun r => default [] (h !! r)) buffers).
  { apply map_ext_in. intros r _. reflexivity. }
  pose proof (copy_loop_spec buffers
                (with_arrayBuffers w (h ++ [replicate (length total) x00]))
                h [] (replicate (length total) x00)) as Hcopy.
  simpl in Hcopy. rewrite Hcopy.
  - subst total. rewrite Hmap. reflexivity.
  - reflexivity.
  - exact Hvalid.
  - rewrite length_replicate. subst total. rewrite Hmap. reflexivity.
Qed.

(** The two implementations are the same computation. *)
Lemma concatenateAudioBuffers_same (buffers : list ArrayBuffer) (w : World) :
  AiServiceTs.concatenateAudioBuffers buffers w
  = Part000.concatenateAudioBuffers buffers w.
Proof.
  unfold AiServiceTs.concatenateAudioBuffers, Part000.concatenateAudioBuffers.
  rewrite <- sum_byteLength_same, <- copy_loop_same.
  unfold bind, new_Uint8Array, new_ArrayBuffer, bind, alloc, ret, Uint8Array_of.
  destruct (Part000.sum_byteLength buffers 0 w) as [[total|e] w1]; [|reflexivity].
  simpl.
  destruct (Part000.copy_loop _ buffers 0 _) as [[[]|e] w2]; reflexivity.
Qed.

(** C10. On every store and every list of buffers of that store, the
    concatenation of src/services/aiService.ts (written through a view of a
    pre-allocated ArrayBuffer) and the one of the unnamed service file (a
    Uint8Array whose underlying buffer is returned) both return a buffer
    whose bytes are the bytes of the input buffers laid end to end in
    order; the two byte sequences are identical, and the inputs are left as
    they were. *)
Theorem concatenateAudioBuffers_refinement
    (buffers : list ArrayBuffer) (w : World) :
  Forall (fun r => r < length (arrayBuffers w)) buffers ->
  exists r1 w1 r2 w2,
    AiServiceTs.concatenateAudioBuffers buffers w = (Returned r1, w1) /\
    Part000.concatenateAudioBuffers buffers w = (Returned r2, w2) /\
    bytes_of w1 r1 = concat (List.map (bytes_of w) buffers) /\
    bytes_of w2 r2 = concat (List.map (bytes_of w) buffers) /\
    bytes_of w1 r1 = bytes_of w2 r2 /\
    List.map (bytes_of w1) buffers = List.map (bytes_of w) buffers /\
    List.map (bytes_of w2) buffers = List.map (bytes_of w) buffers.
Proof.
  intros Hvalid.
  pose proof (concatenateAudioBuffers_spec buffers w Hvalid) as H2.
  pose proof (concatenateAudioBuffers_same buffers w) as H1. rewrite H2 in H1.
  set (out := concat (List.map (bytes_of w) buffers)) in *.
  set (w' := with_arrayBuffers w (arrayBuffers w ++ [out])) in *.
  assert (Hout : bytes_of w' (length (arrayBuffers w)) = out).
  { apply (bytes_of_last w' (arrayBuffers w) out). reflexivity. }
  assert (Hin : List.map (bytes_of w') buffers = List.map (bytes_of w) buffers).
  { apply map_ext_in. intros r Hr.
    rewrite List.Forall_forall in Hvalid. apply Hvalid in Hr.
    rewrite (bytes_of_old w' (arrayBuffers w) [out] r) by (reflexivity || exact Hr).
    reflexivity. }
  exists (length (arrayBuffers w)), w', (length (arrayBuffers w)), w'.
  repeat split; assumption || congruence.
Qed.

(** ** generateAudioWithElevenLabs (part_000) *)

Section SynthesizerFacts.
Context (env : ProcessEnv) (net : Platform).

Lemma answered_length hist reqs bufs :
  answered net hist reqs bufs -> length bufs = length reqs.
Proof.
  revert hist bufs. induction reqs as [|r reqs IH]; intros hist [|b bufs] H;
    simpl in *; try easy.
  destruct H as [_ H]. f_equal. eapply IH, H.
Qed.

Lemma generateAudioSegment_ok (t v : jsstring) (w : World) (bytes : list byte) :
  fetch_tts net (ttsLog w) (Part000.requestFor env t v) = HttpOk (inr bytes) ->
  Part000.generateAudioSegment env net t v w
  = (Returned (length (arrayBuffers w)),
     with_arrayBuffers
       (with_ttsLog w (ttsLog w ++ [Part000.requestFor env t v]))
       (arrayBuffers w ++ [bytes])).
Proof.
  intros H. unfold Part000.generateAudioSegment, bind, fetch. rewrite H.
  reflexivity.
Qed.

Lemma generateAudioSegment_fail (t v : jsstring) (w : World) (e : Thrown) :
  thrown_by net (fetch_tts net (ttsLog w) (Part000.requestFor env t v)) = Some e ->
  Part000.generateAudioSegment env net t v w
  = (Threw e, with_ttsLog w (ttsLog w ++ [Part000.requestFor env t v])).
Proof.
  unfold Part000.generateAudioSegment, bind, fetch.
  destruct (fetch_tts net (ttsLog w) (Part000.requestFor env t v))
    as [e'|status [e'|body]|[e'|bytes]]; simpl; intros [= <-]; reflexivity.
Qed.

Lemma segments_loop_blank (n i : nat) (line : ScriptLine) rest segs :
  is_blank (text line) = true ->
  Part000.segments_loop env net n i (line :: rest) segs
  = Part000.segments_loop env net n (S i) rest segs.
Proof. intros H. simpl. rewrite falsy_or_blank, H. reflexivity. Qed.

(** When the network answers every request, the loop requests each spoken
    line once, in order, and collects the fresh buffers. *)
Lemma segments_loop_answered (rest : list ScriptLine) :
  forall (n i : nat) (segs : list ArrayBuffer) (w : World)
         (bufs : list (list byte)),
  answered net (ttsLog w) (List.map (request_of env) (spoken rest)) bufs ->
  exists ts,
    Part000.segments_loop env net n i rest segs w
    = (Returned (segs ++ seq (length (arrayBuffers w)) (length bufs)),
       with_timers
         (with_ttsLog
            (with_arrayBuffers w (arrayBuffers w ++ bufs))
            (ttsLog w ++ List.map (request_of env) (spoken rest)))
         (timers w ++ ts)).
Proof.
  induction rest as [|line rest IH]; intros n i segs w bufs Hans.
  - destruct bufs; [|contradiction]. exists []. simpl. unfold ret.
    rewrite !app_nil_r. destruct w; reflexivity.
  - destruct (is_blank (text line)) eqn:Hb.
    + rewrite segments_loop_blank by exact Hb.
      unfold spoken in *. simpl in *. rewrite Hb in *. simpl in *.
      apply IH, Hans.
    + unfold spoken in Hans |- *. simpl in Hans |- *.
      rewrite falsy_or_blank, Hb in *. simpl in Hans |- *.
      destruct bufs as [|b bufs]; [contradiction|]. destruct Hans as [Hb1 Hans].
      fold (spoken rest) in *.
      unfold bind at 1.
      rewrite (generateAudioSegment_ok _ _ _ _ Hb1).
      fold (request_of env line).
      set (w1 := with_arrayBuffers _ _).
      destruct (i <? n - 1).
      * unfold bind at 1. unfold sleep.
        destruct (IH n (S i) (segs ++ [length (arrayBuffers w)])
                    (with_timers w1 (timers w1 ++ [250%N])) bufs Hans)
          as (ts & Heq).
        exists (250%N :: ts). etrans; [exact Heq|]. subst w1. simpl.
        rewrite length_app, Nat.add_1_r. simpl.
        rewrite <- !app_assoc. simpl. reflexivity.
      * unfold bind at 1. unfold ret.
        destruct (IH n (S i) (segs ++ [length (arrayBuffers w)]) w1 bufs Hans)
          as (ts & Heq).
        exists ts. etrans; [exact Heq|]. subst w1. simpl.
        rewrite length_app, Nat.add_1_r. simpl.
        rewrite <- !app_assoc. simpl. reflexivity.
Qed.

End SynthesizerFacts.

Section SynthesizerRuns.
Context (env : ProcessEnv) (net : Platform).

Lemma spoken_all (lines : list ScriptLine) :
  Forall (fun line => is_blank (text line) = false) lines -> spoken lines = lines.
Proof.
  induction 1 as [|l ls Hl _ IH]; [reflexivity|].
  unfold spoken in *. simpl. rewrite Hl, IH. reflexivity.
Qed.

Lemma spoken_none (lines : list ScriptLine) :
  Forall (fun line => is_blank (text line) = true) lines -> spoken lines = [].
Proof.
  induction 1 as [|l ls Hl _ IH]; [reflexivity|].
  unfold spoken in *. simpl. rewrite Hl. exact IH.
Qed.

Lemma length_concat_sum (bufs : list (list byte)) :
  length (concat bufs) = list_sum (List.map length bufs).
Proof.
  induction bufs as [|b bufs IH]; simpl; [reflexivity|].
  rewrite length_app, IH. reflexivity.
Qed.

Lemma map_bytes_of_fresh (w : World) (bufs : list (list byte)) :
  forall h, arrayBuffers w = h ++ bufs ->
  List.map (bytes_of w) (seq (length h) (length bufs)) = bufs.
Proof.
  induction bufs as [|b bufs IH]; intros h Hw; simpl; [reflexivity|].
  f_equal.
  - unfold bytes_of. rewrite Hw, list_lookup_middle by reflexivity. reflexivity.
  - specialize (IH (h ++ [b])). rewrite length_app, Nat.add_1_r in IH.
    apply IH. rewrite Hw, <- app_assoc. reflexivity.
Qed.

Lemma generateAudio_try_answered (lines : list ScriptLine) (w : World)
    (bufs : list (list byte)) :
  answered net (ttsLog w) (List.map (request_of env) (spoken lines)) bufs ->
  bufs <> [] ->
  exists ts,
    Part000.generateAudio_try env net lines w
    = (Returned
         {| url := object_url (length (objectURLs w));
            statusMessage :=
              js "Audio successfully generated with " ++ of_nat (length bufs)
              ++ js " segments using multiple voices." |},
       synthesized w (List.map (request_of env) (spoken lines)) bufs ts).
Proof.
  intros Hans Hne.
  destruct (segments_loop_answered env net lines (length lines) 0 [] w bufs Hans)
    as (ts & Hloop).
  exists ts. unfold Part000.generateAudio_try. unfold bind at 1.
  rewrite Hloop. rewrite !app_nil_l, length_seq.
  destruct bufs as [|b0 bufs0] eqn:Ebufs; [congruence|]. rewrite <- Ebufs in *.
  replace (length bufs =? 0) with false by (rewrite Ebufs; reflexivity).
  set (w1 := with_timers _ _).
  assert (Hw1 : arrayBuffers w1 = arrayBuffers w ++ bufs) by reflexivity.
  unfold bind at 1. rewrite concatenateAudioBuffers_spec.
  2:{ rewrite Hw1. apply Forall_seq. intros j Hj. rewrite length_app. lia. }
  rewrite (map_bytes_of_fresh w1 bufs (arrayBuffers w) Hw1).
  unfold bind at 1. unfold new_Blob.
  rewrite (bytes_of_last _ (arrayBuffers w1) (concat bufs)) by reflexivity.
  unfold bind, createObjectURL, ret. simpl.
  unfold synthesized. rewrite <- app_assoc. reflexivity.
Qed.

(** The three ways into generateAudioWithElevenLabs. *)
Lemma generateAudio_no_key (lines : list ScriptLine) (w : World) :
  truthy_opt (ELEVENLABS_API_KEY env) = false ->
  Part000.generateAudioWithElevenLabs env net lines w
  = (Returned
       {| url := Part000.PLACEHOLDER_AUDIO_URL;
          statusMessage :=
            js "Audio generation simulated (API key missing). Placeholder audio provided." |},
     w).
Proof.
  intros Hkey. unfold Part000.generateAudioWithElevenLabs. rewrite Hkey.
  reflexivity.
Qed.

Lemma generateAudio_no_lines (w : World) :
  truthy_opt (ELEVENLABS_API_KEY env) = true ->
  Part000.generateAudioWithElevenLabs env net [] w
  = (Returned
       {| url := []; statusMessage := js "No script lines to generate audio from." |},
     w).
Proof.
  intros Hkey. unfold Part000.generateAudioWithElevenLabs. rewrite Hkey.
  reflexivity.
Qed.

Lemma generateAudio_some_lines (lines : list ScriptLine) (w : World) :
  truthy_opt (ELEVENLABS_API_KEY env) = true -> lines <> [] ->
  Part000.generateAudioWithElevenLabs env net lines w
  = try_catch (Part000.generateAudio_try env net lines)
      Part000.generateAudio_catch w.
Proof.
  intros Hkey Hne. unfold Part000.generateAudioWithElevenLabs. rewrite Hkey.
  destruct lines; [congruence | reflexivity].
Qed.

(** C1. With the synthesis credential present and every line's text
    non-empty after trimming, a run in which the network answers the
    requests with the buffers [bufs] issues exactly one request per line, in
    the order of the list, and (for a list that is not empty) registers as
    its result one blob whose bytes are the per-line buffers laid end to end
    in line order; its byte length is the sum of their byte lengths. *)
Theorem generateAudio_all_lines
    (lines : list ScriptLine) (bufs : list (list byte)) (w : World) :
  truthy_opt (ELEVENLABS_API_KEY env) = true ->
  Forall (fun line => is_blank (text line) = false) lines ->
  answered net (ttsLog w) (List.map (request_of env) lines) bufs ->
  exists res w',
    Part000.generateAudioWithElevenLabs env net lines w = (Returned res, w') /\
    ttsLog w' = ttsLog w ++ List.map (request_of env) lines /\
    length (List.map (request_of env) lines) = length lines /\
    length bufs = length lines /\
    (lines <> [] ->
       url res = object_url (length (objectURLs w)) /\
       objectURLs w'
       = objectURLs w
         ++ [{| blob_bytes := concat bufs; blob_type := js "audio/mpeg" |}] /\
       arrayBuffers w' = arrayBuffers w ++ bufs ++ [concat bufs] /\
       length (concat bufs) = list_sum (List.map length bufs)).
Proof.
  intros Hkey Hall Hans.
  pose proof (answered_length net _ _ _ Hans) as Hlen.
  rewrite length_map in Hlen.
  destruct (decide (lines = [])) as [->|Hlines].
  - destruct bufs; [|discriminate].
    rewrite generateAudio_no_lines by exact Hkey.
    eexists _, _. split; [reflexivity|]. simpl.
    rewrite app_nil_r. repeat split; congruence.
  - assert (Hne : bufs <> []).
    { intros ->. destruct lines; [congruence | discriminate]. }
    rewrite <- (spoken_all lines Hall) in Hans.
    destruct (generateAudio_try_answered lines w bufs Hans Hne) as (ts & Htry).
    rewrite (spoken_all lines Hall) in Htry.
    rewrite generateAudio_some_lines by assumption.
    unfold try_catch. rewrite Htry.
    eexists _, _. split; [reflexivity|].
    split; [reflexivity|]. split; [apply length_map|]. split; [exact Hlen|].
    intros _. split; [reflexivity|]. split; [reflexivity|].
    split; [reflexivity|]. apply length_concat_sum.
Qed.

End SynthesizerRuns.

(** ** What a run requests, whatever the network does *)

Section RequestLog.
Context (env : ProcessEnv) (net : Platform).

Lemma generateAudioSegment_log (t v : jsstring) (w : World) :
  ttsLog (snd (Part000.generateAudioSegment env net t v w))
  = ttsLog w ++ [Part000.requestFor env t v].
Proof.
  unfold Part000.generateAudioSegment, bind, fetch.
  destruct (fetch_tts net (ttsLog w) (Part000.requestFor env t v))
    as [e|status [e|body]|[e|bytes]]; reflexivity.
Qed.

(** The loop requests a prefix of the spoken lines, in order, and nothing
    else: a line whose text is blank is never requested. *)
Lemma segments_loop_log (rest : list ScriptLine) :
  forall (n i : nat) (segs : list ArrayBuffer) (w : World),
  exists k,
    ttsLog (snd (Part000.segments_loop env net n i rest segs w))
    = ttsLog w ++ take k (List.map (request_of env) (spoken rest)).
Proof.
  induction rest as [|line rest IH]; intros n i segs w.
  - exists 0. simpl. symmetry. apply app_nil_r.
  - destruct (is_blank (text line)) eqn:Hb.
    + rewrite segments_loop_blank by exact Hb.
      unfold spoken. simpl. rewrite Hb. simpl. apply IH.
    + unfold spoken. simpl. rewrite falsy_or_blank, Hb. simpl.
      fold (spoken rest). unfold bind at 1.
      pose proof (generateAudioSegment_log (text line) (Part000.voiceId line) w)
        as Hlog.
      fold (request_of env line) in Hlog.
      destruct (Part000.generateAudioSegment env net (text line)
                  (Part000.voiceId line) w) as [[ab|e] w1]; simpl in Hlog.
      * unfold bind at 1.
        destruct (i <? n - 1); unfold sleep, ret;
          match goal with
          | |- context [Part000.segments_loop env net n (S i) rest ?s ?w2] =>
              destruct (IH n (S i) s w2) as (k & Hk)
          end;
          exists (S k); rewrite Hk; simpl; rewrite Hlog, <- app_assoc; reflexivity.
      * exists 1. simpl. rewrite Hlog, take_0. reflexivity.
Qed.

Lemma copy_loop_log (srcs : list ArrayBuffer) :
  forall (result : Uint8Array) (offset : nat) (w : World),
  ttsLog (snd (Part000.copy_loop result srcs offset w)) = ttsLog w.
Proof.
  induction srcs as [|s rest IH]; intros result offset w; simpl; [reflexivity|].
  unfold bind at 1. unfold Uint8Array_set.
  destruct (_ <? _); [reflexivity|].
  unfold bind at 1. unfold byteLength. rewrite IH. reflexivity.
Qed.

Lemma concatenateAudioBuffers_log (buffers : list ArrayBuffer) (w : World) :
  ttsLog (snd (Part000.concatenateAudioBuffers buffers w)) = ttsLog w.
Proof.
  unfold Part000.concatenateAudioBuffers. unfold bind at 1.
  rewrite sum_byteLength_spec.
  unfold bind at 1. unfold new_Uint8Array, new_ArrayBuffer, bind at 1, alloc, ret.
  unfold bind.
  match goal with
  | |- context [Part000.copy_loop ?r buffers 0 ?w1] =>
      pose proof (copy_loop_log buffers r 0 w1) as H;
      destruct (Part000.copy_loop r buffers 0 w1) as [[[]|e] w2]
  end; exact H.
Qed.

Lemma generateAudio_log (lines : list ScriptLine) (w : World) :
  truthy_opt (ELEVENLABS_API_KEY env) = true ->
  exists k,
    ttsLog (snd (Part000.generateAudioWithElevenLabs env net lines w))
    = ttsLog w ++ take k (List.map (request_of env) (spoken lines)).
Proof.
  intros Hkey. destruct (decide (lines = [])) as [->|Hne].
  - exists 0. rewrite generateAudio_no_lines by exact Hkey. simpl.
    symmetry. apply app_nil_r.
  - rewrite generateAudio_some_lines by assumption.
    destruct (segments_loop_log lines (length lines) 0 [] w) as (k & Hk).
    exists k. unfold try_catch, Part000.generateAudio_try. unfold bind at 1.
    destruct (Part000.segments_loop env net (length lines) 0 lines [] w)
      as [[segs|e] w1]; simpl in Hk; [|exact Hk].
    destruct (length segs =? 0); [exact Hk|].
    unfold bind at 1.
    pose proof (concatenateAudioBuffers_log segs w1) as Hc.
    destruct (Part000.concatenateAudioBuffers segs w1) as [[b|e] w2];
      simpl in Hc; [|simpl; congruence].
    unfold bind, new_Blob, createObjectURL, ret. simpl. congruence.
Qed.

End RequestLog.

Section SkippingAndFailing.
Context (env : ProcessEnv) (net : Platform).

Lemma segments_loop_all_blank (rest : list ScriptLine) :
  forall (n i : nat) (segs : list ArrayBuffer) (w : World),
  Forall (fun line => is_blank (text line) = true) rest ->
  Part000.segments_loop env net n i rest segs w = (Returned segs, w).
Proof.
  induction rest as [|line rest IH]; intros n i segs w Hall; [reflexivity|].
  inversion Hall as [|? ? Hl Hrest]; subst.
  rewrite segments_loop_blank by exact Hl. apply IH, Hrest.
Qed.

Lemma generateAudio_answered (lines : list ScriptLine) (w : World)
    (bufs : list (list byte)) :
  truthy_opt (ELEVENLABS_API_KEY env) = true ->
  answered net (ttsLog w) (List.map (request_of env) (spoken lines)) bufs ->
  exists res w',
    Part000.generateAudioWithElevenLabs env net lines w = (Returned res, w') /\
    ttsLog w' = ttsLog w ++ List.map (request_of env) (spoken lines).
Proof.
  intros Hkey Hans. destruct (decide (lines = [])) as [->|Hne].
  - rewrite generateAudio_no_lines by exact Hkey.
    eexists _, _. split; [reflexivity|]. simpl. symmetry. apply app_nil_r.
  - rewrite generateAudio_some_lines by assumption. unfold try_catch.
    destruct bufs as [|b bufs].
    + destruct (segments_loop_answered env net lines (length lines) 0 [] w [] Hans)
        as (ts & Hloop).
      unfold Part000.generateAudio_try. unfold bind at 1. rewrite Hloop.
      simpl. unfold ret. eexists _, _. split; reflexivity.
    + destruct (generateAudio_try_answered env net lines w (b :: bufs) Hans)
        as (ts & Htry); [discriminate|].
      rewrite Htry. eexists _, _. split; reflexivity.
Qed.

(** C3. With the synthesis credential present: whatever the network does,
    the requests of a run are a prefix of the requests for the lines whose
    text is non-empty after trimming, in order, so no skipped line is ever
    requested; when the network answers them, the run requests exactly
    those lines; and for a non-empty list all of whose texts are empty or
    white space the run makes no request and returns the empty url with the
    status message that no audio was generated, not the placeholder. *)
Theorem generateAudio_skips_blank_lines (lines : list ScriptLine) (w : World) :
  truthy_opt (ELEVENLABS_API_KEY env) = true ->
  (exists k,
     ttsLog (snd (Part000.generateAudioWithElevenLabs env net lines w))
     = ttsLog w ++ take k (List.map (request_of env) (spoken lines))) /\
  (forall bufs,
     answered net (ttsLog w) (List.map (request_of env) (spoken lines)) bufs ->
     exists res w',
       Part000.generateAudioWithElevenLabs env net lines w = (Returned res, w') /\
       ttsLog w' = ttsLog w ++ List.map (request_of env) (spoken lines)) /\
  (lines <> [] ->
   Forall (fun line => is_blank (text line) = true) lines ->
   exists res,
     Part000.generateAudioWithElevenLabs env net lines w = (Returned res, w) /\
     url res = [] /\
     url res <> Part000.PLACEHOLDER_AUDIO_URL /\
     statusMessage res
     = js "No audio generated as all script lines were empty or resulted in no audio." /\
     includes (statusMessage res) (js "No audio generated") = true).
Proof.
  intros Hkey. split; [|split].
  - apply generateAudio_log, Hkey.
  - intros bufs Hans. apply (generateAudio_answered lines w bufs Hkey Hans).
  - intros Hne Hall.
    rewrite generateAudio_some_lines by assumption.
    unfold try_catch, Part000.generateAudio_try. unfold bind at 1.
    rewrite segments_loop_all_blank by exact Hall. simpl. unfold ret.
    eexists. split; [reflexivity|]. simpl.
    split; [reflexivity|]. split; [discriminate|]. split; reflexivity.
Qed.

(** The loop stops at the first request that throws. *)
Lemma segments_loop_fails (pre : list ScriptLine) (line : ScriptLine)
    (post : list ScriptLine) (e : Thrown) :
  forall (n i : nat) (segs : list ArrayBuffer) (w : World)
         (bufs : list (list byte)),
  is_blank (text line) = false ->
  answered net (ttsLog w) (List.map (request_of env) (spoken pre)) bufs ->
  thrown_by net
    (fetch_tts net (ttsLog w ++ List.map (request_of env) (spoken pre))
       (request_of env line)) = Some e ->
  exists ts,
    Part000.segments_loop env net n i (pre ++ line :: post) segs w
    = (Threw e,
       with_timers
         (with_ttsLog
            (with_arrayBuffers w (arrayBuffers w ++ bufs))
            (ttsLog w ++ List.map (request_of env) (spoken pre)
               ++ [request_of env line]))
         (timers w ++ ts)).
Proof.
  induction pre as [|l pre IH]; intros n i segs w bufs Hline Hans Hfail.
  - destruct bufs; [|contradiction]. simpl in Hfail. rewrite app_nil_r in Hfail.
    exists []. simpl. rewrite falsy_or_blank, Hline. simpl.
    unfold bind at 1.
    rewrite (generateAudioSegment_fail env net _ _ _ _ Hfail).
    fold (request_of env line). rewrite !app_nil_r. destruct w; reflexivity.
  - destruct (is_blank (text l)) eqn:Hb.
    + change ((l :: pre) ++ line :: post) with (l :: (pre ++ line :: post)).
      rewrite segments_loop_blank by exact Hb.
      unfold spoken in *. simpl in *. rewrite Hb in *. simpl in *.
      apply IH; assumption.
    + unfold spoken in Hans, Hfail |- *. simpl in Hans, Hfail |- *.
      rewrite falsy_or_blank. rewrite Hb in *. simpl in Hans, Hfail |- *.
      destruct bufs as [|b bufs]; [contradiction|]. destruct Hans as [Hb1 Hans].
      fold (spoken pre) in *.
      unfold bind at 1.
      rewrite (generateAudioSegment_ok env net _ _ _ _ Hb1).
      fold (request_of env l).
      set (w1 := with_arrayBuffers _ _).
      assert (Hfail1 :
        thrown_by net
          (fetch_tts net (ttsLog w1 ++ List.map (request_of env) (spoken pre))
             (request_of env line)) = Some e).
      { subst w1. simpl. rewrite <- app_assoc. exact Hfail. }
      destruct (i <? n - 1).
      * unfold bind at 1. unfold sleep.
        destruct (IH n (S i) (segs ++ [length (arrayBuffers w)])
                    (with_timers w1 (timers w1 ++ [250%N])) bufs Hline Hans Hfail1)
          as (ts & Heq).
        exists (250%N :: ts). etrans; [exact Heq|]. subst w1. simpl.
        rewrite <- !app_assoc. simpl. reflexivity.
      * unfold bind at 1. unfold ret.
        destruct (IH n (S i) (segs ++ [length (arrayBuffers w)]) w1 bufs
                    Hline Hans Hfail1) as (ts & Heq).
        exists ts. etrans; [exact Heq|]. subst w1. simpl.
        rewrite <- !app_assoc. simpl. reflexivity.
Qed.

(** C5. With the synthesis credential present, when the requests for the
    lines before some line are answered and the request for that line
    throws, the run makes no request for the lines after it, returns the
    fixed placeholder url with a status message that carries the message of
    the thrown error, and registers no blob: none of the buffers fetched
    before the failure is part of the result. *)
Theorem generateAudio_request_fails
    (pre : list ScriptLine) (line : ScriptLine) (post : list ScriptLine)
    (bufs : list (list byte)) (e : Thrown) (w : World) :
  truthy_opt (ELEVENLABS_API_KEY env) = true ->
  is_blank (text line) = false ->
  answered net (ttsLog w) (List.map (request_of env) (spoken pre)) bufs ->
  thrown_by net
    (fetch_tts net (ttsLog w ++ List.map (request_of env) (spoken pre))
       (request_of env line)) = Some e ->
  exists res w',
    Part000.generateAudioWithElevenLabs env net (pre ++ line :: post) w
    = (Returned res, w') /\
    ttsLog w'
    = ttsLog w ++ List.map (request_of env) (spoken pre) ++ [request_of env line] /\
    url res = Part000.PLACEHOLDER_AUDIO_URL /\
    statusMessage res
    = js "Multi-voice audio generation failed: "
      ++ message_or e (js "Unknown error")
      ++ js ". Placeholder audio provided." /\
    includes (statusMessage res) (message_or e (js "Unknown error")) = true /\
    objectURLs w' = objectURLs w /\
    arrayBuffers w' = arrayBuffers w ++ bufs.
Proof.
  intros Hkey Hline Hans Hfail.
  rewrite generateAudio_some_lines by (assumption || (destruct pre; discriminate)).
  destruct (segments_loop_fails pre line post e
              (length (pre ++ line :: post)) 0 [] w bufs Hline Hans Hfail)
    as (ts & Hloop).
  unfold try_catch, Part000.generateAudio_try. unfold bind at 1.
  rewrite Hloop. unfold Part000.generateAudio_catch, ret.
  eexists _, _. split; [reflexivity|].
  split; [reflexivity|]. split; [reflexivity|]. split; [reflexivity|].
  split; [|split; reflexivity].
  exact (includes_app (js "Multi-voice audio generation failed: ")
           (message_or e (js "Unknown error"))
           (js ". Placeholder audio provided.")).
Qed.

End SkippingAndFailing.

(** ** The missing synthesis credential *)

(** C4. When the synthesis credential is absent (undefined or empty), both
    versions of generateAudioWithElevenLabs return, for every list of lines,
    the fixed placeholder url with a status message that contains
    "simulated (API key missing)", and leave the world as it was: no
    request is made. *)
Theorem generateAudio_missing_key
    (env : ProcessEnv) (net : Platform) (lines : list ScriptLine) (w : World) :
  truthy_opt (ELEVENLABS_API_KEY env) = false ->
  exists res,
    Part000.generateAudioWithElevenLabs env net lines w = (Returned res, w) /\
    AiServiceTs.generateAudioWithElevenLabs env net lines w = (Returned res, w) /\
    url res
    = js "https://interactive-examples.mdn.mozilla.net/media/cc0-audio/t-rex-roar.mp3" /\
    includes (statusMessage res) (js "simulated (API key missing)") = true.
Proof.
  intros Hkey. eexists. split; [apply generateAudio_no_key, Hkey|].
  split.
  - unfold AiServiceTs.generateAudioWithElevenLabs. rewrite Hkey. reflexivity.
  - split; [reflexivity | vm_compute; reflexivity].
Qed.

(** ** The voice of a line *)

(** C7, as amended. The first voice is selected exactly when the lower-cased
    speaker label contains "person a" or contains " a:", the second voice in
    every other case; both versions of the synthesizer select the same
    voice, and the request for the line is addressed to it. *)
Theorem voiceId_selection (line : ScriptLine) :
  (Part000.voiceId line = Part000.VOICE_ID_PERSON_A <-> first_speaker line = true) /\
  (Part000.voiceId line = Part000.VOICE_ID_PERSON_B <-> first_speaker line = false) /\
  AiServiceTs.voiceId line = Part000.voiceId line /\
  (forall env,
     req_url (request_of env line)
     = Part000.ELEVENLABS_TTS_BASE_URL ++ Part000.voiceId line).
Proof.
  assert (Hab : Part000.VOICE_ID_PERSON_A <> Part000.VOICE_ID_PERSON_B)
    by (vm_compute; discriminate).
  unfold Part000.voiceId, first_speaker.
  destruct (includes (toLowerCase (speaker line)) (js "person a")
            || includes (toLowerCase (speaker line)) (js " a:")) eqn:E.
  - repeat split; try reflexivity; try congruence.
    + unfold AiServiceTs.voiceId. rewrite E. reflexivity.
    + intros env. unfold request_of, Part000.voiceId. rewrite E. reflexivity.
  - repeat split; try reflexivity; try congruence.
    + unfold AiServiceTs.voiceId. rewrite E. reflexivity.
    + intros env. unfold request_of, Part000.voiceId. rewrite E. reflexivity.
Qed.

(** C7 as stated fails: a label that contains " a:" but not "person a"
    is given the first voice. *)
Lemma voiceId_person_a_only_counterexample :
  ~ (forall line : ScriptLine,
       Part000.voiceId line = Part000.VOICE_ID_PERSON_A <->
       includes (toLowerCase (speaker line)) (js "person a") = true).
Proof.
  intros H. destruct (H host_line) as [H1 _].
  assert (Hv : Part000.voiceId host_line = Part000.VOICE_ID_PERSON_A)
    by (vm_compute; reflexivity).
  apply H1 in Hv. vm_compute in Hv. discriminate.
Qed.

(** ** generateScript *)

Lemma generateScript_catch_throws (error : Thrown) (w : World) :
  exists m, Part000.generateScript_catch error w = (Threw (ErrorObj m), w).
Proof. unfold Part000.generateScript_catch, throw. eauto. Qed.

Lemma generateScript_catch_empty (w : World) :
  Part000.generateScript_catch (ErrorObj EMPTY_RESPONSE) w
  = (Threw (ErrorObj EMPTY_RESPONSE), w).
Proof. reflexivity. Qed.

Lemma generateScript_run (env : ProcessEnv) (net : Platform)
    (topic : jsstring) (w : World) :
  truthy_opt (API_KEY env) = true ->
  let w1 := with_genLog w (genLog w ++ [script_request topic]) in
  Part000.generateScript env net topic w
  = match generateContent net (genLog w) (script_request topic) with
    | GenRejected e => Part000.generateScript_catch e w1
    | GenResponse None => (Threw (ErrorObj EMPTY_RESPONSE), w1)
    | GenResponse (Some t) =>
        if is_blank t then (Threw (ErrorObj EMPTY_RESPONSE), w1)
        else (Returned t, w1)
    end.
Proof.
  intros Hkey w1. unfold Part000.generateScript, Part000.GEMINI_API_KEY.
  rewrite Hkey. cbn [negb].
  unfold try_catch, Part000.generateScript_try, bind, models_generateContent.
  fold (script_request topic). fold w1.
  destruct (generateContent net (genLog w) (script_request topic)) as [e|[t|]].
  - reflexivity.
  - rewrite falsy_or_blank. destruct (is_blank t); reflexivity.
  - reflexivity.
Qed.

(** C8. For every topic, generateScript either returns the text of the API
    response, which is then non-empty after trimming, or throws an Error.
    It throws without calling the API when the generation credential is
    missing, and it throws whenever the response text is undefined, empty or
    white space only. *)
Theorem generateScript_returns_text_or_throws
    (env : ProcessEnv) (net : Platform) (topic : jsstring) (w : World) :
  ((exists t w',
      Part000.generateScript env net topic w = (Returned t, w') /\
      trim t <> [] /\
      generateContent net (genLog w) (script_request topic)
      = GenResponse (Some t))
   \/ (exists m w',
         Part000.generateScript env net topic w = (Threw (ErrorObj m), w'))) /\
  (truthy_opt (API_KEY env) = false ->
   Part000.generateScript env net topic w
   = (Threw (ErrorObj KEY_NOT_CONFIGURED), w)) /\
  (truthy_opt (API_KEY env) = true ->
   forall response_text,
     generateContent net (genLog w) (script_request topic)
     = GenResponse response_text ->
     match response_text with
     | None => True
     | Some t => is_blank t = true
     end ->
     exists w',
       Part000.generateScript env net topic w
       = (Threw (ErrorObj EMPTY_RESPONSE), w')).
Proof.
  destruct (truthy_opt (API_KEY env)) eqn:Hkey.
  2:{ assert (Hrun : Part000.generateScript env net topic w
                     = (Threw (ErrorObj KEY_NOT_CONFIGURED), w)).
      { unfold Part000.generateScript, Part000.GEMINI_API_KEY.
        rewrite Hkey. reflexivity. }
      split; [right; eauto|]. split; [intros _; exact Hrun | discriminate]. }
  rewrite (generateScript_run env net topic w Hkey).
  split; [|split; [discriminate|]].
  - destruct (generateContent net (genLog w) (script_request topic))
      as [e|[t|]] eqn:Hgen.
    + right.
      destruct (generateScript_catch_throws e
                  (with_genLog w (genLog w ++ [script_request topic])))
        as (m & Hm).
      rewrite Hm. eauto.
    + destruct (is_blank t) eqn:Hb.
      * right. eauto.
      * left. eexists _, _. split; [reflexivity|].
        split; [|reflexivity]. unfold is_blank in Hb. apply eqb_false in Hb.
        exact Hb.
    + right. eauto.
  - intros _ response_text Hgen Hblank. rewrite Hgen.
    destruct response_text as [t|]; [rewrite Hblank|]; eauto.
Qed.

(** ** Concrete runs *)

Lemma concatenateAudioBuffers_refinement_witness :
  Forall (fun r => r < length (arrayBuffers sample_store)) [0; 1; 0] /\
  exists r1 w1 r2 w2,
    AiServiceTs.concatenateAudioBuffers [0; 1; 0] sample_store = (Returned r1, w1) /\
    Part000.concatenateAudioBuffers [0; 1; 0] sample_store = (Returned r2, w2) /\
    bytes_of w1 r1 = [x01; x02; x03; x01; x02] /\
    bytes_of w2 r2 = [x01; x02; x03; x01; x02].
Proof.
  assert (H : Forall (fun r => r < length (arrayBuffers sample_store)) [0; 1; 0]).
  { repeat constructor. }
  split; [exact H|].
  destruct (concatenateAudioBuffers_refinement [0; 1; 0] sample_store H)
    as (r1 & w1 & r2 & w2 & H1 & H2 & B1 & B2 & _).
  exists r1, w1, r2, w2. split; [exact H1|]. split; [exact H2|].
  split; [exact B1 | exact B2].
Defined.

Lemma generateAudio_all_lines_witness :
  truthy_opt (ELEVENLABS_API_KEY sample_env) = true /\
  Forall (fun line => is_blank (text line) = false) sample_lines /\
  answered steady_net (ttsLog empty_world)
    (List.map (request_of sample_env) sample_lines) [[x01; x02]; [x03]] /\
  exists res w',
    Part000.generateAudioWithElevenLabs sample_env steady_net sample_lines empty_world
    = (Returned res, w') /\
    ttsLog w' = List.map (request_of sample_env) sample_lines /\
    url res = object_url 0 /\
    objectURLs w'
    = [{| blob_bytes := [x01; x02; x03]; blob_type := js "audio/mpeg" |}].
Proof.
  assert (H1 : truthy_opt (ELEVENLABS_API_KEY sample_env) = true) by reflexivity.
  assert (H2 : Forall (fun line => is_blank (text line) = false) sample_lines)
    by (repeat constructor).
  assert (H3 : answered steady_net (ttsLog empty_world)
                 (List.map (request_of sample_env) sample_lines)
                 [[x01; x02]; [x03]])
    by (repeat split).
  split; [exact H1|]. split; [exact H2|]. split; [exact H3|].
  destruct (generateAudio_all_lines sample_env steady_net sample_lines
              [[x01; x02]; [x03]] empty_world H1 H2 H3)
    as (res & w' & Hrun & Hlog & _ & _ & Hres).
  destruct Hres as (Hurl & Hblob & _); [discriminate|].
  exists res, w'. split; [exact Hrun|]. split; [exact Hlog|].
  split; [exact Hurl | exact Hblob].
Defined.

Lemma generateAudio_skips_blank_lines_witness :
  truthy_opt (ELEVENLABS_API_KEY sample_env) = true /\
  answered steady_net (ttsLog empty_world)
    (List.map (request_of sample_env) (spoken lines_with_blanks))
    [[x01; x02]; [x03]] /\
  (exists res w',
     Part000.generateAudioWithElevenLabs sample_env steady_net lines_with_blanks
       empty_world = (Returned res, w') /\
     ttsLog w' = List.map (request_of sample_env) sample_lines) /\
  blank_lines <> [] /\
  Forall (fun line => is_blank (text line) = true) blank_lines /\
  (exists res,
     Part000.generateAudioWithElevenLabs sample_env steady_net blank_lines
       empty_world = (Returned res, empty_world) /\
     url res = []).
Proof.
  assert (H1 : truthy_opt (ELEVENLABS_API_KEY sample_env) = true) by reflexivity.
  assert (H2 : answered steady_net (ttsLog empty_world)
                 (List.map (request_of sample_env) (spoken lines_with_blanks))
                 [[x01; x02]; [x03]])
    by (repeat split).
  assert (H3 : blank_lines <> []) by discriminate.
  assert (H4 : Forall (fun line => is_blank (text line) = true) blank_lines)
    by (repeat constructor).
  split; [exact H1|]. split; [exact H2|]. split.
  - destruct (generateAudio_skips_blank_lines sample_env steady_net
                lines_with_blanks empty_world H1) as (_ & Hall & _).
    destruct (Hall _ H2) as (res & w' & Hrun & Hlog).
    exists res, w'. split; [exact Hrun | exact Hlog].
  - split; [exact H3|]. split; [exact H4|].
    destruct (generateAudio_skips_blank_lines sample_env steady_net
                blank_lines empty_world H1) as (_ & _ & Hblank).
    destruct (Hblank H3 H4) as (res & Hrun & Hurl & _).
    exists res. split; [exact Hrun | exact Hurl].
Defined.

Lemma generateAudio_missing_key_witness :
  truthy_opt (ELEVENLABS_API_KEY keyless_env) = false /\
  exists res,
    Part000.generateAudioWithElevenLabs keyless_env steady_net sample_lines
      empty_world = (Returned res, empty_world) /\
    AiServiceTs.generateAudioWithElevenLabs keyless_env steady_net sample_lines
      empty_world = (Returned res, empty_world) /\
    includes (statusMessage res) (js "simulated (API key missing)") = true.
Proof.
  assert (H : truthy_opt (ELEVENLABS_API_KEY keyless_env) = false) by reflexivity.
  split; [exact H|].
  destruct (generateAudio_missing_key keyless_env steady_net sample_lines
              empty_world H) as (res & H1 & H2 & _ & H3).
  exists res. split; [exact H1|]. split; [exact H2 | exact H3].
Defined.

Lemma generateAudio_request_fails_witness :
  truthy_opt (ELEVENLABS_API_KEY sample_env) = true /\
  is_blank (text {| speaker := js "Person B"; text := js "Right." |}) = false /\
  exists res w',
    Part000.generateAudioWithElevenLabs sample_env flaky_net
      (sample_lines ++ sample_lines) empty_world = (Returned res, w') /\
    length (ttsLog w') = 2 /\
    url res = Part000.PLACEHOLDER_AUDIO_URL /\
    statusMessage res
    = js "Multi-voice audio generation failed: ElevenLabs API error: 429 - quota exceeded. Placeholder audio provided." /\
    objectURLs w' = [].
Proof.
  assert (H1 : truthy_opt (ELEVENLABS_API_KEY sample_env) = true) by reflexivity.
  assert (H2 : is_blank (text {| speaker := js "Person B"; text := js "Right." |})
               = false) by reflexivity.
  split; [exact H1|]. split; [exact H2|].
  destruct (generateAudio_request_fails sample_env flaky_net
              [ {| speaker := js "Person A"; text := js "Gravity pulls." |} ]
              {| speaker := js "Person B"; text := js "Right." |}
              sample_lines [[x01; x02]]
              (ErrorObj (js "ElevenLabs API error: 429 - quota exceeded"))
              empty_world H1 H2)
    as (res & w' & Hrun & Hlog & Hurl & Hmsg & _ & Hblobs & _).
  - repeat split.
  - reflexivity.
  - exists res, w'. split; [exact Hrun|].
    split; [rewrite Hlog; reflexivity|]. split; [exact Hurl|].
    split; [rewrite Hmsg; reflexivity | exact Hblobs].
Defined.

Lemma generateScript_returns_text_or_throws_witness :
  truthy_opt (API_KEY keyless_env) = false /\
  Part000.generateScript keyless_env steady_net (js "gravity") empty_world
  = (Threw (ErrorObj KEY_NOT_CONFIGURED), empty_world) /\
  truthy_opt (API_KEY sample_env) = true /\
  generateContent steady_net (genLog empty_world) (script_request (js "gravity"))
  = GenResponse (Some (js "   ")) /\
  is_blank (js "   ") = true /\
  exists w',
    Part000.generateScript sample_env steady_net (js "gravity") empty_world
    = (Threw (ErrorObj EMPTY_RESPONSE), w').
Proof.
  assert (H1 : truthy_opt (API_KEY keyless_env) = false) by reflexivity.
  assert (H2 : truthy_opt (API_KEY sample_env) = true) by reflexivity.
  assert (H3 : generateContent steady_net (genLog empty_world)
                 (script_request (js "gravity")) = GenResponse (Some (js "   ")))
    by reflexivity.
  assert (H4 : is_blank (js "   ") = true) by reflexivity.
  split; [exact H1|]. split.
  - destruct (generateScript_returns_text_or_throws keyless_env steady_net
                (js "gravity") empty_world) as (_ & Hkey & _).
    exact (Hkey H1).
  - split; [exact H2|]. split; [exact H3|]. split; [exact H4|].
    destruct (generateScript_returns_text_or_throws sample_env steady_net
                (js "gravity") empty_world) as (_ & _ & Hempty).
    exact (Hempty H2 (Some (js "   ")) H3 H4).
Defined.

(** ** Further checks of the embedding on concrete inputs *)

Example js_literal : js "a:" = [97; 58]%N.
Proof. reflexivity. Qed.

Example trim_both : trim (js "  hi there  ") = js "hi there".
Proof. reflexivity. Qed.

Example split_three :
  split_newline (js "a" ++ [10%N] ++ js "b" ++ [10%N]) = [js "a"; js "b"; []].
Proof. reflexivity. Qed.

Example of_nat_12 : of_nat 12 = js "12" /\ of_nat 0 = js "0".
Proof. split; reflexivity. Qed.

Example parse_gravity :
  App.parseScriptText
    (js "Person A: Gravity pulls objects together." ++ [10%N]
     ++ js "Person B: Right, and it depends on mass.")
  = [ {| speaker := js "Person A"; text := js "Gravity pulls objects together." |};
      {| speaker := js "Person B"; text := js "Right, and it depends on mass." |} ].
Proof. vm_compute. reflexivity. Qed.

(** A line that ends in a carriage return is not a speaker line: [.] does
    not match a line terminator and [$] wants the end of the input. *)
Example speakerRegex_carriage_return :
  App.speakerRegex (js "Person A: hello" ++ [13%N]) = None /\
  App.speakerRegex (js "Person A:" ++ [13%N]) = Some (js "Person A", []).
Proof. split; vm_compute; reflexivity. Qed.

Example speakerRegex_needs_label :
  App.speakerRegex (js "Person : hello") = None /\
  App.speakerRegex (js "Narrator: hello") = None /\
  App.speakerRegex (js "PERSON x9:hello  ") = Some (js "PERSON x9", js "hello  ").
Proof. repeat split; vm_compute; reflexivity. Qed.

Example edit_in_bounds :
  App.scriptLines (App.handleUpdateScriptLine 0 (js "New.") None sample_state)
  = [ {| speaker := js "Person A"; text := js "New." |};
      {| speaker := js "Person B"; text := js "Right." |} ].
Proof. reflexivity. Qed.

Example synthesis_timers :
  timers (snd (Part000.generateAudioWithElevenLabs sample_env steady_net
                 lines_with_blanks empty_world)) = [250%N].
Proof. vm_compute. reflexivity. Qed.

(** The bundle-era synthesizer sends every line, a blank one included, and
    gives each request the texts before and after it as context. *)
Example bundle_service_requests :
  List.map (fun r => (req_text r, req_previous_text r, req_next_text r))
    (ttsLog (snd (AiServiceTs.generateAudioWithElevenLabs sample_env steady_net
                    [ {| speaker := js "Person A"; text := js "Hi." |};
                      {| speaker := js "Person B"; text := js "  " |};
                      {| speaker := js "Person A"; text := js "Bye." |} ]
                    empty_world)))
  = [ (js "Hi.", None, Some (js "   Bye."));
      (js "  ", Some (js "Hi."), Some (js "Bye."));
      (js "Bye.", Some (js "Hi.   "), None) ].
Proof. vm_compute. reflexivity. Qed.

Example bundle_service_result :
  fst (AiServiceTs.generateAudioWithElevenLabs sample_env steady_net sample_lines
         empty_world)
  = Returned
      {| url := js "blob:0";
         statusMessage :=
           js "Audio successfully generated with 2 segments using multiple voices." |}.
Proof. vm_compute. reflexivity. Qed.

Example failing_run_message :
  fst (Part000.generateAudioWithElevenLabs sample_env flaky_net sample_lines
         empty_world)
  = Returned
      {| url := Part000.PLACEHOLDER_AUDIO_URL;
         statusMessage :=
           js "Multi-voice audio generation failed: ElevenLabs API error: 429 - quota exceeded. Placeholder audio provided." |}.
Proof. vm_compute. reflexivity. Qed.

(* ===================================================================== *)
(** * Further properties *)
(* ===================================================================== *)

(** ** The parser on arbitrary text *)

Lemma is_blank_all_space (s : jsstring) :
  is_blank s = true <-> Forall (fun c => is_whitespace c = true) s.
Proof.
  unfold is_blank. rewrite eqb_true. split.
  - intros H. destruct (trim_split s) as (ws1 & ws2 & Hs & H1 & H2).
    rewrite H in Hs. simpl in Hs. rewrite Hs. apply Forall_app. split; assumption.
  - intros H. unfold trim.
    rewrite <- (app_nil_r s), trimStart_app_ws by exact H. reflexivity.
Qed.

Lemma parsed_of_cases (line : jsstring) :
  (is_speaker_line line = true /\
   exists r, parsed_of line = [r] /\ parsed_from line r)
  \/ (is_speaker_line line = false /\ parsed_of line = []).
Proof.
  unfold is_speaker_line.
  destruct (App.speakerRegex line) as [[g1 g2]|] eqn:E.
  - left. split; [reflexivity|]. apply parsed_of_matching. congruence.
  - right. unfold parsed_of. rewrite E. split; reflexivity.
Qed.

Lemma flat_map_parsed_speaker_lines (lines : list jsstring) :
  Forall2 parsed_from (List.filter is_speaker_line lines)
    (flat_map parsed_of lines).
Proof.
  induction lines as [|l ls IH]; simpl; [constructor|].
  destruct (parsed_of_cases l) as [(Hm & r & Hr & Hfrom)|(Hm & Hr)];
    rewrite Hm, Hr; simpl; [constructor|]; assumption.
Qed.

Lemma parseScriptText_speaker_lines (raw : jsstring) :
  Forall2 parsed_from (speaker_lines raw) (App.parseScriptText raw).
Proof. rewrite parseScriptText_flat_map. apply flat_map_parsed_speaker_lines. Qed.

(** X1. On every raw text, parseScriptText returns exactly one script line
    for each non-blank line that matches the speaker pattern, in input
    order, and nothing for any other line; so a text with no matching line
    parses to the empty script, and the script is never longer than the
    number of non-blank lines. *)
Theorem parseScriptText_keeps_speaker_lines (raw : jsstring) :
  Forall2 parsed_from (speaker_lines raw) (App.parseScriptText raw) /\
  (speaker_lines raw = [] -> App.parseScriptText raw = []) /\
  length (App.parseScriptText raw) <= length (nonblank_lines raw).
Proof.
  pose proof (parseScriptText_speaker_lines raw) as H.
  split; [exact H|]. split.
  - intros E. rewrite E in H. inversion H. reflexivity.
  - rewrite <- (Forall2_length _ _ _ H). unfold speaker_lines.
    apply List.filter_length_le.
Qed.

Lemma parseScriptText_keeps_speaker_lines_witness :
  speaker_lines (js "Intro" ++ [10%N] ++ js "example: x") = [] /\
  App.parseScriptText (js "Intro" ++ [10%N] ++ js "example: x") = [].
Proof.
  assert (H : speaker_lines (js "Intro" ++ [10%N] ++ js "example: x") = [])
    by (vm_compute; reflexivity).
  split; [exact H|].
  exact (proj1 (proj2 (parseScriptText_keeps_speaker_lines _)) H).
Defined.

(** ** The three copies of the parser *)

Lemma legacy_parse_step_same (parsedLines : list ScriptLine) (line : jsstring) :
  LegacyApp.parse_step parsedLines line = App.parse_step parsedLines line.
Proof.
  unfold LegacyApp.parse_step, App.parse_step.
  destruct (App.speakerRegex line) as [[m1 m2]|]; [reflexivity|].
  destruct (_ && _); reflexivity.
Qed.


Lemma fold_left_ext_step {A B} (f g : A -> B -> A) (l : list B) :
  (forall a b, f a b = g a b) -> forall a, fold_left f l a = fold_left g l a.
Proof.
  intros H. induction l as [|b l IH]; intros a; simpl; [reflexivity|].
  rewrite H. apply IH.
Qed.

Lemma parse_into_same (raw : jsstring) :
  Bundle.parse_into [] raw = App.parseScriptText raw.
Proof.
  unfold Bundle.parse_into, App.parseScriptText.
  apply fold_left_ext_step. intros a b. reflexivity.
Qed.

Lemma legacy_parse_same (raw : jsstring) :
  LegacyApp.parseScriptText raw = App.parseScriptText raw.
Proof.
  unfold LegacyApp.parseScriptText, App.parseScriptText.
  apply fold_left_ext_step, legacy_parse_step_same.
Qed.

(** X2. The parser of the bundle-era App (whose extra branch for preamble
    lines holds no statement) and the parse loop inside
    generateContentBundle return, on every text, the script that
    parseScriptText of src/App.tsx returns. *)
Theorem parsers_agree (raw : jsstring) :
  LegacyApp.parseScriptText raw = App.parseScriptText raw /\
  Bundle.parse_into [] raw = App.parseScriptText raw.
Proof.
  split.
  - apply legacy_parse_same.
  - apply parse_into_same.
Qed.

(** ** Speaker labels *)

Lemma canonicalize_cases (c v : N) :
  Regex.canonicalize c = v ->
  c = v \/ (c = (v + 32)%N /\ (65 <= v <= 90)%N).
Proof.
  unfold Regex.canonicalize.
  destruct ((97 <=? c)%N && (c <=? 122)%N) eqn:E.
  - apply andb_true_iff in E as [E1 E2].
    apply N.leb_le in E1. apply N.leb_le in E2. intros <-. right. lia.
  - intros <-. left. reflexivity.
Qed.

Lemma class_alnum_cases (c : N) :
  Regex.class_alnum c = true ->
  (48 <= c <= 57)%N \/ (65 <= c <= 90)%N \/ (97 <= c <= 122)%N.
Proof.
  unfold Regex.class_alnum.
  rewrite !orb_true_iff, !andb_true_iff, !N.leb_le. tauto.
Qed.

Lemma lower_unit_cases (c : N) :
  (lower_unit c = c /\ ~ (65 <= c <= 90)%N)
  \/ (lower_unit c = (c + 32)%N /\ (65 <= c <= 90)%N).
Proof.
  unfold lower_unit.
  destruct ((65 <=? c)%N && (c <=? 90)%N) eqn:E.
  - apply andb_true_iff in E as [E1 E2].
    apply N.leb_le in E1. apply N.leb_le in E2. right. split; [reflexivity | lia].
  - left. split; [reflexivity|]. intros [H1 H2].
    apply N.leb_le in H1. apply N.leb_le in H2. rewrite H1, H2 in E. discriminate.
Qed.

(** The units of a label prefix that matches "Person " with the [i] flag. *)
Lemma person_prefix (p : jsstring) :
  Forall2 (fun a c => Regex.same_ci a c = true) (js "Person ") p ->
  toLowerCase p = js "person " /\
  Forall (fun c => c <> 10%N /\ c <> 58%N) p /\
  exists c p', p = c :: p' /\ is_whitespace c = false.
Proof.
  change (js "Person ") with [80; 101; 114; 115; 111; 110; 32]%N.
  intros H.
  repeat match goal with
         | H : Forall2 _ (_ :: _) _ |- _ =>
             let a := fresh "a" in let c := fresh "c" in
             let Hc := fresh "Hc" in
             inversion H as [|a c ? ? Hc ?]; subst; clear H
         | H : Forall2 _ [] _ |- _ => inversion H; subst; clear H
         end.
  repeat match goal with
         | H : Regex.same_ci _ _ = true |- _ =>
             apply N.eqb_eq, canonicalize_cases in H;
             change (Regex.canonicalize 80) with 80%N in H;
             change (Regex.canonicalize 101) with 69%N in H;
             change (Regex.canonicalize 114) with 82%N in H;
             change (Regex.canonicalize 115) with 83%N in H;
             change (Regex.canonicalize 111) with 79%N in H;
             change (Regex.canonicalize 110) with 78%N in H;
             change (Regex.canonicalize 32) with 32%N in H
         end.
  split; [|split].
  - repeat match goal with
           | H : _ \/ _ |- _ =>
               let Hr := fresh "Hr" in
               destruct H as [H|[H Hr]]; [|try lia]; subst; try clear Hr
           end; reflexivity.
  - repeat constructor; lia.
  - eexists _, _. split; [reflexivity|].
    match goal with
    | H : _ = 80%N \/ _ |- _ => destruct H as [H|[H _]]; subst; reflexivity
    end.
Qed.

Lemma alnum_units (id : jsstring) :
  Forall (fun c => Regex.class_alnum c = true) id ->
  Forall (fun c => c <> 10%N /\ c <> 58%N) id /\
  Forall (fun c => c <> 32%N /\ c <> 58%N) (toLowerCase id).
Proof.
  intros H. split.
  - eapply Forall_impl; [exact H|]. intros c Hc.
    apply class_alnum_cases in Hc. lia.
  - unfold toLowerCase. apply List.Forall_map.
    eapply Forall_impl; [exact H|]. intros c Hc. simpl.
    apply class_alnum_cases in Hc.
    destruct (lower_unit_cases c) as [[-> _]|[-> _]]; lia.
Qed.

(** ** What the parser produces *)

Lemma parsed_from_ParsedLine (line : jsstring) (r : ScriptLine) :
  parsed_from line r -> ParsedLine r.
Proof.
  intros (g2 & rest & _ & Hspk & Htext & _ & _ & Htrim).
  destruct Hspk as (p & id & ws & Hg1 & _ & Hp & Hid & Halnum & _ & _ & Hdots).
  split; [exists p, id; auto|]. split; [exact Htrim|].
  destruct (trim_split g2) as (ws1 & ws2 & Hg2 & _ & _).
  rewrite Hg2 in Hdots. apply Forall_app in Hdots as [_ Hdots].
  apply Forall_app in Hdots as [Hdots _]. rewrite Htext. exact Hdots.
Qed.

Lemma parseScriptText_ParsedLine (raw : jsstring) :
  Forall ParsedLine (App.parseScriptText raw).
Proof.
  pose proof (parseScriptText_speaker_lines raw) as H.
  induction H as [|line r ls rs Hr _ IH]; constructor; [|exact IH].
  eapply parsed_from_ParsedLine, Hr.
Qed.

(** ** Downloading a script and parsing it again *)






(** ** The voice of a parsed line *)

Lemma includes_units (s p : jsstring) (c : N) :
  includes s p = true -> In c p -> In c s.
Proof.
  intros H Hc. apply includes_true in H as (a & b & ->).
  apply in_or_app. right. apply in_or_app. left. exact Hc.
Qed.

Lemma includes_person_a (lid : jsstring) :
  Forall (fun c => c <> 32%N /\ c <> 58%N) lid ->
  includes (js "person " ++ lid) (js "person a")
  = match lid with c :: _ => (c =? 97)%N | [] => false end.
Proof.
  intros Hlid.
  assert (Hno : includes lid (js "person a") = false).
  { destruct (includes lid (js "person a")) eqn:E; [|reflexivity].
    apply (includes_units _ _ 32%N) in E; [|vm_compute; tauto].
    rewrite List.Forall_forall in Hlid. apply Hlid in E. lia. }
  change (js "person ") with [112; 101; 114; 115; 111; 110; 32]%N.
  change (js "person a") with [112; 101; 114; 115; 111; 110; 32; 97]%N in *.
  cbn [app includes startsWith N.eqb Pos.eqb andb orb].
  rewrite Hno. destruct lid as [|c lid']; cbn [startsWith];
    rewrite ?andb_true_r, ?orb_false_r; reflexivity.
Qed.

(** X4. For every line that parseScriptText produces, the two synthesizers
    select the first voice exactly when the lower-cased speaker label
    contains "person a", which is exactly when the identifier after
    "Person " begins with the letter a in either case; a parsed label never
    contains " a:". *)
Theorem parsed_line_voice (raw : jsstring) (r : ScriptLine) :
  In r (App.parseScriptText raw) ->
  includes (toLowerCase (speaker r)) (js " a:") = false /\
  (Part000.voiceId r = Part000.VOICE_ID_PERSON_A <->
   includes (toLowerCase (speaker r)) (js "person a") = true) /\
  (exists p c id,
     speaker r = p ++ c :: id /\ toLowerCase p = js "person " /\
     (Part000.voiceId r = Part000.VOICE_ID_PERSON_A <-> lower_unit c = 97%N)) /\
  AiServiceTs.voiceId r = Part000.voiceId r.
Proof.
  intros Hin.
  pose proof (parseScriptText_ParsedLine raw) as Hall.
  rewrite List.Forall_forall in Hall. apply Hall in Hin.
  destruct Hin as ((p & id & Hsp & Hp & Hid & Halnum) & _ & _).
  destruct (person_prefix p Hp) as (Hlow & Hpunits & _).
  destruct (alnum_units id Halnum) as (_ & Hlid).
  assert (Hcolon : includes (toLowerCase (speaker r)) (js " a:") = false).
  { destruct (includes _ (js " a:")) eqn:E; [|reflexivity].
    apply (includes_units _ _ 58%N) in E; [|vm_compute; tauto].
    rewrite Hsp in E. unfold toLowerCase in E. rewrite List.map_app in E.
    apply in_app_or in E as [E|E].
    - fold (toLowerCase p) in E. rewrite Hlow in E. vm_compute in E.
      repeat (destruct E as [E|E]; [discriminate|]). contradiction.
    - rewrite List.Forall_forall in Hlid. apply Hlid in E. lia. }
  assert (Hab : Part000.VOICE_ID_PERSON_A <> Part000.VOICE_ID_PERSON_B)
    by (vm_compute; discriminate).
  assert (Hvoice : Part000.voiceId r = Part000.VOICE_ID_PERSON_A <->
                   includes (toLowerCase (speaker r)) (js "person a") = true).
  { unfold Part000.voiceId. rewrite Hcolon, orb_false_r.
    destruct (includes (toLowerCase (speaker r)) (js "person a")).
    - split; reflexivity.
    - split; [intros H; symmetry in H; contradiction | discriminate]. }
  split; [exact Hcolon|]. split; [exact Hvoice|]. split.
  - destruct id as [|c id']; [congruence|].
    exists p, c, id'. split; [exact Hsp|]. split; [exact Hlow|].
    rewrite Hvoice, Hsp. unfold toLowerCase at 1. rewrite List.map_app.
    fold (toLowerCase p). rewrite Hlow.
    change (List.map lower_unit (c :: id')) with (toLowerCase (c :: id')).
    rewrite (includes_person_a _ Hlid). simpl. apply N.eqb_eq.
  - reflexivity.
Qed.

Lemma parsed_line_voice_witness :
  In {| speaker := js "person Anna"; text := js "Hi." |}
     (App.parseScriptText (js "person Anna: Hi.")) /\
  Part000.voiceId {| speaker := js "person Anna"; text := js "Hi." |}
  = Part000.VOICE_ID_PERSON_A.
Proof.
  assert (H : In {| speaker := js "person Anna"; text := js "Hi." |}
                (App.parseScriptText (js "person Anna: Hi.")))
    by (vm_compute; left; reflexivity).
  split; [exact H|].
  destruct (parsed_line_voice _ _ H) as (_ & Hv & _).
  apply Hv. vm_compute. reflexivity.
Defined.

(** ** Editing a line *)

Lemma element_at_in_bounds (lines : list ScriptLine) (i : nat) :
  App.element_at lines (Z.of_nat i) = lines !! i.
Proof.
  unfold App.element_at.
  destruct (Z.of_nat i <? 0)%Z eqn:E; [apply Z.ltb_lt in E; lia|].
  rewrite Nat2Z.id. reflexivity.
Qed.

(** X5. An edit at an index within bounds replaces the text of that line
    and nothing else of the script: the list keeps its length, every other
    line stays, the speaker of the edited line stays unless a non-empty new
    speaker is given, and the topic, video url, busy flags, status line and
    error of the state are untouched. *)
Theorem handleUpdateScriptLine_in_bounds
    (st : App.State) (i : nat) (newText : jsstring)
    (newSpeaker : option jsstring) (old : ScriptLine) :
  App.scriptLines st !! i = Some old ->
  let st' := App.handleUpdateScriptLine (Z.of_nat i) newText newSpeaker st in
  let edited :=
    {| speaker := if truthy_opt newSpeaker then default [] newSpeaker
                  else speaker old;
       text := newText |} in
  App.scriptLines st' !! i = Some edited /\
  length (App.scriptLines st') = length (App.scriptLines st) /\
  (forall j, j <> i -> App.scriptLines st' !! j = App.scriptLines st !! j) /\
  App.topic st' = App.topic st /\
  App.videoUrl st' = App.videoUrl st /\
  App.isLoadingScript st' = App.isLoadingScript st /\
  App.isGeneratingAudio st' = App.isGeneratingAudio st /\
  App.currentStatusMessage st' = App.currentStatusMessage st /\
  App.error st' = App.error st.
Proof.
  intros Hold st' edited.
  assert (Hlines : App.scriptLines st' = <[i := edited]> (App.scriptLines st)).
  { subst st' edited. simpl. unfold App.update_lines.
    rewrite element_at_in_bounds, Hold, Nat2Z.id. f_equal. f_equal.
    destruct newSpeaker as [s|]; simpl; [destruct (truthy s)|]; reflexivity. }
  rewrite Hlines. split; [|split; [|split]].
  - apply list_lookup_insert_eq. eapply lookup_lt_Some, Hold.
  - apply length_insert.
  - intros j Hj. apply list_lookup_insert_ne. congruence.
  - repeat split.
Qed.

Lemma handleUpdateScriptLine_in_bounds_witness :
  App.scriptLines sample_state !! 1
  = Some {| speaker := js "Person B"; text := js "Right." |} /\
  App.scriptLines (App.handleUpdateScriptLine 1 (js "Wrong.") None sample_state) !! 1
  = Some {| speaker := js "Person B"; text := js "Wrong." |}.
Proof.
  assert (H : App.scriptLines sample_state !! 1
              = Some {| speaker := js "Person B"; text := js "Right." |})
    by reflexivity.
  split; [exact H|].
  exact (proj1 (handleUpdateScriptLine_in_bounds sample_state 1 (js "Wrong.")
                  None _ H)).
Defined.

(** ** The editing handlers of ScriptOutput *)

(** X6. With editing enabled, clicking a line that is not being edited,
    typing a new text and pressing Enter without Shift hands exactly that
    line index and text to handleUpdateScriptLine: the line gets the new
    text and keeps its speaker, the audio url is cleared, the script is
    dirty, and no line is being edited any more. *)
Theorem scriptOutput_edit_and_enter
    (st : App.State) (s : ScriptOutput.EditState) (i : nat)
    (line : ScriptLine) (newText : jsstring) :
  App.scriptLines st !! i = Some line ->
  ScriptOutput.editingIndex s <> Some i ->
  let s1 := ScriptOutput.onClick false i line s in
  let s2 := ScriptOutput.handleTextareaChange newText s1 in
  let result :=
    ScriptOutput.handleTextareaKeyDown App.handleUpdateScriptLine
      (ScriptOutput.Enter false) s2 st in
  ScriptOutput.editText s1 = text line /\
  fst result = not_editing /\
  App.scriptLines (snd result)
  = <[i := {| speaker := speaker line; text := newText |}]> (App.scriptLines st) /\
  App.audioUrl (snd result) = [] /\
  App.isScriptDirty (snd result) = true.
Proof.
  intros Hline Hs s1 s2 result.
  assert (Hs1 : s1 = {| ScriptOutput.editingIndex := Some i;
                        ScriptOutput.editText := text line |}).
  { subst s1. unfold ScriptOutput.onClick.
    rewrite bool_decide_eq_false_2 by exact Hs. reflexivity. }
  subst result s2. rewrite Hs1. simpl.
  split; [reflexivity|]. split; [reflexivity|]. split; [|split; reflexivity].
  unfold App.update_lines. rewrite element_at_in_bounds, Hline, Nat2Z.id.
  reflexivity.
Qed.

Lemma scriptOutput_edit_and_enter_witness :
  App.scriptLines sample_state !! 0
  = Some {| speaker := js "Person A"; text := js "Gravity pulls." |} /\
  ScriptOutput.editingIndex not_editing <> Some 0 /\
  App.scriptLines
    (snd (ScriptOutput.handleTextareaKeyDown App.handleUpdateScriptLine
            (ScriptOutput.Enter false)
            (ScriptOutput.handleTextareaChange (js "Mass attracts.")
               (ScriptOutput.onClick false 0
                  {| speaker := js "Person A"; text := js "Gravity pulls." |}
                  not_editing))
            sample_state))
  = [ {| speaker := js "Person A"; text := js "Mass attracts." |};
      {| speaker := js "Person B"; text := js "Right." |} ].
Proof.
  assert (H1 : App.scriptLines sample_state !! 0
               = Some {| speaker := js "Person A"; text := js "Gravity pulls." |})
    by reflexivity.
  assert (H2 : ScriptOutput.editingIndex not_editing <> Some 0) by discriminate.
  split; [exact H1|]. split; [exact H2|].
  exact (proj1 (proj2 (proj2
           (scriptOutput_edit_and_enter sample_state not_editing 0 _
              (js "Mass attracts.") H1 H2)))).
Defined.

(** X7. Leaving the text area (blur) right after clicking a line, with
    nothing typed, still calls handleUpdateScriptLine: the script lines are
    what they were, but the audio url is cleared and the script is marked
    dirty.  Escape instead drops the edit and leaves the App state
    untouched, as do Shift+Enter and any other key; and with editing
    disabled a click does not start an edit. *)
Theorem scriptOutput_blur_and_escape
    (st : App.State) (s : ScriptOutput.EditState) (i : nat) (line : ScriptLine) :
  App.scriptLines st !! i = Some line ->
  ScriptOutput.editingIndex s <> Some i ->
  let s1 := ScriptOutput.onClick false i line s in
  let blurred := ScriptOutput.onBlur App.handleUpdateScriptLine s1 st in
  (fst blurred = not_editing /\
   App.scriptLines (snd blurred) = App.scriptLines st /\
   App.audioUrl (snd blurred) = [] /\
   App.isScriptDirty (snd blurred) = true) /\
  ScriptOutput.handleTextareaKeyDown App.handleUpdateScriptLine
    ScriptOutput.Escape s1 st = (not_editing, st) /\
  ScriptOutput.handleTextareaKeyDown App.handleUpdateScriptLine
    (ScriptOutput.Enter true) s1 st = (s1, st) /\
  ScriptOutput.handleTextareaKeyDown App.handleUpdateScriptLine
    ScriptOutput.OtherKey s1 st = (s1, st) /\
  ScriptOutput.onClick true i line s = s.
Proof.
  intros Hline Hs s1 blurred.
  assert (Hs1 : s1 = {| ScriptOutput.editingIndex := Some i;
                        ScriptOutput.editText := text line |}).
  { subst s1. unfold ScriptOutput.onClick.
    rewrite bool_decide_eq_false_2 by exact Hs. reflexivity. }
  split; [|split; [|split; [|split]]]; try reflexivity.
  - subst blurred. rewrite Hs1. simpl.
    split; [reflexivity|]. split; [|split; reflexivity].
    unfold App.update_lines. rewrite element_at_in_bounds, Hline, Nat2Z.id.
    apply list_insert_id. rewrite Hline. destruct line; reflexivity.
  - unfold ScriptOutput.onClick.
    rewrite bool_decide_eq_false_2 by exact Hs. reflexivity.
Qed.

Lemma scriptOutput_blur_and_escape_witness :
  App.scriptLines sample_state !! 1
  = Some {| speaker := js "Person B"; text := js "Right." |} /\
  ScriptOutput.editingIndex not_editing <> Some 1 /\
  App.audioUrl sample_state <> [] /\
  App.audioUrl
    (snd (ScriptOutput.onBlur App.handleUpdateScriptLine
            (ScriptOutput.onClick false 1
               {| speaker := js "Person B"; text := js "Right." |} not_editing)
            sample_state)) = [].
Proof.
  assert (H1 : App.scriptLines sample_state !! 1
               = Some {| speaker := js "Person B"; text := js "Right." |})
    by reflexivity.
  assert (H2 : ScriptOutput.editingIndex not_editing <> Some 1) by discriminate.
  split; [exact H1|]. split; [exact H2|]. split; [discriminate|].
  destruct (scriptOutput_blur_and_escape sample_state not_editing 1 _ H1 H2)
    as ((_ & _ & Haudio & _) & _).
  exact Haudio.
Defined.

(** ** What the synthesizer of part_000 never does *)

Section SynthesizerFrame.
Context (env : ProcessEnv) (net : Platform).

Lemma generateAudioSegment_frame (t v : jsstring) (w : World) :
  objectURLs (snd (Part000.generateAudioSegment env net t v w)) = objectURLs w /\
  genLog (snd (Part000.generateAudioSegment env net t v w)) = genLog w.
Proof.
  unfold Part000.generateAudioSegment, bind, fetch.
  destruct (fetch_tts net (ttsLog w) (Part000.requestFor env t v))
    as [e|status [e|body]|[e|bytes]]; split; reflexivity.
Qed.

Lemma segments_loop_frame (rest : list ScriptLine) :
  forall (n i : nat) (segs : list ArrayBuffer) (w : World),
  objectURLs (snd (Part000.segments_loop env net n i rest segs w)) = objectURLs w /\
  genLog (snd (Part000.segments_loop env net n i rest segs w)) = genLog w.
Proof.
  induction rest as [|line rest IH]; intros n i segs w; [split; reflexivity|].
  destruct (is_blank (text line)) eqn:Hb.
  - rewrite segments_loop_blank by exact Hb. apply IH.
  - simpl. rewrite falsy_or_blank, Hb. simpl. unfold bind at 1 3.
    pose proof (generateAudioSegment_frame (text line) (Part000.voiceId line) w)
      as Hseg.
    destruct (Part000.generateAudioSegment env net (text line)
                (Part000.voiceId line) w) as [[ab|e] w1]; simpl in Hseg;
      [|exact Hseg].
    unfold bind at 1 2.
    destruct (i <? n - 1); unfold sleep, ret;
      match goal with
      | |- context [Part000.segments_loop env net n (S i) rest ?s ?w2] =>
          destruct (IH n (S i) s w2) as (H1 & H2)
      end; rewrite H1, H2; exact Hseg.
Qed.

Lemma copy_loop_frame (srcs : list ArrayBuffer) :
  forall (result : Uint8Array) (offset : nat) (w : World),
  objectURLs (snd (Part000.copy_loop result srcs offset w)) = objectURLs w /\
  genLog (snd (Part000.copy_loop result srcs offset w)) = genLog w.
Proof.
  induction srcs as [|s rest IH]; intros result offset w; simpl;
    [split; reflexivity|].
  unfold bind at 1 3. unfold Uint8Array_set.
  destruct (_ <? _); [split; reflexivity|].
  unfold bind at 1 2. unfold byteLength.
  match goal with
  | |- context [Part000.copy_loop result rest ?o ?w2] =>
      destruct (IH result o w2) as (H1 & H2)
  end. rewrite H1, H2. split; reflexivity.
Qed.

Lemma concatenateAudioBuffers_frame (buffers : list ArrayBuffer) (w : World) :
  objectURLs (snd (Part000.concatenateAudioBuffers buffers w)) = objectURLs w /\
  genLog (snd (Part000.concatenateAudioBuffers buffers w)) = genLog w.
Proof.
  unfold Part000.concatenateAudioBuffers, bind, new_Uint8Array,
    new_ArrayBuffer, bind, alloc, ret.
  rewrite !sum_byteLength_spec.
  match goal with
  | |- context [Part000.copy_loop ?r buffers 0 ?w1] =>
      pose proof (copy_loop_frame buffers r 0 w1) as H;
      destruct (Part000.copy_loop r buffers 0 w1) as [[[]|e] w2]
  end; exact H.
Qed.

(** X8. generateAudioWithElevenLabs of part_000 never throws: on every
    environment, network and list of lines it returns a result.  The result
    url is the url of one newly registered audio/mpeg blob, or else it is
    empty or the placeholder url and no blob is registered; the run never
    calls the text-generation API. *)
Theorem generateAudio_never_throws (lines : list ScriptLine) (w : World) :
  exists res w',
    Part000.generateAudioWithElevenLabs env net lines w = (Returned res, w') /\
    genLog w' = genLog w /\
    ((url res = object_url (length (objectURLs w)) /\
      exists bytes,
        objectURLs w'
        = objectURLs w ++ [{| blob_bytes := bytes; blob_type := js "audio/mpeg" |}])
     \/ ((url res = [] \/ url res = Part000.PLACEHOLDER_AUDIO_URL) /\
         objectURLs w' = objectURLs w)).
Proof.
  destruct (truthy_opt (ELEVENLABS_API_KEY env)) eqn:Hkey.
  2:{ rewrite generateAudio_no_key by exact Hkey.
      eexists _, _. split; [reflexivity|]. split; [reflexivity|].
      right. split; [right|]; reflexivity. }
  destruct (decide (lines = [])) as [->|Hne].
  { rewrite generateAudio_no_lines by exact Hkey.
    eexists _, _. split; [reflexivity|]. split; [reflexivity|].
    right. split; [left|]; reflexivity. }
  rewrite generateAudio_some_lines by assumption.
  unfold try_catch, Part000.generateAudio_try. unfold bind at 1.
  destruct (segments_loop_frame lines (length lines) 0 [] w) as (Hb & Hg).
  destruct (Part000.segments_loop env net (length lines) 0 lines [] w)
    as [[segs|e] w1]; simpl in Hb, Hg.
  2:{ unfold Part000.generateAudio_catch, ret.
      eexists _, _. split; [reflexivity|]. split; [exact Hg|].
      right. split; [right; reflexivity | exact Hb]. }
  destruct (length segs =? 0).
  { unfold ret. eexists _, _. split; [reflexivity|]. split; [exact Hg|].
    right. split; [left; reflexivity | exact Hb]. }
  unfold bind at 1.
  destruct (concatenateAudioBuffers_frame segs w1) as (Hb2 & Hg2).
  destruct (Part000.concatenateAudioBuffers segs w1) as [[b|e] w2];
    simpl in Hb2, Hg2.
  2:{ unfold Part000.generateAudio_catch, ret.
      eexists _, _. split; [reflexivity|]. split; [congruence|].
      right. split; [right; reflexivity | congruence]. }
  unfold bind, new_Blob, createObjectURL, ret.
  eexists _, _. split; [reflexivity|]. simpl. split; [congruence|].
  left. rewrite Hb2, Hb. split; [reflexivity|]. eexists. reflexivity.
Qed.

(** X9. With the synthesis credential present, a list in which blank and
    non-blank texts are mixed, and a network that answers the requests for
    the non-blank lines with the buffers [bufs], the run returns a new
    object url whose blob holds those buffers end to end, leaves the
    per-line buffers and their concatenation in the store, and reports in
    its status message the number of non-blank lines, not the number of
    lines. *)
Theorem generateAudio_counts_spoken_lines
    (lines : list ScriptLine) (bufs : list (list byte)) (w : World) :
  truthy_opt (ELEVENLABS_API_KEY env) = true ->
  spoken lines <> [] ->
  answered net (ttsLog w) (List.map (request_of env) (spoken lines)) bufs ->
  exists w',
    Part000.generateAudioWithElevenLabs env net lines w
    = (Returned
         {| url := object_url (length (objectURLs w));
            statusMessage :=
              js "Audio successfully generated with "
              ++ of_nat (length (spoken lines))
              ++ js " segments using multiple voices." |},
       w') /\
    objectURLs w'
    = objectURLs w ++ [{| blob_bytes := concat bufs; blob_type := js "audio/mpeg" |}] /\
    arrayBuffers w' = arrayBuffers w ++ bufs ++ [concat bufs] /\
    ttsLog w' = ttsLog w ++ List.map (request_of env) (spoken lines).
Proof.
  intros Hkey Hsp Hans.
  pose proof (answered_length net _ _ _ Hans) as Hlen.
  rewrite length_map in Hlen.
  assert (Hne : bufs <> []).
  { intros ->. destruct (spoken lines); [congruence | discriminate]. }
  assert (Hlines : lines <> []) by (intros ->; apply Hsp; reflexivity).
  destruct (generateAudio_try_answered env net lines w bufs Hans Hne) as (ts & Htry).
  rewrite generateAudio_some_lines by assumption.
  unfold try_catch. rewrite Htry, Hlen.
  eexists. split; [reflexivity|]. repeat split.
Qed.

End SynthesizerFrame.

Lemma generateAudio_counts_spoken_lines_witness :
  truthy_opt (ELEVENLABS_API_KEY sample_env) = true /\
  spoken lines_with_blanks <> [] /\
  answered steady_net (ttsLog empty_world)
    (List.map (request_of sample_env) (spoken lines_with_blanks))
    [[x01; x02]; [x03]] /\
  exists w',
    Part000.generateAudioWithElevenLabs sample_env steady_net lines_with_blanks
      empty_world
    = (Returned
         {| url := js "blob:0";
            statusMessage :=
              js "Audio successfully generated with 2 segments using multiple voices." |},
       w') /\
    objectURLs w'
    = [{| blob_bytes := [x01; x02; x03]; blob_type := js "audio/mpeg" |}].
Proof.
  assert (H1 : truthy_opt (ELEVENLABS_API_KEY sample_env) = true) by reflexivity.
  assert (H2 : spoken lines_with_blanks <> []) by (vm_compute; discriminate).
  assert (H3 : answered steady_net (ttsLog empty_world)
                 (List.map (request_of sample_env) (spoken lines_with_blanks))
                 [[x01; x02]; [x03]]) by (repeat split).
  split; [exact H1|]. split; [exact H2|]. split; [exact H3|].
  destruct (generateAudio_counts_spoken_lines sample_env steady_net
              lines_with_blanks _ empty_world H1 H2 H3)
    as (w' & Hrun & Hblob & _).
  exists w'. split; [exact Hrun | exact Hblob].
Defined.

(** ** generateScript: one attempt, and the errors it throws *)

(** X10. With the generation credential present, generateScript makes
    exactly one generation request and changes nothing else in the world,
    whatever the API does (no retry).  A rejection with an Error is rethrown
    as an Error with the same message, except that a message containing
    "API key not valid" is replaced by the fixed invalid-key message; a
    rejection with any other value becomes the fixed unknown-error message;
    an undefined or blank response text becomes the empty-response error. *)
Theorem generateScript_single_attempt
    (env : ProcessEnv) (net : Platform) (topic : jsstring) (w : World) :
  truthy_opt (API_KEY env) = true ->
  snd (Part000.generateScript env net topic w)
  = with_genLog w (genLog w ++ [script_request topic]) /\
  fst (Part000.generateScript env net topic w)
  = match generateContent net (genLog w) (script_request topic) with
    | GenRejected (ErrorObj m) =>
        Threw (ErrorObj
                 (if includes m (js "API key not valid")
                  then js "The provided Gemini API Key is not valid. Please check your configuration."
                  else m))
    | GenRejected NonError =>
        Threw (ErrorObj (js "An unknown error occurred during script generation."))
    | GenResponse None => Threw (ErrorObj EMPTY_RESPONSE)
    | GenResponse (Some t) =>
        if is_blank t then Threw (ErrorObj EMPTY_RESPONSE) else Returned t
    end.
Proof.
  intros Hkey. rewrite (generateScript_run env net topic w Hkey).
  destruct (generateContent net (genLog w) (script_request topic))
    as [[m|]|[t|]].
  - unfold Part000.generateScript_catch, throw, message_or.
    destruct (includes m (js "API key not valid")); split; reflexivity.
  - split; reflexivity.
  - destruct (is_blank t); split; reflexivity.
  - split; reflexivity.
Qed.

Lemma generateScript_single_attempt_witness :
  truthy_opt (API_KEY sample_env) = true /\
  Part000.generateScript sample_env flaky_net (js "gravity") empty_world
  = (Threw (ErrorObj (js "An unknown error occurred during script generation.")),
     with_genLog empty_world [script_request (js "gravity")]).
Proof.
  assert (H : truthy_opt (API_KEY sample_env) = true) by reflexivity.
  split; [exact H|].
  destruct (generateScript_single_attempt sample_env flaky_net (js "gravity")
              empty_world H) as (Hw & Ho).
  destruct (Part000.generateScript sample_env flaky_net (js "gravity") empty_world)
    as [o w']. simpl in Hw, Ho. rewrite Hw, Ho. reflexivity.
Defined.

Lemma generateScript_outcome (env : ProcessEnv) (net : Platform)
    (topic : jsstring) (w : World) :
  (exists t w', Part000.generateScript env net topic w = (Returned t, w') /\
                is_blank t = false)
  \/ (exists m w', Part000.generateScript env net topic w = (Threw (ErrorObj m), w')).
Proof.
  destruct (truthy_opt (API_KEY env)) eqn:Hkey.
  - rewrite (generateScript_run env net topic w Hkey).
    destruct (generateContent net (genLog w) (script_request topic))
      as [e|[t|]].
    + right. destruct (generateScript_catch_throws e
               (with_genLog w (genLog w ++ [script_request topic]))) as (m & ->).
      eauto.
    + destruct (is_blank t) eqn:Hb; [right|left]; eauto.
    + right. eauto.
  - right. unfold Part000.generateScript, Part000.GEMINI_API_KEY.
    rewrite Hkey. unfold throw. simpl. eauto.
Qed.

(** ** The handlers of src/App.tsx *)

Lemma getPlaceholderVideoUrl_value :
  VideoUrl.getPlaceholderVideoUrl = js "https://www.youtube.com/shorts/iYipwtIa1Po".
Proof. vm_compute. reflexivity. Qed.

Lemma blank_topic_test (currentTopic : jsstring) :
  negb (truthy (trim currentTopic)) = is_blank currentTopic.
Proof. unfold truthy, is_blank. apply negb_involutive. Qed.

Lemma is_blank_false_length (t : jsstring) :
  is_blank t = false -> (0 <? length (trim t)) = true.
Proof.
  unfold is_blank. intros H. apply eqb_false in H.
  destruct (trim t); [congruence | reflexivity].
Qed.

(** X11. handleTopicSubmit on every topic and state.  A blank topic only
    sets the error "Topic cannot be empty." and calls nothing.  Otherwise
    the handler always ends with the loading flag off and the audio url and
    audio status cleared, and: when generateScript throws, the script is
    empty, the error is the thrown message and no video url is set; when it
    returns a text with speaker lines, the script is the parsed text, the
    script is dirty and there is no error; when it returns a text with no
    speaker line, the script is the single line "Raw Output" holding the
    whole text, with the parse-failure error, and the script is not dirty.
    A returned text is never blank, so the branch that reports an empty
    script is never taken. *)
Theorem handleTopicSubmit_outcomes
    (env : ProcessEnv) (net : Platform) (currentTopic : jsstring)
    (st : App.State) (w : World) :
  (is_blank currentTopic = true ->
   AppHandlers.handleTopicSubmit env net currentTopic st w
   = (Returned (AppHandlers.setError (Some (js "Topic cannot be empty.")) st), w)) /\
  (is_blank currentTopic = false ->
   exists st',
     AppHandlers.handleTopicSubmit env net currentTopic st w
     = (Returned st', snd (Part000.generateScript env net currentTopic w)) /\
     App.isLoadingScript st' = false /\
     App.audioUrl st' = [] /\
     App.audioStatusMessage st' = [] /\
     App.isGeneratingAudio st' = App.isGeneratingAudio st /\
     App.topic st' = App.topic st /\
     match fst (Part000.generateScript env net currentTopic w) with
     | Threw e =>
         App.scriptLines st' = [] /\
         App.isScriptDirty st' = false /\
         App.videoUrl st' = [] /\
         App.currentStatusMessage st' = [] /\
         App.error st'
         = Some (AppHandlers.message_or_else e
                   (js "An unknown error occurred during script generation."))
     | Returned scriptText =>
         App.videoUrl st' = js "https://www.youtube.com/shorts/iYipwtIa1Po" /\
         ((App.parseScriptText scriptText <> [] /\
           App.scriptLines st' = App.parseScriptText scriptText /\
           App.isScriptDirty st' = true /\
           App.error st' = None)
          \/ (App.parseScriptText scriptText = [] /\
              App.scriptLines st'
              = [{| speaker := js "Raw Output"; text := scriptText |}] /\
              App.isScriptDirty st' = false /\
              App.error st'
              = Some (js "Failed to parse the script into 'Person A/B:' lines. Displaying raw text. Audio generation may not work as expected.")))
     end).
Proof.
  unfold AppHandlers.handleTopicSubmit. rewrite blank_topic_test. split.
  - intros ->. reflexivity.
  - intros ->. unfold try_catch, bind, ret.
    destruct (generateScript_outcome env net currentTopic w)
      as [(t & w' & Hrun & Hb)|(m & w' & Hrun)]; rewrite Hrun; simpl fst; simpl snd.
    + eexists. split; [reflexivity|].
      unfold AppHandlers.topic_after_script.
      rewrite (is_blank_false_length t Hb), getPlaceholderVideoUrl_value.
      destruct (App.parseScriptText t) as [|r rs] eqn:Hparse.
      * cbn. repeat split; try discriminate.
        right. repeat split.
      * cbn. repeat split; try discriminate.
        left. repeat split. discriminate.
    + eexists. split; [reflexivity|].
      cbn. repeat split.
Qed.

Lemma handleTopicSubmit_outcomes_witness :
  is_blank (js "   ") = true /\
  AppHandlers.handleTopicSubmit sample_env steady_net (js "   ") sample_state
    empty_world
  = (Returned (AppHandlers.setError (Some (js "Topic cannot be empty."))
                 sample_state), empty_world) /\
  is_blank (js "gravity") = false /\
  exists st' w',
    AppHandlers.handleTopicSubmit keyless_env steady_net (js "gravity")
      sample_state empty_world = (Returned st', w') /\
    App.scriptLines st' = [] /\ App.isLoadingScript st' = false.
Proof.
  assert (H1 : is_blank (js "   ") = true) by reflexivity.
  assert (H2 : is_blank (js "gravity") = false) by reflexivity.
  split; [exact H1|]. split.
  - exact (proj1 (handleTopicSubmit_outcomes sample_env steady_net (js "   ")
                    sample_state empty_world) H1).
  - split; [exact H2|].
    destruct (proj2 (handleTopicSubmit_outcomes keyless_env steady_net
                       (js "gravity") sample_state empty_world) H2)
      as (st' & Hrun & Hload & _ & _ & _ & _ & Hcase).
    eexists st', _. split; [exact Hrun|]. split; [|exact Hload].
    exact (proj1 Hcase).
Defined.

Lemma generateAudio_returns (env : ProcessEnv) (net : Platform)
    (lines : list ScriptLine) (w : World) :
  exists res w',
    Part000.generateAudioWithElevenLabs env net lines w = (Returned res, w').
Proof.
  unfold Part000.generateAudioWithElevenLabs.
  destruct (negb _); [unfold ret; eauto|].
  destruct (_ =? _); [unfold ret; eauto|].
  unfold try_catch.
  destruct (Part000.generateAudio_try env net lines w) as [[res|e] w1];
    [eauto|]. unfold Part000.generateAudio_catch, ret. eauto.
Qed.

(** X12. handleFinalizeAndGenerateAudio on every state.  With an empty
    script it only sets the error "Cannot generate audio for an empty
    script." and requests nothing.  Otherwise it runs the synthesizer on the
    script lines of the state and always ends with the generating flag off,
    the dirty flag off, no error, and the url and status message of the
    synthesizer's result as the audio url and audio status; the status line
    says "complete" exactly when that url is not empty.  Its catch block is
    never entered, and the script lines are not changed. *)
Theorem handleFinalizeAndGenerateAudio_outcomes
    (env : ProcessEnv) (net : Platform) (st : App.State) (w : World) :
  (App.scriptLines st = [] ->
   AppHandlers.handleFinalizeAndGenerateAudio env net st w
   = (Returned
        (AppHandlers.setError
           (Some (js "Cannot generate audio for an empty script.")) st), w)) /\
  (App.scriptLines st <> [] ->
   exists res w' st',
     Part000.generateAudioWithElevenLabs env net (App.scriptLines st) w
     = (Returned res, w') /\
     AppHandlers.handleFinalizeAndGenerateAudio env net st w = (Returned st', w') /\
     App.audioUrl st' = url res /\
     App.audioStatusMessage st' = statusMessage res /\
     App.isScriptDirty st' = false /\
     App.isGeneratingAudio st' = false /\
     App.error st' = None /\
     App.scriptLines st' = App.scriptLines st /\
     App.currentStatusMessage st'
     = (if truthy (url res) then js "Audio generation complete!"
        else js "Audio generation finished with issues.")).
Proof.
  unfold AppHandlers.handleFinalizeAndGenerateAudio. split.
  - intros ->. reflexivity.
  - intros Hne.
    replace (length (App.scriptLines st) =? 0) with false
      by (destruct (App.scriptLines st); [congruence | reflexivity]).
    destruct (generateAudio_returns env net (App.scriptLines st) w)
      as (res & w' & Hrun).
    exists res, w'. unfold try_catch, bind, ret. rewrite Hrun.
    eexists. split; [reflexivity|]. split; [reflexivity|].
    cbn. repeat split.
Qed.

Lemma handleFinalizeAndGenerateAudio_outcomes_witness :
  App.scriptLines sample_state <> [] /\
  exists st' w',
    AppHandlers.handleFinalizeAndGenerateAudio sample_env steady_net sample_state
      empty_world = (Returned st', w') /\
    App.isScriptDirty st' = false /\ App.error st' = None.
Proof.
  assert (H : App.scriptLines sample_state <> []) by discriminate.
  split; [exact H|].
  destruct (proj2 (handleFinalizeAndGenerateAudio_outcomes sample_env steady_net
                     sample_state empty_world) H)
    as (res & w' & st' & _ & Hrun & _ & _ & Hd & _ & He & _).
  exists st', w'. split; [exact Hrun|]. split; [exact Hd | exact He].
Defined.

(** X13. Editing and then generating.  After an in-bounds edit that gives a
    line a non-blank text, generating audio on the edited state (credential
    present, network answering) sends one request for each non-blank line of
    the edited script, the edited text among them, and ends with a fresh
    object url as audio url, the dirty flag off and no error: the audio that
    the edit cleared is replaced by audio of the edited script. *)
Theorem edit_then_generate
    (env : ProcessEnv) (net : Platform) (st : App.State) (i : nat)
    (old : ScriptLine) (newText : jsstring) (bufs : list (list byte))
    (w : World) :
  truthy_opt (ELEVENLABS_API_KEY env) = true ->
  App.scriptLines st !! i = Some old ->
  is_blank newText = false ->
  let edited := {| speaker := speaker old; text := newText |} in
  let lines := <[i := edited]> (App.scriptLines st) in
  answered net (ttsLog w) (List.map (request_of env) (spoken lines)) bufs ->
  exists st' w',
    AppHandlers.handleFinalizeAndGenerateAudio env net
      (App.handleUpdateScriptLine (Z.of_nat i) newText None st) w
    = (Returned st', w') /\
    App.scriptLines st' = lines /\
    App.audioUrl st' = object_url (length (objectURLs w)) /\
    App.isScriptDirty st' = false /\
    App.error st' = None /\
    ttsLog w' = ttsLog w ++ List.map (request_of env) (spoken lines) /\
    In (request_of env edited) (ttsLog w') /\
    objectURLs w'
    = objectURLs w ++ [{| blob_bytes := concat bufs; blob_type := js "audio/mpeg" |}].
Proof.
  intros Hkey Hold Hnb edited lines Hans.
  assert (Hlt : i < length (App.scriptLines st)) by (eapply lookup_lt_Some, Hold).
  assert (Hin : In edited (spoken lines)).
  { unfold spoken. apply List.filter_In. split.
    - apply list_elem_of_In. apply list_elem_of_lookup. exists i.
      subst lines. apply list_lookup_insert_eq, Hlt.
    - simpl. rewrite Hnb. reflexivity. }
  assert (Hne : bufs <> []).
  { intros ->. apply answered_length in Hans. rewrite length_map in Hans.
    destruct (spoken lines); [contradiction | discriminate]. }
  assert (Hlines : App.scriptLines
                     (App.handleUpdateScriptLine (Z.of_nat i) newText None st)
                   = lines).
  { simpl. unfold App.update_lines.
    rewrite element_at_in_bounds, Hold, Nat2Z.id. reflexivity. }
  assert (Hnonempty : lines <> []).
  { intros E. rewrite E in Hin. contradiction. }
  destruct (generateAudio_try_answered env net lines w bufs Hans Hne) as (ts & Htry).
  unfold AppHandlers.handleFinalizeAndGenerateAudio. rewrite Hlines.
  replace (length lines =? 0) with false
    by (destruct lines; [congruence | reflexivity]).
  unfold try_catch, bind, ret.
  rewrite (generateAudio_some_lines env net lines w Hkey Hnonempty).
  unfold try_catch. rewrite Htry.
  eexists _, _. split; [reflexivity|]. cbn.
  split; [exact Hlines|]. split; [reflexivity|]. split; [reflexivity|].
  split; [reflexivity|]. split; [reflexivity|]. split; [|reflexivity].
  apply in_or_app. right. apply List.in_map, Hin.
Qed.

Lemma edit_then_generate_witness :
  truthy_opt (ELEVENLABS_API_KEY sample_env) = true /\
  App.scriptLines sample_state !! 1
  = Some {| speaker := js "Person B"; text := js "Right." |} /\
  is_blank (js "Indeed.") = false /\
  exists st' w',
    AppHandlers.handleFinalizeAndGenerateAudio sample_env steady_net
      (App.handleUpdateScriptLine 1 (js "Indeed.") None sample_state) empty_world
    = (Returned st', w') /\
    App.audioUrl st' = js "blob:0" /\
    List.map req_text (ttsLog w') = [js "Gravity pulls."; js "Indeed."].
Proof.
  assert (H1 : truthy_opt (ELEVENLABS_API_KEY sample_env) = true) by reflexivity.
  assert (H2 : App.scriptLines sample_state !! 1
               = Some {| speaker := js "Person B"; text := js "Right." |})
    by reflexivity.
  assert (H3 : is_blank (js "Indeed.") = false) by reflexivity.
  split; [exact H1|]. split; [exact H2|]. split; [exact H3|].
  destruct (edit_then_generate sample_env steady_net sample_state 1 _
              (js "Indeed.") [[x01; x02]; [x03]] empty_world H1 H2 H3)
    as (st' & w' & Hrun & _ & Hurl & _ & _ & Hlog & _).
  - repeat split.
  - exists st', w'. split; [exact Hrun|]. split; [exact Hurl|].
    rewrite Hlog. reflexivity.
Defined.

(** ** The bundle-era synthesizer of src/services/aiService.ts *)

Section BundleSynthesizer.
Context (env : ProcessEnv) (net : Platform).

Lemma bundle_generateAudioSegment_ok (t v : jsstring) (pt nt : option jsstring)
    (w : World) (bytes : list byte) :
  fetch_tts net (ttsLog w) (AiServiceTs.requestFor env t v pt nt)
  = HttpOk (inr bytes) ->
  AiServiceTs.generateAudioSegment env net t v pt nt w
  = (Returned (length (arrayBuffers w)),
     with_arrayBuffers
       (with_ttsLog w (ttsLog w ++ [AiServiceTs.requestFor env t v pt nt]))
       (arrayBuffers w ++ [bytes])).
Proof.
  intros H. unfold AiServiceTs.generateAudioSegment, bind, fetch. rewrite H.
  reflexivity.
Qed.

Lemma bundle_generateAudioSegment_frame (t v : jsstring)
    (pt nt : option jsstring) (w : World) :
  ttsLog (snd (AiServiceTs.generateAudioSegment env net t v pt nt w))
  = ttsLog w ++ [AiServiceTs.requestFor env t v pt nt] /\
  objectURLs (snd (AiServiceTs.generateAudioSegment env net t v pt nt w))
  = objectURLs w /\
  genLog (snd (AiServiceTs.generateAudioSegment env net t v pt nt w)) = genLog w.
Proof.
  unfold AiServiceTs.generateAudioSegment, bind, fetch.
  destruct (fetch_tts net (ttsLog w) (AiServiceTs.requestFor env t v pt nt))
    as [e|status [e|body]|[e|bytes]]; repeat split.
Qed.

Lemma bundle_segments_loop_answered (all rest : list ScriptLine) :
  forall (i : nat) (segs : list ArrayBuffer) (w : World)
         (bufs : list (list byte)),
  answered net (ttsLog w) (bundle_requests_from env all i rest) bufs ->
  exists ts,
    AiServiceTs.segments_loop env net all i rest segs w
    = (Returned (segs ++ seq (length (arrayBuffers w)) (length bufs)),
       with_timers
         (with_ttsLog
            (with_arrayBuffers w (arrayBuffers w ++ bufs))
            (ttsLog w ++ bundle_requests_from env all i rest))
         (timers w ++ ts)).
Proof.
  induction rest as [|line rest IH]; intros i segs w bufs Hans.
  - destruct bufs; [|contradiction]. exists []. simpl. unfold ret.
    rewrite !app_nil_r. destruct w; reflexivity.
  - simpl in Hans |- *. destruct bufs as [|b bufs]; [contradiction|].
    destruct Hans as [Hb1 Hans]. unfold bind at 1.
    unfold bundle_request_of in Hb1.
    rewrite (bundle_generateAudioSegment_ok _ _ _ _ _ _ Hb1).
    fold (bundle_request_of env all i line).
    set (w1 := with_arrayBuffers _ _).
    destruct (i <? length all - 1).
    + unfold bind at 1. unfold sleep.
      destruct (IH (S i) (segs ++ [length (arrayBuffers w)])
                  (with_timers w1 (timers w1 ++ [100%N])) bufs Hans)
        as (ts & Heq).
      exists (100%N :: ts). etrans; [exact Heq|]. subst w1. simpl.
      rewrite length_app, Nat.add_1_r. simpl.
      rewrite <- !app_assoc. simpl. reflexivity.
    + unfold bind at 1. unfold ret.
      destruct (IH (S i) (segs ++ [length (arrayBuffers w)]) w1 bufs Hans)
        as (ts & Heq).
      exists ts. etrans; [exact Heq|]. subst w1. simpl.
      rewrite length_app, Nat.add_1_r. simpl.
      rewrite <- !app_assoc. simpl. reflexivity.
Qed.

Lemma bundle_requests_from_length (all rest : list ScriptLine) : forall i,
  length (bundle_requests_from env all i rest) = length rest.
Proof.
  induction rest as [|line rest IH]; intros i; simpl; [reflexivity|].
  rewrite IH. reflexivity.
Qed.

Lemma bundle_requests_from_text (all rest : list ScriptLine) : forall i,
  List.map req_text (bundle_requests_from env all i rest) = List.map text rest.
Proof.
  induction rest as [|line rest IH]; intros i; simpl; [reflexivity|].
  rewrite IH. reflexivity.
Qed.

Lemma bundle_generateAudio_some_lines (lines : list ScriptLine) (w : World) :
  truthy_opt (ELEVENLABS_API_KEY env) = true -> lines <> [] ->
  AiServiceTs.generateAudioWithElevenLabs env net lines w
  = try_catch (AiServiceTs.generateAudio_try env net lines)
      AiServiceTs.generateAudio_catch w.
Proof.
  intros Hkey Hne. unfold AiServiceTs.generateAudioWithElevenLabs. rewrite Hkey.
  destruct lines; [congruence | reflexivity].
Qed.

Lemma bundle_generateAudio_answered
    (lines : list ScriptLine) (bufs : list (list byte)) (w : World) :
  truthy_opt (ELEVENLABS_API_KEY env) = true ->
  lines <> [] ->
  answered net (ttsLog w) (bundle_requests env lines) bufs ->
  exists w',
    AiServiceTs.generateAudioWithElevenLabs env net lines w
    = (Returned
         {| url := object_url (length (objectURLs w));
            statusMessage :=
              js "Audio successfully generated with " ++ of_nat (length lines)
              ++ js " segments using multiple voices." |},
       w') /\
    ttsLog w' = ttsLog w ++ bundle_requests env lines /\
    length (bundle_requests env lines) = length lines /\
    List.map req_text (bundle_requests env lines) = List.map text lines /\
    objectURLs w'
    = objectURLs w ++ [{| blob_bytes := concat bufs; blob_type := js "audio/mpeg" |}] /\
    arrayBuffers w' = arrayBuffers w ++ bufs ++ [concat bufs].
Proof.
  intros Hkey Hne Hans.
  destruct (bundle_segments_loop_answered lines lines 0 [] w bufs Hans)
    as (ts & Hloop).
  fold (bundle_requests env lines) in Hloop.
  rewrite bundle_generateAudio_some_lines by assumption.
  unfold try_catch, AiServiceTs.generateAudio_try. unfold bind at 1.
  rewrite Hloop, !app_nil_l.
  set (w1 := with_timers _ _).
  assert (Hw1 : arrayBuffers w1 = arrayBuffers w ++ bufs) by reflexivity.
  unfold bind at 1.
  rewrite concatenateAudioBuffers_same, concatenateAudioBuffers_spec.
  2:{ rewrite Hw1. apply Forall_seq. intros j Hj. rewrite length_app. lia. }
  rewrite (map_bytes_of_fresh w1 bufs (arrayBuffers w) Hw1).
  unfold bind at 1. unfold new_Blob.
  rewrite (bytes_of_last _ (arrayBuffers w1) (concat bufs)) by reflexivity.
  unfold bind, createObjectURL, ret.
  eexists. split; [reflexivity|]. cbn [snd ttsLog objectURLs arrayBuffers
    with_objectURLs with_arrayBuffers with_timers with_ttsLog w1].
  split; [reflexivity|]. split; [apply bundle_requests_from_length|].
  split; [apply bundle_requests_from_text|].
  split; [reflexivity|]. rewrite <- app_assoc. reflexivity.
Qed.

(** X14. The bundle-era synthesizer skips nothing.  With the credential
    present, a non-empty list and a network that answers, it sends one
    request for every line, blank texts included, in order, each carrying
    the texts before and after it as context, and returns a new object url
    whose blob holds the buffers end to end; its status message reports the
    number of lines. *)
Theorem bundle_generateAudio_all_lines
    (lines : list ScriptLine) (bufs : list (list byte)) (w : World) :
  truthy_opt (ELEVENLABS_API_KEY env) = true ->
  lines <> [] ->
  answered net (ttsLog w) (bundle_requests env lines) bufs ->
  exists w',
    AiServiceTs.generateAudioWithElevenLabs env net lines w
    = (Returned
         {| url := object_url (length (objectURLs w));
            statusMessage :=
              js "Audio successfully generated with " ++ of_nat (length lines)
              ++ js " segments using multiple voices." |},
       w') /\
    ttsLog w' = ttsLog w ++ bundle_requests env lines /\
    length (bundle_requests env lines) = length lines /\
    List.map req_text (bundle_requests env lines) = List.map text lines /\
    objectURLs w'
    = objectURLs w ++ [{| blob_bytes := concat bufs; blob_type := js "audio/mpeg" |}] /\
    arrayBuffers w' = arrayBuffers w ++ bufs ++ [concat bufs].
Proof.
  intros Hkey Hne Hans.
  destruct (bundle_generateAudio_answered lines bufs w Hkey Hne Hans)
    as (w' & Hrun & Hlog & Hlen & Htext & Hblob & Hstore).
  exists w'. split; [exact Hrun|]. split; [exact Hlog|]. split; [exact Hlen|].
  split; [exact Htext|]. split; [exact Hblob | exact Hstore].
Qed.

End BundleSynthesizer.

Lemma bundle_generateAudio_all_lines_witness :
  truthy_opt (ELEVENLABS_API_KEY sample_env) = true /\
  blank_lines <> [] /\
  answered steady_net (ttsLog empty_world) (bundle_requests sample_env blank_lines)
    [[x01; x02]; [x03]] /\
  exists w',
    AiServiceTs.generateAudioWithElevenLabs sample_env steady_net blank_lines
      empty_world
    = (Returned
         {| url := js "blob:0";
            statusMessage :=
              js "Audio successfully generated with 2 segments using multiple voices." |},
       w') /\
    List.map req_text (ttsLog w') = [js "  "; []].
Proof.
  assert (H1 : truthy_opt (ELEVENLABS_API_KEY sample_env) = true) by reflexivity.
  assert (H2 : blank_lines <> []) by discriminate.
  assert (H3 : answered steady_net (ttsLog empty_world)
                 (bundle_requests sample_env blank_lines) [[x01; x02]; [x03]])
    by (repeat split).
  split; [exact H1|]. split; [exact H2|]. split; [exact H3|].
  destruct (bundle_generateAudio_all_lines sample_env steady_net blank_lines _
              empty_world H1 H2 H3) as (w' & Hrun & Hlog & _ & Htext & _).
  exists w'. split; [exact Hrun|]. rewrite Hlog. exact Htext.
Defined.

Section BundleFrame.
Context (env : ProcessEnv) (net : Platform).

Lemma bundle_segments_loop_frame (all rest : list ScriptLine) :
  forall (i : nat) (segs : list ArrayBuffer) (w : World),
  objectURLs (snd (AiServiceTs.segments_loop env net all i rest segs w))
  = objectURLs w /\
  genLog (snd (AiServiceTs.segments_loop env net all i rest segs w)) = genLog w /\
  exists k,
    ttsLog (snd (AiServiceTs.segments_loop env net all i rest segs w))
    = ttsLog w ++ take k (bundle_requests_from env all i rest).
Proof.
  induction rest as [|line rest IH]; intros i segs w.
  - simpl. split; [reflexivity|]. split; [reflexivity|]. exists 0.
    symmetry. apply app_nil_r.
  - cbn [AiServiceTs.segments_loop bundle_requests_from].
    pose proof (bundle_generateAudioSegment_frame env net (text line)
                  (AiServiceTs.voiceId line) (AiServiceTs.previousText all i)
                  (AiServiceTs.nextText all i) w) as (Hl & Hu & Hg).
    fold (bundle_request_of env all i line) in Hl.
    unfold bind at 1 3 5.
    destruct (AiServiceTs.generateAudioSegment env net (text line)
                (AiServiceTs.voiceId line) (AiServiceTs.previousText all i)
                (AiServiceTs.nextText all i) w) as [[ab|e] w1];
      cbn [snd] in Hl, Hu, Hg |- *.
    + unfold bind.
      destruct (i <? length all - 1); unfold sleep, ret;
        match goal with
        | |- context [AiServiceTs.segments_loop env net all (S i) rest ?s ?w2] =>
            destruct (IH (S i) s w2) as (H1 & H2 & k & H3)
        end;
        (split; [rewrite H1; exact Hu|]; split; [rewrite H2; exact Hg|];
         exists (S k); rewrite H3; cbn [take ttsLog with_timers];
         rewrite Hl, <- app_assoc; reflexivity).
    + split; [exact Hu|]. split; [exact Hg|]. exists 1.
      cbn [take]. rewrite take_0. exact Hl.
Qed.

Lemma bundle_generateAudio_run (lines : list ScriptLine) (w : World) :
  exists res w',
    AiServiceTs.generateAudioWithElevenLabs env net lines w = (Returned res, w') /\
    genLog w' = genLog w /\
    exists k, ttsLog w' = ttsLog w ++ take k (bundle_requests env lines).
Proof.
  unfold AiServiceTs.generateAudioWithElevenLabs.
  destruct (negb _).
  { unfold ret. eexists _, _. split; [reflexivity|]. split; [reflexivity|].
    exists 0. symmetry. apply app_nil_r. }
  destruct (_ =? _).
  { unfold ret. eexists _, _. split; [reflexivity|]. split; [reflexivity|].
    exists 0. symmetry. apply app_nil_r. }
  unfold try_catch, AiServiceTs.generateAudio_try. unfold bind at 1.
  destruct (bundle_segments_loop_frame lines lines 0 [] w) as (Hu & Hg & k & Hl).
  fold (bundle_requests env lines) in Hl.
  destruct (AiServiceTs.segments_loop env net lines 0 lines [] w)
    as [[segs|e] w1]; cbn [snd] in Hu, Hg, Hl.
  2:{ unfold AiServiceTs.generateAudio_catch, ret.
      eexists _, _. split; [reflexivity|]. split; [exact Hg|]. eauto. }
  unfold bind at 1. rewrite concatenateAudioBuffers_same.
  destruct (concatenateAudioBuffers_frame segs w1) as (_ & Hg2).
  pose proof (concatenateAudioBuffers_log segs w1) as Hl2.
  destruct (Part000.concatenateAudioBuffers segs w1) as [[b|e] w2];
    cbn [snd] in Hg2, Hl2.
  2:{ unfold AiServiceTs.generateAudio_catch, ret.
      eexists _, _. split; [reflexivity|]. split; [congruence|].
      exists k. congruence. }
  unfold bind, new_Blob, createObjectURL, ret.
  eexists _, _. split; [reflexivity|].
  cbn [genLog ttsLog with_objectURLs]. split; [congruence|].
  exists k. congruence.
Qed.

(** X15. generateAudioWithElevenLabs of src/services/aiService.ts never
    throws either: whatever the network answers it returns a result, it never
    calls the text-generation API, and the requests it makes are a prefix of
    the per-line requests of the list, in order. *)
Theorem bundle_generateAudio_never_throws (lines : list ScriptLine) (w : World) :
  exists res w',
    AiServiceTs.generateAudioWithElevenLabs env net lines w = (Returned res, w') /\
    genLog w' = genLog w /\
    exists k, ttsLog w' = ttsLog w ++ take k (bundle_requests env lines).
Proof.
  destruct (bundle_generateAudio_run lines w) as (res & w' & Hrun & Hgen & k & Hlog).
  exists res, w'. split; [exact Hrun|]. split; [exact Hgen|].
  exists k. exact Hlog.
Qed.

End BundleFrame.

(** ** generateContentBundle *)

Lemma bundle_videoUrls :
  Bundle.videoUrl_try = SHORTS_URL /\ Bundle.videoUrl_catch = SHORTS_URL.
Proof. split; vm_compute; reflexivity. Qed.

Section BundleRuns.
Context (env : ProcessEnv) (net : Platform).

Lemma bundle_catch_no_lines (scriptText : option jsstring) (error : Thrown)
    (w : World) :
  Bundle.bundle_catch env net scriptText [] error w
  = (Returned
       {| scriptText :=
            if truthy_opt scriptText then default [] scriptText
            else js "Script generation failed: "
                 ++ mapped_message
                      (js "An unknown error occurred during content generation.")
                      error;
          audioDetails :=
            {| url := [];
               statusMessage :=
                 js "Audio generation skipped or failed: "
                 ++ (if truthy_opt scriptText then js "Script parsing issue."
                     else mapped_message
                            (js "An unknown error occurred during content generation.")
                            error) |};
          bundle_videoUrl := SHORTS_URL |},
     w).
Proof.
  unfold Bundle.bundle_catch, bind, ret. cbn [length Nat.ltb Nat.leb].
  rewrite (proj2 bundle_videoUrls).
  destruct error as [m|]; reflexivity.
Qed.

Lemma bundle_try_rest_run (t : jsstring) (w : World) :
  exists res w',
    AiServiceTs.generateAudioWithElevenLabs env net (App.parseScriptText t) w
    = (Returned res, w') /\
    Bundle.bundle_try_rest env net t w
    = (Returned {| scriptText := t; audioDetails := res;
                   bundle_videoUrl := SHORTS_URL |}, w').
Proof.
  destruct (bundle_generateAudio_run env net (App.parseScriptText t) w)
    as (res & w' & Hrun & _).
  exists res, w'. split; [exact Hrun|].
  unfold Bundle.bundle_try_rest, try_catch, bind, ret.
  rewrite parse_into_same, Hrun, (proj1 bundle_videoUrls). reflexivity.
Qed.

Lemma bundle_blank_test (o : option jsstring) :
  negb (truthy_opt o) || eqb (trim (default [] o)) []
  = match o with Some t => is_blank t | None => true end.
Proof. destruct o as [t|]; [apply falsy_or_blank | reflexivity]. Qed.

Lemma generateContentBundle_key_cases
    (topic : jsstring) (w : World) :
  (truthy_opt (API_KEY env) = false ->
   Bundle.generateContentBundle env net topic w
   = (Threw (ErrorObj KEY_NOT_CONFIGURED), w)) /\
  (truthy_opt (API_KEY env) = true ->
   exists bundle w',
     Bundle.generateContentBundle env net topic w = (Returned bundle, w') /\
     genLog w' = genLog w ++ [Bundle.request topic] /\
     scriptText bundle <> [] /\
     bundle_videoUrl bundle = SHORTS_URL).
Proof.
  unfold Bundle.generateContentBundle, Bundle.GEMINI_API_KEY. split.
  - intros ->. reflexivity.
  - intros ->. cbn [negb]. unfold bind at 1. unfold models_generateContent.
    set (w1 := with_genLog w (genLog w ++ [Bundle.request topic])).
    destruct (generateContent net (genLog w) (Bundle.request topic)) as [e|st].
    + rewrite bundle_catch_no_lines. eexists _, _. split; [reflexivity|].
      split; [reflexivity|]. split; [|reflexivity]. discriminate.
    + rewrite bundle_blank_test. destruct st as [t|].
      * destruct (is_blank t) eqn:Hb.
        -- rewrite bundle_catch_no_lines. eexists _, _. split; [reflexivity|].
           split; [reflexivity|]. split; [|reflexivity]. cbn.
           unfold truthy. destruct (eqb t []) eqn:E; cbn; [discriminate|].
           apply eqb_false in E. exact E.
        -- change (default [] (Some t)) with t.
           destruct (bundle_try_rest_run t w1) as (res & w' & Hgen & Hrun).
           destruct (bundle_generateAudio_run env net (App.parseScriptText t) w1)
             as (res' & w'' & Hgen' & Hg & _).
           rewrite Hgen in Hgen'. injection Hgen' as <- <-. rewrite Hrun.
           eexists _, _. split; [reflexivity|]. split; [exact Hg|].
           split; [|reflexivity]. cbn. intros ->. discriminate.
      * rewrite bundle_catch_no_lines. eexists _, _. split; [reflexivity|].
        split; [reflexivity|]. split; [|reflexivity]. discriminate.
Qed.

(** X16. generateContentBundle throws in one case only: when the generation
    credential is missing, and then before any call.  With the credential
    present it always returns a bundle, whatever the generation API and the
    network do: it makes exactly one generation request, the script text of
    the bundle is never empty, and the video url is the shorts url of the
    placeholder video. *)
Theorem generateContentBundle_throws_only_without_key
    (topic : jsstring) (w : World) :
  (truthy_opt (API_KEY env) = false ->
   Bundle.generateContentBundle env net topic w
   = (Threw (ErrorObj KEY_NOT_CONFIGURED), w)) /\
  (truthy_opt (API_KEY env) = true ->
   exists bundle w',
     Bundle.generateContentBundle env net topic w = (Returned bundle, w') /\
     genLog w' = genLog w ++ [Bundle.request topic] /\
     scriptText bundle <> [] /\
     bundle_videoUrl bundle = SHORTS_URL).
Proof.
  destruct (generateContentBundle_key_cases topic w) as (Hmissing & Hpresent).
  split; [exact Hmissing|]. intros Hkey.
  destruct (Hpresent Hkey) as (bundle & w' & Hrun & Hlog & Htext & Hvideo).
  exists bundle, w'. split; [exact Hrun|]. split; [exact Hlog|].
  split; [exact Htext | exact Hvideo].
Qed.

(** X17. When the generation API answers a text that is not blank,
    generateContentBundle returns that text unchanged as the script text,
    and the audio of the bundle is the result of the synthesizer on exactly
    the lines that parseScriptText of the App extracts from that text. *)
Theorem generateContentBundle_success (topic t : jsstring) (w : World) :
  truthy_opt (API_KEY env) = true ->
  generateContent net (genLog w) (Bundle.request topic) = GenResponse (Some t) ->
  is_blank t = false ->
  exists res w',
    AiServiceTs.generateAudioWithElevenLabs env net (App.parseScriptText t)
      (with_genLog w (genLog w ++ [Bundle.request topic]))
    = (Returned res, w') /\
    Bundle.generateContentBundle env net topic w
    = (Returned {| scriptText := t; audioDetails := res;
                   bundle_videoUrl := SHORTS_URL |}, w').
Proof.
  intros Hkey Hgen Hb.
  unfold Bundle.generateContentBundle, Bundle.GEMINI_API_KEY. rewrite Hkey.
  cbn [negb]. unfold bind at 1. unfold models_generateContent. rewrite Hgen.
  rewrite bundle_blank_test, Hb. change (default [] (Some t)) with t.
  apply bundle_try_rest_run.
Qed.

Lemma generateContentBundle_no_script_run (topic : jsstring) (w : World) :
  truthy_opt (API_KEY env) = true ->
  let w1 := with_genLog w (genLog w ++ [Bundle.request topic]) in
  let failed message :=
    (Returned
       {| scriptText := js "Script generation failed: " ++ message;
          audioDetails :=
            {| url := [];
               statusMessage := js "Audio generation skipped or failed: " ++ message |};
          bundle_videoUrl := SHORTS_URL |}, w1) in
  match generateContent net (genLog w) (Bundle.request topic) with
  | GenRejected e =>
      Bundle.generateContentBundle env net topic w
      = failed (mapped_message
                  (js "An unknown error occurred during content generation.") e)
  | GenResponse None =>
      Bundle.generateContentBundle env net topic w = failed EMPTY_RESPONSE
  | GenResponse (Some t) =>
      is_blank t = true ->
      Bundle.generateContentBundle env net topic w
      = if truthy t then
          (Returned
             {| scriptText := t;
                audioDetails :=
                  {| url := [];
                     statusMessage :=
                       js "Audio generation skipped or failed: Script parsing issue." |};
                bundle_videoUrl := SHORTS_URL |}, w1)
        else failed EMPTY_RESPONSE
  end.
Proof.
  intros Hkey w1 failed.
  destruct (generateContent net (genLog w) (Bundle.request topic))
    as [e|[t|]] eqn:Hgen; [|intros Hb|];
    unfold Bundle.generateContentBundle, Bundle.GEMINI_API_KEY;
    rewrite Hkey; cbn [negb]; unfold bind at 1; unfold models_generateContent;
    rewrite Hgen; fold w1.
  - rewrite bundle_catch_no_lines. reflexivity.
  - rewrite (bundle_blank_test (Some t)), Hb, bundle_catch_no_lines.
    change (default [] (Some t)) with t. cbn [truthy_opt].
    destruct (truthy t); reflexivity.
  - rewrite (bundle_blank_test None), bundle_catch_no_lines. reflexivity.
Qed.

(** X18. When the generation API rejects, or answers no text or a blank
    one, generateContentBundle makes no text-to-speech request and returns a
    bundle with an empty audio url.  After a rejection or an undefined or
    empty text the script text is "Script generation failed: " followed by
    the error message, which the audio status repeats; after a
    white-space-only text the script text is that white space and the audio
    status says "Script parsing issue.". *)
Theorem generateContentBundle_no_script (topic : jsstring) (w : World) :
  truthy_opt (API_KEY env) = true ->
  let w1 := with_genLog w (genLog w ++ [Bundle.request topic]) in
  let failed message :=
    (Returned
       {| scriptText := js "Script generation failed: " ++ message;
          audioDetails :=
            {| url := [];
               statusMessage := js "Audio generation skipped or failed: " ++ message |};
          bundle_videoUrl := SHORTS_URL |}, w1) in
  match generateContent net (genLog w) (Bundle.request topic) with
  | GenRejected e =>
      Bundle.generateContentBundle env net topic w
      = failed (mapped_message
                  (js "An unknown error occurred during content generation.") e)
  | GenResponse None =>
      Bundle.generateContentBundle env net topic w = failed EMPTY_RESPONSE
  | GenResponse (Some t) =>
      is_blank t = true ->
      Bundle.generateContentBundle env net topic w
      = if truthy t then
          (Returned
             {| scriptText := t;
                audioDetails :=
                  {| url := [];
                     statusMessage :=
                       js "Audio generation skipped or failed: Script parsing issue." |};
                bundle_videoUrl := SHORTS_URL |}, w1)
        else failed EMPTY_RESPONSE
  end.
Proof.
  intros Hkey.
  pose proof (generateContentBundle_no_script_run topic w Hkey) as Hrun.
  exact Hrun.
Qed.

End BundleRuns.

Lemma generateContentBundle_throws_only_without_key_witness :
  truthy_opt (API_KEY keyless_env) = false /\
  Bundle.generateContentBundle keyless_env steady_net (js "gravity") empty_world
  = (Threw (ErrorObj KEY_NOT_CONFIGURED), empty_world) /\
  truthy_opt (API_KEY sample_env) = true /\
  exists bundle w',
    Bundle.generateContentBundle sample_env flaky_net (js "gravity") empty_world
    = (Returned bundle, w') /\
    bundle_videoUrl bundle = SHORTS_URL.
Proof.
  assert (H1 : truthy_opt (API_KEY keyless_env) = false) by reflexivity.
  assert (H2 : truthy_opt (API_KEY sample_env) = true) by reflexivity.
  split; [exact H1|]. split.
  - exact (proj1 (generateContentBundle_throws_only_without_key keyless_env
                    steady_net (js "gravity") empty_world) H1).
  - split; [exact H2|].
    destruct (proj2 (generateContentBundle_throws_only_without_key sample_env
                       flaky_net (js "gravity") empty_world) H2)
      as (bundle & w' & Hrun & _ & _ & Hv).
    exists bundle, w'. split; [exact Hrun | exact Hv].
Defined.

Lemma generateContentBundle_success_witness :
  truthy_opt (API_KEY sample_env) = true /\
  generateContent script_net (genLog empty_world) (Bundle.request (js "gravity"))
  = GenResponse (Some (js "Person A: Gravity pulls." ++ [10%N]
                       ++ js "Person B: Right.")) /\
  is_blank (js "Person A: Gravity pulls." ++ [10%N] ++ js "Person B: Right.")
  = false /\
  exists res w',
    Bundle.generateContentBundle sample_env script_net (js "gravity") empty_world
    = (Returned
         {| scriptText := js "Person A: Gravity pulls." ++ [10%N]
                          ++ js "Person B: Right.";
            audioDetails := res;
            bundle_videoUrl := SHORTS_URL |}, w').
Proof.
  assert (H1 : truthy_opt (API_KEY sample_env) = true) by reflexivity.
  assert (H2 : generateContent script_net (genLog empty_world)
                 (Bundle.request (js "gravity"))
               = GenResponse (Some (js "Person A: Gravity pulls." ++ [10%N]
                                    ++ js "Person B: Right."))) by reflexivity.
  assert (H3 : is_blank (js "Person A: Gravity pulls." ++ [10%N]
                         ++ js "Person B: Right.") = false) by reflexivity.
  split; [exact H1|]. split; [exact H2|]. split; [exact H3|].
  destruct (generateContentBundle_success sample_env script_net (js "gravity") _
              empty_world H1 H2 H3) as (res & w' & _ & Hrun).
  exists res, w'. exact Hrun.
Defined.

Lemma generateContentBundle_no_script_witness :
  truthy_opt (API_KEY sample_env) = true /\
  Bundle.generateContentBundle sample_env steady_net (js "gravity") empty_world
  = (Returned
       {| scriptText := js "   ";
          audioDetails :=
            {| url := [];
               statusMessage :=
                 js "Audio generation skipped or failed: Script parsing issue." |};
          bundle_videoUrl := SHORTS_URL |},
     with_genLog empty_world [Bundle.request (js "gravity")]).
Proof.
  assert (H : truthy_opt (API_KEY sample_env) = true) by reflexivity.
  split; [exact H|].
  exact (generateContentBundle_no_script sample_env steady_net (js "gravity")
           empty_world H eq_refl).
Defined.

(** ** The bundle-era App: handleGenerateContent *)

Lemma speakerRegex_first_unit (c : N) (rest : jsstring) :
  Regex.same_ci 80 c = false -> App.speakerRegex (c :: rest) = None.
Proof.
  intros H. unfold App.speakerRegex.
  change (js "Person ") with [80; 101; 114; 115; 111; 110; 32]%N.
  cbn [Regex.lit Regex.one]. rewrite H. reflexivity.
Qed.

(** A single line that does not begin with the letter P parses to nothing
    and is not blank when it begins with a unit that is no white space. *)
Lemma parse_single_line (c : N) (rest : jsstring) :
  Regex.same_ci 80 c = false -> is_whitespace c = false ->
  Forall (fun u => u <> 10%N) (c :: rest) ->
  App.parseScriptText (c :: rest) = [] /\ is_blank (c :: rest) = false.
Proof.
  intros Hc Hws Hnl.
  assert (Hb : is_blank (c :: rest) = false).
  { destruct (is_blank (c :: rest)) eqn:E; [|reflexivity].
    apply is_blank_all_space in E. inversion E; subst. congruence. }
  split; [|exact Hb].
  rewrite parseScriptText_flat_map. unfold nonblank_lines.
  rewrite split_newline_line by exact Hnl. cbn [List.filter].
  rewrite Hb. cbn [negb flat_map]. unfold parsed_of.
  rewrite speakerRegex_first_unit by exact Hc. reflexivity.
Qed.

Section LegacyHandler.
Context (env : ProcessEnv) (net : Platform).

(** X19. handleGenerateContent shows what was synthesized.  When both
    credentials are present, the generation API answers a text with at least
    one speaker line and the network answers the text-to-speech requests,
    the script lines put on display are exactly the lines whose texts were
    sent for synthesis, one request per displayed line in order; the audio
    url is the new object url, there is no error, the loading flag is off
    and the video url is the shorts url. *)
Theorem handleGenerateContent_shows_what_was_synthesized
    (currentTopic t : jsstring) (bufs : list (list byte))
    (st : LegacyApp.State) (w : World) :
  is_blank currentTopic = false ->
  truthy_opt (API_KEY env) = true ->
  truthy_opt (ELEVENLABS_API_KEY env) = true ->
  generateContent net (genLog w) (Bundle.request currentTopic)
  = GenResponse (Some t) ->
  App.parseScriptText t <> [] ->
  answered net (ttsLog w) (bundle_requests env (App.parseScriptText t)) bufs ->
  exists st' w',
    LegacyApp.handleGenerateContent env net currentTopic st w = (Returned st', w') /\
    LegacyApp.scriptLines st' = App.parseScriptText t /\
    ttsLog w' = ttsLog w ++ bundle_requests env (LegacyApp.scriptLines st') /\
    List.map req_text (bundle_requests env (LegacyApp.scriptLines st'))
    = List.map text (LegacyApp.scriptLines st') /\
    LegacyApp.audioUrl st' = object_url (length (objectURLs w)) /\
    LegacyApp.error st' = None /\
    LegacyApp.isLoading st' = false /\
    LegacyApp.videoUrl st' = SHORTS_URL.
Proof.
  intros Htopic Hkey Hxi Hgen Hparse Hans.
  assert (Hb : is_blank t = false).
  { destruct (is_blank t) eqn:E; [|reflexivity]. exfalso. apply Hparse.
    rewrite parseScriptText_flat_map. unfold nonblank_lines.
    apply is_blank_all_space in E.
    assert (Hall : Forall (fun l => is_blank l = true) (split_newline t)).
    { clear -E. induction t as [|c t IH]; simpl.
      - repeat constructor.
      - inversion E as [|? ? Hc Ht]; subst. specialize (IH Ht).
        destruct (c =? 10)%N.
        + constructor; [reflexivity | exact IH].
        + destruct (split_newline t) as [|l ls]; inversion IH; subst.
          * repeat constructor. apply is_blank_all_space. repeat constructor.
            exact Hc.
          * constructor; [|assumption]. apply is_blank_all_space.
            constructor; [exact Hc|]. apply is_blank_all_space. assumption. }
    induction Hall as [|l ls Hl _ IH]; [reflexivity|].
    cbn [List.filter]. rewrite Hl. exact IH. }
  set (w1 := with_genLog w (genLog w ++ [Bundle.request currentTopic])).
  destruct (bundle_generateAudio_answered env net (App.parseScriptText t) bufs w1
              Hxi Hparse Hans) as (w' & Haudio & Hlog & _ & Htext & _).
  destruct (bundle_try_rest_run env net t w1) as (res & w'' & Hgen2 & Hrest).
  rewrite Haudio in Hgen2. injection Hgen2 as <- <-.
  assert (Hrun : Bundle.generateContentBundle env net currentTopic w
                 = (Returned
                      {| scriptText := t;
                         audioDetails :=
                           {| url := object_url (length (objectURLs w));
                              statusMessage :=
                                js "Audio successfully generated with "
                                ++ of_nat (length (App.parseScriptText t))
                                ++ js " segments using multiple voices." |};
                         bundle_videoUrl := SHORTS_URL |}, w')).
  { unfold Bundle.generateContentBundle, Bundle.GEMINI_API_KEY. rewrite Hkey.
    cbn [negb]. unfold bind at 1. unfold models_generateContent. rewrite Hgen.
    rewrite (bundle_blank_test (Some t)), Hb.
    change (default [] (Some t)) with t. exact Hrest. }
  unfold LegacyApp.handleGenerateContent. rewrite blank_topic_test, Htopic.
  unfold try_catch, bind, ret. rewrite Hrun.
  eexists _, _. split; [reflexivity|].
  assert (Hshown : LegacyApp.scriptLines
            (LegacyApp.content_finally st
               (LegacyApp.content_after
                  {| scriptText := t;
                     audioDetails :=
                       {| url := object_url (length (objectURLs w));
                          statusMessage :=
                            js "Audio successfully generated with "
                            ++ of_nat (length (App.parseScriptText t))
                            ++ js " segments using multiple voices." |};
                     bundle_videoUrl := SHORTS_URL |}
                  (LegacyApp.content_reset st)))
          = App.parseScriptText t).
  { unfold LegacyApp.content_finally, LegacyApp.content_after.
    cbn [scriptText]. rewrite legacy_parse_same.
    destruct (App.parseScriptText t) as [|r rs]; [congruence|].
    cbn [length Nat.eqb andb Nat.ltb Nat.leb orb].
    destruct (truthy_opt (LegacyApp.error st)
              && truthy (LegacyApp.currentStatusMessage st)); reflexivity. }
  split; [exact Hshown|]. rewrite Hshown.
  split; [exact Hlog|]. split; [exact Htext|].
  unfold LegacyApp.content_finally, LegacyApp.content_after.
  cbn [scriptText]. rewrite legacy_parse_same.
  destruct (App.parseScriptText t) as [|r rs]; [congruence|].
  cbn [length Nat.eqb andb Nat.ltb Nat.leb orb].
  destruct (truthy_opt (LegacyApp.error st)
            && truthy (LegacyApp.currentStatusMessage st)); repeat split.
Qed.

End LegacyHandler.

Lemma handleGenerateContent_shows_what_was_synthesized_witness :
  is_blank (js "gravity") = false /\
  truthy_opt (API_KEY sample_env) = true /\
  truthy_opt (ELEVENLABS_API_KEY sample_env) = true /\
  App.parseScriptText (js "Person A: Gravity pulls." ++ [10%N]
                       ++ js "Person B: Right.") <> [] /\
  exists st' w',
    LegacyApp.handleGenerateContent sample_env script_net (js "gravity")
      legacy_state empty_world = (Returned st', w') /\
    LegacyApp.scriptLines st' = sample_lines /\
    List.map req_text (ttsLog w') = [js "Gravity pulls."; js "Right."] /\
    LegacyApp.audioUrl st' = js "blob:0".
Proof.
  assert (H1 : is_blank (js "gravity") = false) by reflexivity.
  assert (H2 : truthy_opt (API_KEY sample_env) = true) by reflexivity.
  assert (H3 : truthy_opt (ELEVENLABS_API_KEY sample_env) = true) by reflexivity.
  assert (H4 : App.parseScriptText (js "Person A: Gravity pulls." ++ [10%N]
                                    ++ js "Person B: Right.") <> [])
    by (vm_compute; discriminate).
  split; [exact H1|]. split; [exact H2|]. split; [exact H3|]. split; [exact H4|].
  destruct (handleGenerateContent_shows_what_was_synthesized sample_env script_net
              (js "gravity") _ [[x01; x02]; [x03]] legacy_state empty_world
              H1 H2 H3 eq_refl H4)
    as (st' & w' & Hrun & Hlines & Hlog & Htext & Hurl & _).
  - repeat split.
  - exists st', w'. split; [exact Hrun|]. split.
    + rewrite Hlines. vm_compute. reflexivity.
    + split; [|exact Hurl]. rewrite Hlog, Hlines. vm_compute. reflexivity.
Defined.

Section LegacyFailures.
Context (env : ProcessEnv) (net : Platform).

(** X20. A failure of the generation API is shown as a script.  With the
    generation credential present and an API that rejects with an error
    whose message holds no line break, handleGenerateContent sets no error
    that names the failure: the script on display is the single line
    "Raw Output" with the text "Script generation failed: " and the message,
    the error is the parse-failure message, the audio url is empty with the
    "skipped or failed" status, and no text-to-speech request is made. *)
Theorem handleGenerateContent_api_failure
    (currentTopic : jsstring) (e : Thrown) (st : LegacyApp.State) (w : World) :
  is_blank currentTopic = false ->
  truthy_opt (API_KEY env) = true ->
  generateContent net (genLog w) (Bundle.request currentTopic) = GenRejected e ->
  let message :=
    mapped_message (js "An unknown error occurred during content generation.") e in
  Forall (fun u => u <> 10%N) message ->
  exists st' w',
    LegacyApp.handleGenerateContent env net currentTopic st w = (Returned st', w') /\
    LegacyApp.scriptLines st'
    = [{| speaker := js "Raw Output";
          text := js "Script generation failed: " ++ message |}] /\
    LegacyApp.error st'
    = Some (js "Failed to parse the script into speaker lines. Displaying raw text. Audio generation might be affected if it relies on parsed lines.") /\
    LegacyApp.audioUrl st' = [] /\
    LegacyApp.audioStatusMessage st'
    = js "Audio generation skipped or failed: " ++ message /\
    LegacyApp.isLoading st' = false /\
    ttsLog w' = ttsLog w.
Proof.
  intros Htopic Hkey Hgen message Hnl.
  pose proof (generateContentBundle_no_script_run env net currentTopic w Hkey)
    as Hrun.
  cbv zeta in Hrun. rewrite Hgen in Hrun. fold message in Hrun.
  assert (Hline : App.parseScriptText (js "Script generation failed: " ++ message)
                  = [] /\
                  is_blank (js "Script generation failed: " ++ message) = false).
  { change (js "Script generation failed: ")
      with (83%N :: List.tl (js "Script generation failed: ")).
    apply parse_single_line; [reflexivity | reflexivity |].
    constructor; [discriminate|]. apply Forall_app. split; [|exact Hnl].
    vm_compute. repeat constructor; discriminate. }
  destruct Hline as (Hparse & Hblank).
  unfold LegacyApp.handleGenerateContent. rewrite blank_topic_test, Htopic.
  unfold try_catch, bind, ret. rewrite Hrun.
  eexists _, _. split; [reflexivity|].
  unfold LegacyApp.content_finally, LegacyApp.content_after.
  cbn [scriptText audioDetails bundle_videoUrl url statusMessage].
  rewrite legacy_parse_same, Hparse, (is_blank_false_length _ Hblank).
  assert (Htruthy : truthy (js "Script generation failed: " ++ message) = true)
    by reflexivity.
  rewrite Htruthy. cbn [length Nat.eqb andb Nat.ltb Nat.leb orb].
  destruct (truthy_opt (LegacyApp.error st)
            && truthy (LegacyApp.currentStatusMessage st)); repeat split.
Qed.

(** X21. handleGenerateContent always settles.  A blank topic only sets the
    error "Topic cannot be empty." and calls nothing.  Otherwise the handler
    returns with the loading flag off; when the state it was called on had
    both an error and a status message, the status message it leaves is
    empty, whatever the outcome; and with the generation credential missing
    it calls nothing, shows the "not configured" error and leaves the script
    and the audio url empty. *)
Theorem handleGenerateContent_always_settles
    (currentTopic : jsstring) (st : LegacyApp.State) (w : World) :
  (is_blank currentTopic = true ->
   LegacyApp.handleGenerateContent env net currentTopic st w
   = (Returned (LegacyApp.setError (Some (js "Topic cannot be empty.")) st), w)) /\
  (is_blank currentTopic = false ->
   exists st' w',
     LegacyApp.handleGenerateContent env net currentTopic st w = (Returned st', w') /\
     LegacyApp.isLoading st' = false /\
     (truthy_opt (LegacyApp.error st) && truthy (LegacyApp.currentStatusMessage st)
      = true -> LegacyApp.currentStatusMessage st' = []) /\
     (truthy_opt (API_KEY env) = false ->
      w' = w /\
      LegacyApp.error st' = Some KEY_NOT_CONFIGURED /\
      LegacyApp.scriptLines st' = [] /\
      LegacyApp.audioUrl st' = [])).
Proof.
  unfold LegacyApp.handleGenerateContent. rewrite blank_topic_test. split.
  - intros ->. reflexivity.
  - intros ->. unfold try_catch, bind, ret.
    destruct (truthy_opt (API_KEY env)) eqn:Hkey.
    + destruct (generateContentBundle_key_cases env net
                  currentTopic w) as (_ & Hret).
      destruct (Hret Hkey) as (bundle & w' & -> & _).
      eexists _, _. split; [reflexivity|].
      unfold LegacyApp.content_finally.
      destruct (truthy_opt (LegacyApp.error st)
                && truthy (LegacyApp.currentStatusMessage st)).
      * split; [reflexivity|]. split; [reflexivity | discriminate].
      * split; [reflexivity|]. split; discriminate.
    + destruct (generateContentBundle_key_cases env net
                  currentTopic w) as (Hthrow & _).
      rewrite (Hthrow Hkey).
      eexists _, _. split; [reflexivity|].
      unfold LegacyApp.content_finally.
      destruct (truthy_opt (LegacyApp.error st)
                && truthy (LegacyApp.currentStatusMessage st)).
      * split; [reflexivity|]. split; [reflexivity|]. intros _. repeat split.
      * split; [reflexivity|]. split; [discriminate|]. intros _. repeat split.
Qed.

End LegacyFailures.

Lemma handleGenerateContent_api_failure_witness :
  is_blank (js "gravity") = false /\
  truthy_opt (API_KEY sample_env) = true /\
  exists st' w',
    LegacyApp.handleGenerateContent sample_env flaky_net (js "gravity")
      legacy_state empty_world = (Returned st', w') /\
    LegacyApp.scriptLines st'
    = [{| speaker := js "Raw Output";
          text := js "Script generation failed: An unknown error occurred during content generation." |}] /\
    ttsLog w' = [].
Proof.
  assert (H1 : is_blank (js "gravity") = false) by reflexivity.
  assert (H2 : truthy_opt (API_KEY sample_env) = true) by reflexivity.
  split; [exact H1|]. split; [exact H2|].
  destruct (handleGenerateContent_api_failure sample_env flaky_net (js "gravity")
              NonError legacy_state empty_world H1 H2 eq_refl)
    as (st' & w' & Hrun & Hlines & _ & _ & _ & _ & Hlog).
  - vm_compute. repeat constructor; discriminate.
  - exists st', w'. split; [exact Hrun|]. split; [exact Hlines | exact Hlog].
Defined.

Lemma handleGenerateContent_always_settles_witness :
  is_blank (js "gravity") = false /\
  truthy_opt (LegacyApp.error legacy_state)
  && truthy (LegacyApp.currentStatusMessage legacy_state) = true /\
  exists st' w',
    LegacyApp.handleGenerateContent sample_env script_net (js "gravity")
      legacy_state empty_world = (Returned st', w') /\
    LegacyApp.error st' = None /\
    LegacyApp.currentStatusMessage st' = [].
Proof.
  assert (H1 : is_blank (js "gravity") = false) by reflexivity.
  assert (H2 : truthy_opt (LegacyApp.error legacy_state)
               && truthy (LegacyApp.currentStatusMessage legacy_state) = true)
    by reflexivity.
  split; [exact H1|]. split; [exact H2|].
  destruct (proj2 (handleGenerateContent_always_settles sample_env script_net
                     (js "gravity") legacy_state empty_world) H1)
    as (st' & w' & Hrun & _ & Hstale & _).
  exists st', w'. split; [exact Hrun|]. split; [|exact (Hstale H2)].
  assert (Hc : fst (LegacyApp.handleGenerateContent sample_env script_net
                      (js "gravity") legacy_state empty_world)
               = Returned st') by (rewrite Hrun; reflexivity).
  vm_compute in Hc. injection Hc as <-. reflexivity.
Defined.

(** ** The caption under the audio player *)

Lemma toLowerCase_app (a b : jsstring) :
  toLowerCase (a ++ b) = toLowerCase a ++ toLowerCase b.
Proof. apply List.map_app. Qed.

Lemma js_cons (c : ascii) (s : string) : js (String c s) = N_of_ascii c :: js s.
Proof. reflexivity. Qed.

Lemma string_of_uint_digits (d : Decimal.uint) :
  Forall (fun c => (48 <= c <= 57)%N) (js (NilEmpty.string_of_uint d)).
Proof.
  induction d; cbn [NilEmpty.string_of_uint]; rewrite ?js_cons;
    [constructor | constructor; [vm_compute; split; discriminate | assumption] ..].
Qed.

Lemma of_nat_digits (n : nat) :
  Forall (fun c => (48 <= c <= 57)%N) (of_nat n) /\ of_nat n <> [].
Proof.
  unfold of_nat, of_N, NilZero.string_of_uint.
  destruct (N.to_uint (N.of_nat n));
    (split;
     [try apply string_of_uint_digits
     |cbn [NilEmpty.string_of_uint]; rewrite js_cons; discriminate]).
  repeat constructor; vm_compute; discriminate.
Qed.

Lemma toLowerCase_digits (d : jsstring) :
  Forall (fun c => (48 <= c <= 57)%N) d -> toLowerCase d = d.
Proof.
  induction 1 as [|c d Hc _ IH]; [reflexivity|].
  unfold toLowerCase in *. cbn [List.map]. rewrite IH. f_equal.
  destruct (lower_unit_cases c) as [[-> _]|[_ H]]; [reflexivity | lia].
Qed.

(** A pattern that holds none of the units of a non-empty middle part
    occurs in the whole only if it occurs before or after that part. *)
Lemma includes_around (a d b p : jsstring) :
  d <> [] -> p <> [] ->
  (forall c, In c d -> ~ In c p) ->
  includes (a ++ d ++ b) p = true ->
  includes a p = true \/ includes b p = true.
Proof.
  intros Hd Hp Hdisj H. apply includes_true in H as (x & y & H).
  apply List.app_eq_app in H as (l & [(Ha & H)|(Hx & H)]).
  - (* the pattern starts inside [a] *)
    apply List.app_eq_app in H as (l' & [(Hp' & H)|(Hl & H)]).
    + destruct l' as [|c l'].
      * left. apply includes_true. exists x, []. rewrite Ha, Hp', !app_nil_r.
        reflexivity.
      * exfalso. destruct d as [|c' d']; [congruence|].
        injection H as -> _. apply (Hdisj c); [left; reflexivity|].
        rewrite Hp'. apply in_or_app. right. left. reflexivity.
    + left. apply includes_true. exists x, l'. rewrite Ha, Hl.
      reflexivity.
  - (* the pattern starts at or after the middle part *)
    apply List.app_eq_app in H as (l' & [(Hd' & H)|(Hl & H)]).
    + destruct l' as [|c l'].
      * right. apply includes_true. exists [], y. simpl in H. rewrite <- H.
        reflexivity.
      * exfalso. destruct p as [|c' p']; [congruence|].
        injection H as -> _. apply (Hdisj c); [|left; reflexivity].
        rewrite Hd'. apply in_or_app. right. left. reflexivity.
    + right. apply includes_true. exists l', y. exact H.
Qed.

Lemma caption_of_success (k : nat) :
  MediaPreview.audioCaption
    (js "Audio successfully generated with " ++ of_nat k
     ++ js " segments using multiple voices.")
  = js "(Audio from ElevenLabs)".
Proof.
  destruct (of_nat_digits k) as (Hdig & Hne).
  assert (Hno : forall p,
    negb (eqb p []) = true ->
    forallb (fun c => negb ((48 <=? c) && (c <=? 57))%N) p = true ->
    includes (js "audio successfully generated with ") p = false ->
    includes (js " segments using multiple voices.") p = false ->
    includes (toLowerCase (js "Audio successfully generated with " ++ of_nat k
                           ++ js " segments using multiple voices.")) p = false).
  { intros p Hp Hpd Ha Hb.
    apply negb_true_iff, eqb_false in Hp.
    rewrite !toLowerCase_app, (toLowerCase_digits _ Hdig).
    change (toLowerCase (js "Audio successfully generated with "))
      with (js "audio successfully generated with ").
    change (toLowerCase (js " segments using multiple voices."))
      with (js " segments using multiple voices.").
    match goal with |- ?x = false => destruct x eqn:E; [|reflexivity] end.
    apply includes_around in E as [E|E]; try congruence.
    intros c Hc Hcp. rewrite List.Forall_forall in Hdig.
    rewrite List.forallb_forall in Hpd.
    specialize (Hpd c Hcp). specialize (Hdig c Hc).
    apply negb_true_iff, andb_false_iff in Hpd.
    destruct Hpd as [Hpd|Hpd]; apply N.leb_gt in Hpd; lia. }
  unfold MediaPreview.audioCaption.
  rewrite (Hno (js "simulated")), (Hno (js "placeholder"));
    vm_compute; reflexivity.
Qed.

Lemma caption_of_failure (m : jsstring) :
  MediaPreview.audioCaption
    (js "Multi-voice audio generation failed: " ++ m
     ++ js ". Placeholder audio provided.")
  = js "(Placeholder/Simulated audio)".
Proof.
  unfold MediaPreview.audioCaption.
  assert (H : includes
                (toLowerCase (js "Multi-voice audio generation failed: " ++ m
                              ++ js ". Placeholder audio provided."))
                (js "placeholder") = true).
  { rewrite app_assoc, toLowerCase_app.
    change (toLowerCase (js ". Placeholder audio provided."))
      with (js ". " ++ js "placeholder" ++ js " audio provided.").
    rewrite app_assoc. apply includes_app. }
  rewrite H, orb_true_r. reflexivity.
Qed.

(** X22. The caption under the audio player tells the truth about the
    synthesizer of part_000: for every result whose url is not empty (the
    only ones for which a player is shown), the caption computed from the
    result's status message is "(Audio from ElevenLabs)" when the url is a
    newly created object url and "(Placeholder/Simulated audio)" when the
    url is the placeholder, whatever error message the network produced. *)
Theorem audioCaption_truthful
    (env : ProcessEnv) (net : Platform) (lines : list ScriptLine) (w : World) :
  exists res w',
    Part000.generateAudioWithElevenLabs env net lines w = (Returned res, w') /\
    (url res = []
     \/ (url res = object_url (length (objectURLs w)) /\
         url res <> Part000.PLACEHOLDER_AUDIO_URL /\
         MediaPreview.audioCaption (statusMessage res) = js "(Audio from ElevenLabs)")
     \/ (url res = Part000.PLACEHOLDER_AUDIO_URL /\
         MediaPreview.audioCaption (statusMessage res)
         = js "(Placeholder/Simulated audio)")).
Proof.
  destruct (truthy_opt (ELEVENLABS_API_KEY env)) eqn:Hkey.
  2:{ rewrite generateAudio_no_key by exact Hkey.
      eexists _, _. split; [reflexivity|]. right. right.
      split; [reflexivity | vm_compute; reflexivity]. }
  destruct (decide (lines = [])) as [->|Hne].
  { rewrite generateAudio_no_lines by exact Hkey.
    eexists _, _. split; [reflexivity|]. left. reflexivity. }
  rewrite generateAudio_some_lines by assumption.
  unfold try_catch, Part000.generateAudio_try. unfold bind at 1.
  destruct (segments_loop_frame env net lines (length lines) 0 [] w) as (Hb & _).
  destruct (Part000.segments_loop env net (length lines) 0 lines [] w)
    as [[segs|e] w1]; cbn [snd] in Hb.
  2:{ unfold Part000.generateAudio_catch, ret.
      eexists _, _. split; [reflexivity|]. right. right.
      split; [reflexivity | apply caption_of_failure]. }
  destruct (length segs =? 0).
  { unfold ret. eexists _, _. split; [reflexivity|]. left. reflexivity. }
  unfold bind at 1.
  destruct (concatenateAudioBuffers_frame segs w1) as (Hb2 & _).
  destruct (Part000.concatenateAudioBuffers segs w1) as [[b|e] w2];
    cbn [snd] in Hb2.
  2:{ unfold Part000.generateAudio_catch, ret.
      eexists _, _. split; [reflexivity|]. right. right.
      split; [reflexivity | apply caption_of_failure]. }
  unfold bind, new_Blob, createObjectURL, ret.
  eexists _, _. split; [reflexivity|]. right. left.
  cbn [url statusMessage]. rewrite Hb2, Hb.
  split; [reflexivity|]. split; [|apply caption_of_success].
  unfold object_url.
  change (js "blob:") with (98%N :: List.tl (js "blob:")).
  change Part000.PLACEHOLDER_AUDIO_URL
    with (104%N :: List.tl Part000.PLACEHOLDER_AUDIO_URL).
  discriminate.
Qed.

(** ** From a topic to audio *)

(** X23. Submitting a topic and then generating audio.  With both
    credentials present, a generation API that answers a text with at least
    one speaker line whose text is not blank, and a network that answers,
    handleTopicSubmit puts the parsed script on display and marks it dirty,
    and handleFinalizeAndGenerateAudio on the resulting state requests
    exactly the non-blank lines of that script, in order, and ends with a
    new object url as audio url, the dirty flag off and no error; the two
    handlers together make one generation request. *)
Theorem topic_then_audio
    (env : ProcessEnv) (net : Platform) (currentTopic t : jsstring)
    (bufs : list (list byte)) (st : App.State) (w : World) :
  is_blank currentTopic = false ->
  truthy_opt (API_KEY env) = true ->
  truthy_opt (ELEVENLABS_API_KEY env) = true ->
  generateContent net (genLog w) (script_request currentTopic)
  = GenResponse (Some t) ->
  is_blank t = false ->
  spoken (App.parseScriptText t) <> [] ->
  answered net (ttsLog w)
    (List.map (request_of env) (spoken (App.parseScriptText t))) bufs ->
  exists st1 w1 st2 w2,
    AppHandlers.handleTopicSubmit env net currentTopic st w = (Returned st1, w1) /\
    AppHandlers.handleFinalizeAndGenerateAudio env net st1 w1 = (Returned st2, w2) /\
    App.scriptLines st1 = App.parseScriptText t /\
    App.isScriptDirty st1 = true /\
    App.audioUrl st1 = [] /\
    App.scriptLines st2 = App.parseScriptText t /\
    App.audioUrl st2 = object_url (length (objectURLs w)) /\
    App.isScriptDirty st2 = false /\
    App.error st2 = None /\
    ttsLog w2
    = ttsLog w ++ List.map (request_of env) (spoken (App.parseScriptText t)) /\
    genLog w2 = genLog w ++ [script_request currentTopic].
Proof.
  intros Htopic Hkey Hxi Hgen Hb Hsp Hans.
  set (w1 := with_genLog w (genLog w ++ [script_request currentTopic])).
  assert (Hscript : Part000.generateScript env net currentTopic w = (Returned t, w1)).
  { rewrite (generateScript_run env net currentTopic w Hkey), Hgen, Hb.
    reflexivity. }
  assert (Hparse : App.parseScriptText t <> []).
  { intros E. apply Hsp. rewrite E. reflexivity. }
  assert (Hne : bufs <> []).
  { intros ->. apply answered_length in Hans. rewrite length_map in Hans.
    destruct (spoken (App.parseScriptText t)); [congruence | discriminate]. }
  destruct (generateAudio_try_answered env net (App.parseScriptText t) w1 bufs
              Hans Hne) as (ts & Htry).
  set (st1 := AppHandlers.setIsLoadingScript false
                (AppHandlers.topic_after_script t (AppHandlers.topic_reset st))).
  assert (Hst1 : App.scriptLines st1 = App.parseScriptText t /\
                 App.isScriptDirty st1 = true /\ App.audioUrl st1 = []).
  { subst st1. unfold AppHandlers.topic_after_script.
    destruct (App.parseScriptText t) as [|r rs]; [congruence|].
    cbn [length Nat.eqb andb Nat.ltb Nat.leb]. repeat split. }
  destruct Hst1 as (Hlines1 & Hdirty1 & Haudio1).
  exists st1, w1. eexists _, _. split.
  { unfold AppHandlers.handleTopicSubmit. rewrite blank_topic_test, Htopic.
    unfold try_catch, bind, ret. rewrite Hscript. reflexivity. }
  split.
  { unfold AppHandlers.handleFinalizeAndGenerateAudio. rewrite Hlines1.
    replace (length (App.parseScriptText t) =? 0) with false
      by (destruct (App.parseScriptText t); [congruence | reflexivity]).
    unfold try_catch, bind, ret.
    rewrite (generateAudio_some_lines env net _ w1 Hxi Hparse).
    unfold try_catch. rewrite Htry. reflexivity. }
  split; [exact Hlines1|]. split; [exact Hdirty1|]. split; [exact Haudio1|].
  cbn. split; [exact Hlines1|]. repeat split.
Qed.

Lemma topic_then_audio_witness :
  is_blank (js "gravity") = false /\
  truthy_opt (API_KEY sample_env) = true /\
  truthy_opt (ELEVENLABS_API_KEY sample_env) = true /\
  exists st1 w1 st2 w2,
    AppHandlers.handleTopicSubmit sample_env script_net (js "gravity")
      sample_state empty_world = (Returned st1, w1) /\
    AppHandlers.handleFinalizeAndGenerateAudio sample_env script_net st1 w1
    = (Returned st2, w2) /\
    App.scriptLines st2 = sample_lines /\
    App.audioUrl st2 = js "blob:0" /\
    List.map req_text (ttsLog w2) = [js "Gravity pulls."; js "Right."].
Proof.
  assert (H1 : is_blank (js "gravity") = false) by reflexivity.
  assert (H2 : truthy_opt (API_KEY sample_env) = true) by reflexivity.
  assert (H3 : truthy_opt (ELEVENLABS_API_KEY sample_env) = true) by reflexivity.
  split; [exact H1|]. split; [exact H2|]. split; [exact H3|].
  destruct (topic_then_audio sample_env script_net (js "gravity")
              (js "Person A: Gravity pulls." ++ [10%N] ++ js "Person B: Right.")
              [[x01; x02]; [x03]] sample_state empty_world H1 H2 H3 eq_refl eq_refl)
    as (st1 & w1 & st2 & w2 & Hr1 & Hr2 & _ & _ & _ & Hl & Hu & _ & _ & Hlog & _).
  - vm_compute. discriminate.
  - vm_compute. repeat split.
  - exists st1, w1, st2, w2. split; [exact Hr1|]. split; [exact Hr2|].
    split; [rewrite Hl; vm_compute; reflexivity|]. split; [exact Hu|].
    rewrite Hlog. vm_compute. reflexivity.
Defined.
